(** * FinWise budgets and budget alerts (package [models])

    A shallow embedding of the budget part of the [models] package:
    [GetBudget], [GetBudgets], [CreateBudget], [UpdateBudget],
    [DeleteBudget], [CreateBudgetAlert], [GetBudgetAlerts],
    [UpdateBudgetAlert], [DeleteBudgetAlert] and [CheckBudgetAlerts],
    together with the tables of [initTables] they read and write.

    - The MySQL database behind the global [DB] handle is a record of
      tables (lists of rows); every SQL statement of the source is a pure
      function on these tables.
    - Go code that talks to [DB] is written in a state-and-error monad
      over a [Store]: the committed tables, the open transaction, a
      schedule of driver failures and the log of statements issued.
    - [float64] is Rocq's primitive binary64 float; [uint] identifiers are
      [N]; [int] thresholds are [Z]; DECIMAL(10,2) amounts are [Z] cents.
    - [time.Time] values are civil date-times in UTC. *)

From Stdlib Require Import ZArith NArith List String Ascii Bool Lia.
From Stdlib Require Import Permutation.
From Stdlib Require Import Floats Uint63.
Import ListNotations.

Local Open Scope Z_scope.

(** ** Errors

    The source builds its errors with [errors.New] and [fmt.Errorf], or
    hands the error of the driver back unchanged.  One constructor per
    error value. *)

Inductive error : Type :=
| ErrMonthFormat            (* "月份格式错误，正确格式为：YYYY-MM" *)
| ErrCategoryNotOwned       (* "分类不存在或不属于当前用户" *)
| ErrCategoryNotExpense     (* "只能为支出分类设置预算" *)
| ErrBudgetExistsCategory   (* "该分类在当月已有预算设置" *)
| ErrBudgetExistsTotal      (* "当月已有总预算设置" *)
| ErrBudgetNotFound         (* "预算不存在" *)
| ErrThresholdRange         (* "阈值必须在1-100之间" *)
| ErrAlertExists (threshold : Z) (* "已存在相同阈值(%d%%)的告警" *)
| ErrAlertNotFound          (* "预算告警不存在" *)
| ErrNoRows                 (* sql.ErrNoRows, handed back as it is *)
| ErrDuplicateEntry         (* MySQL 1062, UNIQUE KEY unique_budget *)
| ErrOutOfRange             (* MySQL 1264, amount outside DECIMAL(10,2) *)
| ErrTxDone                 (* sql.ErrTxDone *)
| ErrTimeParse              (* *time.ParseError on a month read back *)
| ErrDriver.                (* any other failure of the connection *)

Inductive ErrorKind : Type :=
| ValidationError | ConflictError | NotFoundError | PersistenceError.

(** Modelled from the spec: the error taxonomy of its section 7; the
    source has no typed errors.  The errors the source words itself are
    classified by what they say; an error of the driver that the source
    logs and returns unchanged is a persistence error. *)
Definition classify (e : error) : ErrorKind :=
  match e with
  | ErrMonthFormat | ErrCategoryNotOwned | ErrCategoryNotExpense
  | ErrThresholdRange => ValidationError
  | ErrBudgetExistsCategory | ErrBudgetExistsTotal | ErrAlertExists _ =>
      ConflictError
  | ErrBudgetNotFound | ErrAlertNotFound => NotFoundError
  | ErrNoRows | ErrDuplicateEntry | ErrOutOfRange | ErrTxDone
  | ErrTimeParse | ErrDriver => PersistenceError
  end.

Inductive Result (A : Type) : Type :=
| Ok (a : A)
| Err (e : error).
Arguments Ok {A} a.
Arguments Err {A} e.

(** ** Calendar: the part of package [time] the source uses *)

Record Date : Type := mkDate { d_year : Z; d_month : Z; d_day : Z }.

(** A [time.Time] in UTC: a civil date and the second of the day. *)
Record Time : Type := mkTime { t_date : Date; t_sec : Z }.

Definition isLeap (y : Z) : bool :=
  (y mod 4 =? 0) && (negb (y mod 100 =? 0) || (y mod 400 =? 0)).

Definition daysIn (y m : Z) : Z :=
  if m =? 2 then (if isLeap y then 29 else 28)
  else if (m =? 4) || (m =? 6) || (m =? 9) || (m =? 11) then 30
  else 31.

(** [t.AddDate(0, months, 0)]: [time.Date] normalises the month into
    1..12 carrying into the year, then a day past the end of the month
    runs over into the next one. *)
Definition AddDate_months (t : Time) (months : Z) : Time :=
  let d := t_date t in
  let m0 := d_month d - 1 + months in
  let y := d_year d + m0 / 12 in
  let m := m0 mod 12 + 1 in
  if d_day d <=? daysIn y m then mkTime (mkDate y m (d_day d)) (t_sec t)
  else
    let over := d_day d - daysIn y m in
    if m =? 12 then mkTime (mkDate (y + 1) 1 over) (t_sec t)
    else mkTime (mkDate y (m + 1) over) (t_sec t).

Definition prev_day (d : Date) : Date :=
  if 1 <? d_day d then mkDate (d_year d) (d_month d) (d_day d - 1)
  else if 1 <? d_month d then
    mkDate (d_year d) (d_month d - 1) (daysIn (d_year d) (d_month d - 1))
  else mkDate (d_year d - 1) 12 31.

(** [t.Add(-time.Second)] *)
Definition Add_minus_second (t : Time) : Time :=
  if 0 <? t_sec t then mkTime (t_date t) (t_sec t - 1)
  else mkTime (prev_day (t_date t)) 86399.

(** [t.Format("2006-01-02")], handed to MySQL as a DATE literal. *)
Definition Format_date (t : Time) : Date := t_date t.

Definition date_eqb (a b : Date) : bool :=
  (d_year a =? d_year b) && (d_month a =? d_month b) && (d_day a =? d_day b).

(** The order of MySQL on DATE values. *)
Definition date_leb (a b : Date) : bool :=
  (d_year a <? d_year b)
  || ((d_year a =? d_year b)
      && ((d_month a <? d_month b)
          || ((d_month a =? d_month b) && (d_day a <=? d_day b)))).

(** [x BETWEEN lo AND hi] *)
Definition between (x lo hi : Date) : bool := date_leb lo x && date_leb x hi.

(** The first and the last day of a month, as the spec words the range
    of a budget. *)
Definition first_day (month : Date) : Date :=
  mkDate (d_year month) (d_month month) 1.

Definition last_day (month : Date) : Date :=
  mkDate (d_year month) (d_month month) (daysIn (d_year month) (d_month month)).

(** *** Month strings "YYYY-MM" *)

Definition digit_of_ascii (c : ascii) : option Z :=
  let n := Z.of_N (N_of_ascii c) in
  if (48 <=? n) && (n <=? 57) then Some (n - 48) else None.

Definition ascii_of_digit (d : Z) : ascii := ascii_of_N (Z.to_N (d + 48)).

(** [time.Parse("2006-01", s)]: four digits, a dash, two digits that name
    a month in 1..12, and nothing after them; the day is 1 and the time
    midnight UTC. *)
Definition parse_month (s : string) : option Time :=
  match s with
  | String c1 (String c2 (String c3 (String c4
      (String sep (String c5 (String c6 EmptyString)))))) =>
      match digit_of_ascii c1, digit_of_ascii c2, digit_of_ascii c3,
            digit_of_ascii c4, digit_of_ascii c5, digit_of_ascii c6 with
      | Some y1, Some y2, Some y3, Some y4, Some m1, Some m2 =>
          let m := 10 * m1 + m2 in
          if Ascii.eqb sep "-" && (1 <=? m) && (m <=? 12)
          then Some (mkTime (mkDate (1000 * y1 + 100 * y2 + 10 * y3 + y4) m 1) 0)
          else None
      | _, _, _, _, _, _ => None
      end
  | _ => None
  end.

(** Year on four digits, a dash, month on two digits: what
    [t.Format("2006-01")] and MySQL's [DATE_FORMAT(d, '%Y-%m')] both
    print for a year in 0..9999. *)
Definition format_ym (d : Date) : string :=
  let y := d_year d in
  let m := d_month d in
  String (ascii_of_digit (y / 1000 mod 10))
    (String (ascii_of_digit (y / 100 mod 10))
      (String (ascii_of_digit (y / 10 mod 10))
        (String (ascii_of_digit (y mod 10))
          (String "-"
            (String (ascii_of_digit (m / 10 mod 10))
              (String (ascii_of_digit (m mod 10)) EmptyString)))))).

Definition Format_ym (t : Time) : string := format_ym (t_date t).
Definition DATE_FORMAT_Ym (d : Date) : string := format_ym d.

Definition valid_month (d : Date) : Prop :=
  0 <= d_year d <= 9999 /\ 1 <= d_month d <= 12.

(** ** float64 *)

(** [float64(n)] for an [int] *)
Definition float64_of_int (n : Z) : float :=
  match n with
  | Z0 => 0%float
  | Zpos _ => PrimFloat.of_uint63 (Uint63.of_Z n)
  | Zneg p => PrimFloat.opp (PrimFloat.of_uint63 (Uint63.of_Z (Zpos p)))
  end.

(** ** The tables of [initTables]

    Columns no statement of the budget code reads or writes (timestamps,
    descriptions) are left out.  The [users] table is not modelled: the
    user identity comes from the JWT filter. *)

Inductive kind : Type := income | expense.   (* ENUM('income','expense') *)

Definition kind_eqb (a b : kind) : bool :=
  match a, b with
  | income, income | expense, expense => true
  | _, _ => false
  end.

Record CategoryRow : Type := mkCategoryRow {
  cat_id : N;
  cat_user_id : N;
  cat_name : string;
  cat_type : kind;
  cat_icon : option string
}.

Record BillRow : Type := mkBillRow {
  bill_id : N;
  bill_user_id : N;
  bill_category_id : N;
  bill_amount : Z;              (* DECIMAL(10,2), in cents *)
  bill_type : kind;
  bill_date : Date
}.

Record BudgetRow : Type := mkBudgetRow {
  bud_id : N;
  bud_user_id : N;
  bud_category_id : option N;   (* INT, NULL for a total budget *)
  bud_amount : Z;               (* DECIMAL(10,2), in cents *)
  bud_month : Date
}.

Record AlertRow : Type := mkAlertRow {
  al_id : N;
  al_user_id : N;
  al_budget_id : N;
  al_threshold : Z;
  al_is_active : bool
}.

Record Tables : Type := mkTables {
  categories : list CategoryRow;
  bills : list BillRow;
  budgets : list BudgetRow;
  budget_alerts : list AlertRow;
  next_budget_id : N;           (* AUTO_INCREMENT of budgets *)
  next_alert_id : N             (* AUTO_INCREMENT of budget_alerts *)
}.

(** A row of the budget SELECT of [GetBudget] and [GetBudgets]:
    [budgets b LEFT JOIN categories c ON b.category_id = c.id]. *)
Definition BudgetJoin : Type := (BudgetRow * option CategoryRow)%type.

(** A row of the alert SELECT of [CheckBudgetAlerts]. *)
Record ActiveAlertRow : Type := mkActiveAlertRow {
  aa_id : N;
  aa_budget_id : N;
  aa_threshold : Z;
  aa_amount : Z;
  aa_category_id : option N;
  aa_category_name : option string
}.

(** What the MySQL server and its Go driver do and the source does not
    say: how a [float64] parameter becomes a DECIMAL(10,2) (or is out of
    range), how a DECIMAL is scanned into a [float64], and in which order
    [ORDER BY] returns the selected rows (it depends on the collation and
    leaves ties open; all that is used is that it returns the same rows). *)
Class SqlEngine : Type := mkSqlEngine {
  decimal_of_float64 : float -> option Z;
  float64_of_decimal : Z -> float;
  order_budgets : list BudgetJoin -> list BudgetJoin;
  order_alerts : list AlertRow -> list AlertRow;
  order_budgets_perm : forall l, Permutation (order_budgets l) l;
  order_alerts_perm : forall l, Permutation (order_alerts l) l
}.

(** ** The Go structs *)

Module Budget.
Record t : Type := mk {
  ID : N;
  UserID : N;
  CategoryID : N;
  Amount : float;
  Month : Time;
  CategoryName : string;
  CategoryIcon : string;
  UsedAmount : float;
  Percentage : float
}.
End Budget.

Module BudgetRequest.
Record t : Type := mk {
  CategoryID : N;
  Amount : float;
  Month : string
}.
End BudgetRequest.

Module BudgetAlert.
Record t : Type := mk {
  ID : N;
  UserID : N;
  BudgetID : N;
  Threshold : Z;
  IsActive : bool
}.
End BudgetAlert.

Module BudgetAlertRequest.
Record t : Type := mk {
  BudgetID : N;
  Threshold : Z;
  IsActive : bool
}.
End BudgetAlertRequest.

Inductive BudgetType : Type := budget_type_category | budget_type_total.

(** The [map[string]interface{}] that [CheckBudgetAlerts] builds for a
  triggered alert: a field per key, optional where the key is. *)
Module AlertInfo.
Record t : Type := mk {
  alert_id : N;
  budget_id : N;
  threshold : Z;
  used_percent : float;
  used_amount : float;
  budget_amount : float;
  category_id : option N;
  category_name : option string;
  budget_type : BudgetType
}.
End AlertInfo.

(** ** The store and the monad of database code *)

(** The statements of the source, as they appear in the log. *)
Inductive DbCall : Type :=
| QBudgetById | QListBudgets | QSumBills
| QCategoryCheck | QCountBudgets
| XInsertBudget | XUpdateBudget
| TxBegin | TxDeleteAlerts | TxDeleteBudget | TxCommit | TxRollback
| QCountAlerts | XInsertAlert | QListAlerts
| QAlertExists | XUpdateAlert | QAlertById | XDeleteAlert
| QActiveAlerts.

(** Statements that only read. *)
Definition is_query (c : DbCall) : bool :=
  match c with
  | QBudgetById | QListBudgets | QSumBills | QCategoryCheck | QCountBudgets
  | QCountAlerts | QListAlerts | QAlertExists | QAlertById | QActiveAlerts =>
      true
  | _ => false
  end.

(** [tables] is the committed database; [pending] the working copy of the
    open transaction, if any; [faults] says for each coming statement
    whether the driver fails on it (none left: no failure); [log] the
    statements issued so far. *)
Record Store : Type := mkStore {
  tables : Tables;
  pending : option Tables;
  faults : list bool;
  log : list DbCall
}.

Definition DB (A : Type) : Type := Store -> Result A * Store.

Definition ret {A} (a : A) : DB A := fun s => (Ok a, s).
Definition fail {A} (e : error) : DB A := fun s => (Err e, s).
Definition bind {A B} (m : DB A) (k : A -> DB B) : DB B :=
  fun s => match m s with
           | (Ok a, s1) => k a s1
           | (Err e, s1) => (Err e, s1)
           end.

Declare Scope db_scope.
Delimit Scope db_scope with db.
Notation "x <- m ;; k" := (bind m (fun x => k))
  (at level 100, m at next level, right associativity) : db_scope.
Notation "m ;;; k" := (bind m (fun _ => k))
  (at level 100, right associativity) : db_scope.
Local Open Scope db_scope.

(** The store after a statement was sent: one fault consumed, one entry
    more in the log. *)
Definition tick (c : DbCall) (s : Store) : Store :=
  mkStore (tables s) (pending s) (tl (faults s)) (log s ++ [c]).

Definition faulty (s : Store) : bool := hd false (faults s).

(** [DB.QueryRow(...).Scan], [DB.Query] with its row loop. *)
Definition db_query {A} (c : DbCall) (q : Tables -> Result A) : DB A :=
  fun s => if faulty s then (Err ErrDriver, tick c s)
           else (q (tables s), tick c s).

(** [DB.Exec]: the statement is applied to the committed tables, or
    fails and leaves them. *)
Definition db_exec {A} (c : DbCall) (x : Tables -> Result (A * Tables))
  : DB A :=
  fun s => if faulty s then (Err ErrDriver, tick c s)
           else match x (tables s) with
                | Ok (a, t') =>
                    (Ok a, mkStore t' (pending s) (tl (faults s)) (log s ++ [c]))
                | Err e => (Err e, tick c s)
                end.

(** [DB.Begin] *)
Definition Begin : DB unit :=
  fun s => if faulty s then (Err ErrDriver, tick TxBegin s)
           else (Ok tt, mkStore (tables s) (Some (tables s))
                                (tl (faults s)) (log s ++ [TxBegin])).

(** [tx.Exec]: applied to the working copy of the transaction. *)
Definition tx_exec {A} (c : DbCall) (x : Tables -> Result (A * Tables))
  : DB A :=
  fun s => if faulty s then (Err ErrDriver, tick c s)
           else match pending s with
                | None => (Err ErrTxDone, tick c s)
                | Some w =>
                    match x w with
                    | Ok (a, w') =>
                        (Ok a, mkStore (tables s) (Some w')
                                       (tl (faults s)) (log s ++ [c]))
                    | Err e => (Err e, tick c s)
                    end
                end.

(** [tx.Rollback]: the working copy is dropped.  The source ignores its
    result. *)
Definition Rollback : DB unit :=
  fun s => (Ok tt, mkStore (tables s) None (tl (faults s))
                           (log s ++ [TxRollback])).

(** [tx.Commit]: the working copy becomes the committed tables; when the
    commit fails nothing of it is applied and the transaction is over. *)
Definition Commit : DB unit :=
  fun s => if faulty s
           then (Err ErrDriver, mkStore (tables s) None (tl (faults s))
                                         (log s ++ [TxCommit]))
           else match pending s with
                | None => (Err ErrTxDone, tick TxCommit s)
                | Some w => (Ok tt, mkStore w None (tl (faults s))
                                            (log s ++ [TxCommit]))
                end.

(** [if err != nil { tx.Rollback(); return err }] *)
Definition or_rollback {A} (m : DB A) : DB A :=
  fun s => match m s with
           | (Ok a, s1) => (Ok a, s1)
           | (Err e, s1) => (Err e, snd (Rollback s1))
           end.

(** [if err == sql.ErrNoRows { return nil, errors.New(...) }] *)
Definition no_rows_as {A} (e : error) (m : DB A) : DB A :=
  fun s => match m s with
           | (Err ErrNoRows, s1) => (Err e, s1)
           | r => r
           end.

(** The first row of a [QueryRow], [sql.ErrNoRows] when there is none. *)
Definition first_row {A} (rows : list A) : Result A :=
  match rows with
  | [] => Err ErrNoRows
  | r :: _ => Ok r
  end.

(** ** The SQL statements of the source, on [Tables] *)

(** [col = ?] on a nullable column: NULL equals nothing. *)
Definition null_eqb (col : option N) (v : N) : bool :=
  match col with
  | Some c => N.eqb c v
  | None => false
  end.

Definition is_null (col : option N) : bool :=
  match col with
  | Some _ => false
  | None => true
  end.

(** [id != ?], the exclusion of the row being updated; the statements of
    the create functions have no such clause. *)
Definition not_excluded (exclude : option N) (id : N) : bool :=
  match exclude with
  | Some x => negb (N.eqb id x)
  | None => true
  end.

Definition sum_amounts (l : list BillRow) : Z :=
  fold_right (fun b acc => bill_amount b + acc) 0 l.

(** [LEFT JOIN categories c ON b.category_id = c.id]; [id] is the
    primary key of [categories]. *)
Definition left_join_category (t : Tables) (b : BudgetRow) : BudgetJoin :=
  (b, match bud_category_id b with
      | Some c => find (fun r => N.eqb (cat_id r) c) (categories t)
      | None => None
      end).

(** [SELECT COALESCE(SUM(amount), 0) FROM bills WHERE user_id = ? AND
    category_id = ? AND type = 'expense' AND date BETWEEN ? AND ?] *)
Definition sum_bills_category (t : Tables) (userID categoryID : N)
  (lo hi : Date) : Z :=
  sum_amounts
    (filter (fun b => N.eqb (bill_user_id b) userID
                      && N.eqb (bill_category_id b) categoryID
                      && kind_eqb (bill_type b) expense
                      && between (bill_date b) lo hi)
            (bills t)).

(** [SELECT COALESCE(SUM(amount), 0) FROM bills WHERE user_id = ? AND
    type = 'expense' AND date BETWEEN ? AND ?] *)
Definition sum_bills_total (t : Tables) (userID : N) (lo hi : Date) : Z :=
  sum_amounts
    (filter (fun b => N.eqb (bill_user_id b) userID
                      && kind_eqb (bill_type b) expense
                      && between (bill_date b) lo hi)
            (bills t)).

(** [SELECT EXISTS(SELECT 1 FROM categories WHERE id = ? AND user_id = ?),
    type FROM categories WHERE id = ?]: a row for each category with that
    id. *)
Definition select_category_check (t : Tables) (categoryID userID : N)
  : list (bool * kind) :=
  map (fun c =>
         (existsb (fun c' => N.eqb (cat_id c') categoryID
                             && N.eqb (cat_user_id c') userID)
                  (categories t),
          cat_type c))
      (filter (fun c => N.eqb (cat_id c) categoryID) (categories t)).

(** [SELECT COUNT( * ) FROM budgets WHERE user_id = ? AND category_id = ?
    AND DATE_FORMAT(month, '%Y-%m') = ?], with [AND id != ?] in
    [UpdateBudget]. *)
Definition count_budgets_category (t : Tables) (userID categoryID : N)
  (month : string) (exclude : option N) : Z :=
  Z.of_nat (List.length
    (filter (fun b => N.eqb (bud_user_id b) userID
                      && null_eqb (bud_category_id b) categoryID
                      && String.eqb (DATE_FORMAT_Ym (bud_month b)) month
                      && not_excluded exclude (bud_id b))
            (budgets t))).

(** [SELECT COUNT( * ) FROM budgets WHERE user_id = ? AND category_id IS
    NULL AND DATE_FORMAT(month, '%Y-%m') = ?], with [AND id != ?] in
    [UpdateBudget]. *)
Definition count_budgets_total (t : Tables) (userID : N)
  (month : string) (exclude : option N) : Z :=
  Z.of_nat (List.length
    (filter (fun b => N.eqb (bud_user_id b) userID
                      && is_null (bud_category_id b)
                      && String.eqb (DATE_FORMAT_Ym (bud_month b)) month
                      && not_excluded exclude (bud_id b))
            (budgets t))).

(** [UNIQUE KEY unique_budget (user_id, category_id, month)]: two rows
    collide when the three columns are equal and the category is not
    NULL. *)
Definition same_key (userID : N) (categoryID : option N) (month : Date)
  (b : BudgetRow) : bool :=
  N.eqb (bud_user_id b) userID
  && match categoryID with
     | Some c => null_eqb (bud_category_id b) c
     | None => false
     end
  && date_eqb (bud_month b) month.

(** [DELETE FROM budget_alerts WHERE budget_id = ?] *)
Definition delete_alerts_of_budget (id : N) (t : Tables)
  : Result (unit * Tables) :=
  Ok (tt, mkTables (categories t) (bills t) (budgets t)
            (filter (fun a => negb (N.eqb (al_budget_id a) id))
                    (budget_alerts t))
            (next_budget_id t) (next_alert_id t)).

(** [DELETE FROM budgets WHERE id = ? AND user_id = ?]; the alerts of a
    deleted budget go with it ([FOREIGN KEY (budget_id) REFERENCES
    budgets(id) ON DELETE CASCADE]). *)
Definition delete_budget (id userID : N) (t : Tables)
  : Result (unit * Tables) :=
  let gone b := N.eqb (bud_id b) id && N.eqb (bud_user_id b) userID in
  let kept := filter (fun b => negb (gone b)) (budgets t) in
  Ok (tt, mkTables (categories t) (bills t) kept
            (filter (fun a =>
                       negb (existsb (fun b => gone b
                                               && N.eqb (bud_id b) (al_budget_id a))
                                     (budgets t)))
                    (budget_alerts t))
            (next_budget_id t) (next_alert_id t)).

(** [SELECT COUNT( * ) FROM budget_alerts WHERE budget_id = ? AND
    threshold = ?], with [AND id != ?] in [UpdateBudgetAlert]. *)
Definition count_alerts (t : Tables) (budgetID : N) (threshold : Z)
  (exclude : option N) : Z :=
  Z.of_nat (List.length
    (filter (fun a => N.eqb (al_budget_id a) budgetID
                      && (al_threshold a =? threshold)
                      && not_excluded exclude (al_id a))
            (budget_alerts t))).

(** [INSERT INTO budget_alerts (user_id, budget_id, threshold, is_active)
    VALUES (?, ?, ?, ?)] and [LastInsertId]. *)
Definition insert_alert (userID budgetID : N) (threshold : Z)
  (isActive : bool) (t : Tables) : Result (N * Tables) :=
  let id := next_alert_id t in
  Ok (id, mkTables (categories t) (bills t) (budgets t)
            (budget_alerts t
             ++ [mkAlertRow id userID budgetID threshold isActive])
            (next_budget_id t) (N.succ id)).

(** [SELECT EXISTS(SELECT 1 FROM budget_alerts WHERE id = ? AND
    user_id = ?)] *)
Definition alert_exists (t : Tables) (id userID : N) : bool :=
  existsb (fun a => N.eqb (al_id a) id && N.eqb (al_user_id a) userID)
          (budget_alerts t).

(** [UPDATE budget_alerts SET budget_id = ?, threshold = ?, is_active = ?
    WHERE id = ? AND user_id = ?] *)
Definition update_alert (id userID budgetID : N) (threshold : Z)
  (isActive : bool) (t : Tables) : Result (unit * Tables) :=
  Ok (tt, mkTables (categories t) (bills t) (budgets t)
            (map (fun a =>
                    if N.eqb (al_id a) id && N.eqb (al_user_id a) userID
                    then mkAlertRow (al_id a) (al_user_id a) budgetID
                                    threshold isActive
                    else a)
                 (budget_alerts t))
            (next_budget_id t) (next_alert_id t)).

(** [SELECT ... FROM budget_alerts WHERE id = ?] *)
Definition select_alert_by_id (t : Tables) (id : N) : list AlertRow :=
  filter (fun a => N.eqb (al_id a) id) (budget_alerts t).

(** [DELETE FROM budget_alerts WHERE id = ? AND user_id = ?] *)
Definition delete_alert (id userID : N) (t : Tables)
  : Result (unit * Tables) :=
  Ok (tt, mkTables (categories t) (bills t) (budgets t)
            (filter (fun a => negb (N.eqb (al_id a) id
                                    && N.eqb (al_user_id a) userID))
                    (budget_alerts t))
            (next_budget_id t) (next_alert_id t)).

(** [SELECT ba.id, ba.budget_id, ba.threshold, b.amount, b.category_id,
    c.name FROM budget_alerts ba JOIN budgets b ON ba.budget_id = b.id
    LEFT JOIN categories c ON b.category_id = c.id WHERE ba.user_id = ?
    AND ba.is_active = 1 AND DATE_FORMAT(b.month, '%Y-%m') = ?] *)
Definition select_active_alerts (t : Tables) (userID : N) (month : string)
  : list ActiveAlertRow :=
  flat_map
    (fun a =>
       map (fun b =>
              mkActiveAlertRow (al_id a) (al_budget_id a) (al_threshold a)
                (bud_amount b) (bud_category_id b)
                (option_map cat_name (snd (left_join_category t b))))
           (filter (fun b => N.eqb (al_budget_id a) (bud_id b)
                             && String.eqb (DATE_FORMAT_Ym (bud_month b)) month)
                   (budgets t)))
    (filter (fun a => N.eqb (al_user_id a) userID && al_is_active a)
            (budget_alerts t)).

Section Engine.

Context {engine : SqlEngine}.

(** [SELECT b.id, b.user_id, b.category_id, b.amount,
    DATE_FORMAT(b.month, '%Y-%m'), c.name, c.icon FROM budgets b LEFT JOIN
    categories c ON b.category_id = c.id WHERE b.id = ? AND b.user_id = ?] *)
Definition select_budget (t : Tables) (id userID : N) : list BudgetJoin :=
  map (left_join_category t)
      (filter (fun b => N.eqb (bud_id b) id && N.eqb (bud_user_id b) userID)
              (budgets t)).

(** The same SELECT [WHERE b.user_id = ? AND DATE_FORMAT(b.month, '%Y-%m')
    = ? ORDER BY b.category_id IS NULL DESC, c.name]. *)
Definition select_budgets_of_month (t : Tables) (userID : N)
  (month : string) : list BudgetJoin :=
  order_budgets
    (map (left_join_category t)
         (filter (fun b => N.eqb (bud_user_id b) userID
                           && String.eqb (DATE_FORMAT_Ym (bud_month b)) month)
                 (budgets t))).

(** [INSERT INTO budgets (user_id, category_id, amount, month) VALUES
    (?, ?, ?, ?)] (without [category_id] for a total budget) and
    [LastInsertId].  The DATE stored is the date of the [time.Time]. *)
Definition insert_budget (userID : N) (categoryID : option N)
  (amount : float) (month : Time) (t : Tables) : Result (N * Tables) :=
  match decimal_of_float64 amount with
  | None => Err ErrOutOfRange
  | Some cents =>
      if existsb (same_key userID categoryID (t_date month)) (budgets t)
      then Err ErrDuplicateEntry
      else
        let id := next_budget_id t in
        Ok (id, mkTables (categories t) (bills t)
                  (budgets t
                   ++ [mkBudgetRow id userID categoryID cents (t_date month)])
                  (budget_alerts t) (N.succ id) (next_alert_id t))
  end.

(** [UPDATE budgets SET category_id = ?, amount = ?, month = ? WHERE
    id = ? AND user_id = ?] ([category_id = NULL] for a total budget).
    The statement fails when a row it changes would collide with another
    row on [unique_budget]. *)
Definition update_budget (id userID : N) (categoryID : option N)
  (amount : float) (month : Time) (t : Tables) : Result (unit * Tables) :=
  match decimal_of_float64 amount with
  | None => Err ErrOutOfRange
  | Some cents =>
      let hit b := N.eqb (bud_id b) id && N.eqb (bud_user_id b) userID in
      if existsb hit (budgets t)
         && existsb (fun b => negb (N.eqb (bud_id b) id)
                              && same_key userID categoryID (t_date month) b)
                    (budgets t)
      then Err ErrDuplicateEntry
      else
        Ok (tt, mkTables (categories t) (bills t)
                  (map (fun b =>
                          if hit b
                          then mkBudgetRow (bud_id b) (bud_user_id b)
                                           categoryID cents (t_date month)
                          else b)
                       (budgets t))
                  (budget_alerts t) (next_budget_id t) (next_alert_id t))
  end.

(** [SELECT ... FROM budget_alerts WHERE user_id = ?], [AND budget_id = ?]
    when a budget is given, [ORDER BY threshold]. *)
Definition select_alerts (t : Tables) (userID budgetID : N)
  : list AlertRow :=
  order_alerts
    (filter (fun a => N.eqb (al_user_id a) userID
                      && (if N.ltb 0 budgetID
                          then N.eqb (al_budget_id a) budgetID
                          else true))
            (budget_alerts t)).

End Engine.

(** ** The functions of the source *)

Section Budgets.

Context {engine : SqlEngine}.

(** The struct [GetBudget] and [GetBudgets] fill from a scanned row: the
    nullable columns stay at their zero value when NULL; [UsedAmount] and
    [Percentage] are still zero. *)
Definition budget_of_row (j : BudgetJoin) (month : Time) : Budget.t :=
  Budget.mk
    (bud_id (fst j))
    (bud_user_id (fst j))
    (match bud_category_id (fst j) with Some c => c | None => 0%N end)
    (float64_of_decimal (bud_amount (fst j)))
    month
    (match snd j with Some c => cat_name c | None => ""%string end)
    (match snd j with
     | Some c => match cat_icon c with Some i => i | None => ""%string end
     | None => ""%string
     end)
    0%float 0%float.

(** The block both [GetBudget] and [GetBudgets] run on a scanned budget:
    the sum of the bills of the month, for the category of the budget or
    for all of them, then the percentage. *)
Definition with_usage (userID : N) (startDate endDate : Time)
  (budget : Budget.t) : DB Budget.t :=
  used <- db_query QSumBills
            (fun t =>
               Ok (float64_of_decimal
                     (if N.ltb 0 (Budget.CategoryID budget)
                      then sum_bills_category t userID
                             (Budget.CategoryID budget)
                             (Format_date startDate) (Format_date endDate)
                      else sum_bills_total t userID
                             (Format_date startDate) (Format_date endDate))));;
  ret (Budget.mk (Budget.ID budget) (Budget.UserID budget)
         (Budget.CategoryID budget) (Budget.Amount budget)
         (Budget.Month budget) (Budget.CategoryName budget)
         (Budget.CategoryIcon budget)
         used
         (if PrimFloat.ltb 0%float (Budget.Amount budget)
          then PrimFloat.mul (PrimFloat.div used (Budget.Amount budget))
                             100%float
          else Budget.Percentage budget)).

(** What [with_usage] returns on tables [t] when the driver does not
    fail. *)
Definition usage (t : Tables) (userID : N) (startDate endDate : Time)
  (budget : Budget.t) : Budget.t :=
  let used :=
    float64_of_decimal
      (if N.ltb 0 (Budget.CategoryID budget)
       then sum_bills_category t userID (Budget.CategoryID budget)
              (Format_date startDate) (Format_date endDate)
       else sum_bills_total t userID
              (Format_date startDate) (Format_date endDate)) in
  Budget.mk (Budget.ID budget) (Budget.UserID budget)
    (Budget.CategoryID budget) (Budget.Amount budget)
    (Budget.Month budget) (Budget.CategoryName budget)
    (Budget.CategoryIcon budget)
    used
    (if PrimFloat.ltb 0%float (Budget.Amount budget)
     then PrimFloat.mul (PrimFloat.div used (Budget.Amount budget)) 100%float
     else Budget.Percentage budget).

Definition GetBudget (id userID : N) : DB Budget.t :=
  j <- no_rows_as ErrBudgetNotFound
         (db_query QBudgetById
            (fun t => first_row (select_budget t id userID)));;
  match parse_month (DATE_FORMAT_Ym (bud_month (fst j))) with
  | None => fail ErrTimeParse
  | Some month =>
      let budget := budget_of_row j month in
      let startDate := Budget.Month budget in
      let endDate := Add_minus_second (AddDate_months startDate 1) in
      with_usage userID startDate endDate budget
  end.

(** The row loop of [GetBudgets]. *)
Fixpoint GetBudgets_rows (userID : N) (startDate endDate : Time)
  (rows : list BudgetJoin) : DB (list Budget.t) :=
  match rows with
  | [] => ret []
  | j :: rest =>
      match parse_month (DATE_FORMAT_Ym (bud_month (fst j))) with
      | None => fail ErrTimeParse
      | Some month =>
          budget <- with_usage userID startDate endDate
                      (budget_of_row j month);;
          budgets <- GetBudgets_rows userID startDate endDate rest;;
          ret (budget :: budgets)
      end
  end.

Definition GetBudgets (userID : N) (month : string) : DB (list Budget.t) :=
  match parse_month month with
  | None => fail ErrMonthFormat
  | Some parsedMonth =>
      let startDate := parsedMonth in
      let endDate := Add_minus_second (AddDate_months startDate 1) in
      rows <- db_query QListBudgets
                (fun t => Ok (select_budgets_of_month t userID month));;
      GetBudgets_rows userID startDate endDate rows
  end.

(** The checks [CreateBudget] runs before its INSERT and [UpdateBudget]
    runs when the category changes, the latter with [id != ?]. *)
Definition check_placement (userID categoryID : N) (month : string)
  (exclude : option N) : DB unit :=
  if N.ltb 0 categoryID then
    r <- db_query QCategoryCheck
           (fun t => first_row (select_category_check t categoryID userID));;
    if negb (fst r) then fail ErrCategoryNotOwned
    else if negb (kind_eqb (snd r) expense) then fail ErrCategoryNotExpense
    else
      count <- db_query QCountBudgets
                 (fun t => Ok (count_budgets_category t userID categoryID
                                 month exclude));;
      if 0 <? count then fail ErrBudgetExistsCategory else ret tt
  else
    count <- db_query QCountBudgets
               (fun t => Ok (count_budgets_total t userID month exclude));;
    if 0 <? count then fail ErrBudgetExistsTotal else ret tt.

Definition category_param (categoryID : N) : option N :=
  if N.ltb 0 categoryID then Some categoryID else None.

Definition CreateBudget (userID : N) (req : BudgetRequest.t)
  : DB Budget.t :=
  match parse_month (BudgetRequest.Month req) with
  | None => fail ErrMonthFormat
  | Some month =>
      check_placement userID (BudgetRequest.CategoryID req)
        (BudgetRequest.Month req) None;;;
      budgetID <- db_exec XInsertBudget
                    (insert_budget userID
                       (category_param (BudgetRequest.CategoryID req))
                       (BudgetRequest.Amount req) month);;
      GetBudget budgetID userID
  end.

Definition UpdateBudget (id userID : N) (req : BudgetRequest.t)
  : DB Budget.t :=
  budget <- GetBudget id userID;;
  (if negb (N.eqb (Budget.CategoryID budget) (BudgetRequest.CategoryID req))
   then check_placement userID (BudgetRequest.CategoryID req)
          (BudgetRequest.Month req) (Some id)
   else ret tt);;;
  match parse_month (BudgetRequest.Month req) with
  | None => fail ErrMonthFormat
  | Some month =>
      db_exec XUpdateBudget
        (update_budget id userID
           (category_param (BudgetRequest.CategoryID req))
           (BudgetRequest.Amount req) month);;;
      GetBudget id userID
  end.

Definition DeleteBudget (id userID : N) : DB unit :=
  GetBudget id userID;;;
  Begin;;;
  or_rollback (tx_exec TxDeleteAlerts (delete_alerts_of_budget id));;;
  or_rollback (tx_exec TxDeleteBudget (delete_budget id userID));;;
  Commit.

Definition CreateBudgetAlert (userID : N) (req : BudgetAlertRequest.t)
  : DB BudgetAlert.t :=
  GetBudget (BudgetAlertRequest.BudgetID req) userID;;;
  if (BudgetAlertRequest.Threshold req <? 1)
     || (100 <? BudgetAlertRequest.Threshold req)
  then fail ErrThresholdRange
  else
    count <- db_query QCountAlerts
               (fun t => Ok (count_alerts t (BudgetAlertRequest.BudgetID req)
                               (BudgetAlertRequest.Threshold req) None));;
    if 0 <? count
    then fail (ErrAlertExists (BudgetAlertRequest.Threshold req))
    else
      alertID <- db_exec XInsertAlert
                   (insert_alert userID (BudgetAlertRequest.BudgetID req)
                      (BudgetAlertRequest.Threshold req)
                      (BudgetAlertRequest.IsActive req));;
      ret (BudgetAlert.mk alertID userID (BudgetAlertRequest.BudgetID req)
             (BudgetAlertRequest.Threshold req)
             (BudgetAlertRequest.IsActive req)).

Definition alert_of_row (a : AlertRow) : BudgetAlert.t :=
  BudgetAlert.mk (al_id a) (al_user_id a) (al_budget_id a)
    (al_threshold a) (al_is_active a).

Definition GetBudgetAlerts (userID budgetID : N)
  : DB (list BudgetAlert.t) :=
  rows <- db_query QListAlerts
            (fun t => Ok (select_alerts t userID budgetID));;
  ret (map alert_of_row rows).

Definition UpdateBudgetAlert (id userID : N) (req : BudgetAlertRequest.t)
  : DB BudgetAlert.t :=
  exists_ <- db_query QAlertExists (fun t => Ok (alert_exists t id userID));;
  if negb exists_ then fail ErrAlertNotFound
  else
    GetBudget (BudgetAlertRequest.BudgetID req) userID;;;
    if (BudgetAlertRequest.Threshold req <? 1)
       || (100 <? BudgetAlertRequest.Threshold req)
    then fail ErrThresholdRange
    else
      count <- db_query QCountAlerts
                 (fun t => Ok (count_alerts t (BudgetAlertRequest.BudgetID req)
                                 (BudgetAlertRequest.Threshold req) (Some id)));;
      if 0 <? count
      then fail (ErrAlertExists (BudgetAlertRequest.Threshold req))
      else
        db_exec XUpdateAlert
          (update_alert id userID (BudgetAlertRequest.BudgetID req)
             (BudgetAlertRequest.Threshold req)
             (BudgetAlertRequest.IsActive req));;;
        row <- db_query QAlertById
                 (fun t => first_row (select_alert_by_id t id));;
        ret (alert_of_row row).

Definition DeleteBudgetAlert (id userID : N) : DB unit :=
  exists_ <- db_query QAlertExists (fun t => Ok (alert_exists t id userID));;
  if negb exists_ then fail ErrAlertNotFound
  else db_exec XDeleteAlert (delete_alert id userID).

(** [for _, b := range budgets { if b.ID == budgetID { ... break } }] *)
Definition find_budget (budgets : list Budget.t) (budgetID : N)
  : option Budget.t :=
  find (fun b => N.eqb (Budget.ID b) budgetID) budgets.

Definition alert_info (r : ActiveAlertRow) (matchBudget : Budget.t)
  : AlertInfo.t :=
  AlertInfo.mk (aa_id r) (aa_budget_id r) (aa_threshold r)
    (Budget.Percentage matchBudget) (Budget.UsedAmount matchBudget)
    (float64_of_decimal (aa_amount r))
    (aa_category_id r)
    (match aa_category_id r with
     | Some _ => aa_category_name r
     | None => None
     end)
    (match aa_category_id r with
     | Some _ => budget_type_category
     | None => budget_type_total
     end).

(** The loop of [CheckBudgetAlerts] over the alert rows. *)
Fixpoint scan_alerts (budgets : list Budget.t) (rows : list ActiveAlertRow)
  : list AlertInfo.t :=
  match rows with
  | [] => []
  | r :: rest =>
      match find_budget budgets (aa_budget_id r) with
      | None => scan_alerts budgets rest
      | Some matchBudget =>
          let usedPercentage := Budget.Percentage matchBudget in
          if PrimFloat.leb (float64_of_int (aa_threshold r)) usedPercentage
          then alert_info r matchBudget :: scan_alerts budgets rest
          else scan_alerts budgets rest
      end
  end.

(** [now] is what [time.Now()] returns. *)
Definition CheckBudgetAlerts (now : Time) (userID : N)
  : DB (list AlertInfo.t) :=
  let currentMonth := Format_ym now in
  budgets <- GetBudgets userID currentMonth;;
  rows <- db_query QActiveAlerts
            (fun t => Ok (select_active_alerts t userID currentMonth));;
  ret (scan_alerts budgets rows).

(** The calls of [BudgetController] (controllers/budget.go), each made
    with the id of the authenticated user. *)
Inductive Op : Type :=
| OpList (month : string)                               (* GetBudgets *)
| OpCreate (req : BudgetRequest.t)                      (* CreateBudget *)
| OpGet (id : N)                                        (* GetBudget *)
| OpUpdate (id : N) (req : BudgetRequest.t)             (* UpdateBudget *)
| OpDelete (id : N)                                     (* DeleteBudget *)
| OpCreateAlert (req : BudgetAlertRequest.t)            (* CreateBudgetAlert *)
| OpListAlerts (budgetID : N)                           (* GetBudgetAlerts *)
| OpUpdateAlert (id : N) (req : BudgetAlertRequest.t)   (* UpdateBudgetAlert *)
| OpDeleteAlert (id : N)                                (* DeleteBudgetAlert *)
| OpCheckAlerts (now : Time).                           (* CheckBudgetAlerts *)

(** What a call hands to [c.Success]. *)
Inductive Reply : Type :=
| RBudget (b : Budget.t)
| RBudgets (l : list Budget.t)
| RAlert (a : BudgetAlert.t)
| RAlerts (l : list BudgetAlert.t)
| RTriggered (l : list AlertInfo.t)
| RNil.

Definition run_op (userID : N) (op : Op) : DB Reply :=
  match op with
  | OpList month => l <- GetBudgets userID month;; ret (RBudgets l)
  | OpCreate req => b <- CreateBudget userID req;; ret (RBudget b)
  | OpGet id => b <- GetBudget id userID;; ret (RBudget b)
  | OpUpdate id req => b <- UpdateBudget id userID req;; ret (RBudget b)
  | OpDelete id => DeleteBudget id userID;;; ret RNil
  | OpCreateAlert req => a <- CreateBudgetAlert userID req;; ret (RAlert a)
  | OpListAlerts budgetID =>
      l <- GetBudgetAlerts userID budgetID;; ret (RAlerts l)
  | OpUpdateAlert id req =>
      a <- UpdateBudgetAlert id userID req;; ret (RAlert a)
  | OpDeleteAlert id => DeleteBudgetAlert id userID;;; ret RNil
  | OpCheckAlerts now =>
      l <- CheckBudgetAlerts now userID;; ret (RTriggered l)
  end.

End Budgets.


(** ** A reference engine and a sample database

    Used to run the functions on concrete inputs. *)

(** Cents to [float64]: the quotient by 100, rounded once. *)
Definition ref_float64_of_decimal (cents : Z) : float :=
  PrimFloat.div (float64_of_int cents) 100%float.

(** [float64] to cents, rounding half away from zero; DECIMAL(10,2) holds
    at most 99999999.99. *)
Definition ref_decimal_of_float64 (x : float) : option Z :=
  match Prim2SF (PrimFloat.mul x 100%float) with
  | S754_zero _ => Some 0
  | S754_finite sign m e =>
      let mag := if 0 <=? e then Zpos m * 2 ^ e
                 else (Zpos m + 2 ^ (- e - 1)) / 2 ^ (- e) in
      if mag <=? 9999999999 then Some (if sign then - mag else mag) else None
  | _ => None
  end.

Definition ref_engine : SqlEngine :=
  mkSqlEngine ref_decimal_of_float64 ref_float64_of_decimal
    (fun l => l) (fun l => l)
    (fun l => Permutation_refl l) (fun l => Permutation_refl l).

Definition demo_tables : Tables :=
  mkTables
    [ mkCategoryRow 1 1 "Food" expense None;
      mkCategoryRow 2 1 "Salary" income None;
      mkCategoryRow 3 2 "Rent" expense (Some "home"%string) ]
    [ mkBillRow 1 1 1 50000 expense (mkDate 2024 3 1);
      mkBillRow 2 1 1 35000 expense (mkDate 2024 3 31);
      mkBillRow 3 1 1 9900 expense (mkDate 2024 4 1);
      mkBillRow 4 1 2 300000 income (mkDate 2024 3 15);
      mkBillRow 5 2 3 120000 expense (mkDate 2024 3 10);
      mkBillRow 6 1 1 1234 expense (mkDate 2024 2 29) ]
    [ mkBudgetRow 1 1 (Some 1%N) 100000 (mkDate 2024 3 1);
      mkBudgetRow 2 1 None 200000 (mkDate 2024 3 1);
      mkBudgetRow 3 1 None 150000 (mkDate 2024 4 1);
      mkBudgetRow 4 2 (Some 3%N) 100000 (mkDate 2024 3 1) ]
    [ mkAlertRow 1 1 1 80 true;
      mkAlertRow 2 1 1 90 true;
      mkAlertRow 3 1 1 50 false;
      mkAlertRow 4 2 4 100 true ]
    5 5.

Definition demo_store : Store := mkStore demo_tables None [] [].

(** 20 March 2024, noon. *)
Definition demo_now : Time := mkTime (mkDate 2024 3 20) 43200.

(** The sample database with one more alert: an alert of user 1 on
    budget 4, which belongs to user 2. *)
Definition demo_stray_alert : AlertRow := mkAlertRow 5 1 4 1 true.

Definition demo_stray_tables : Tables :=
  mkTables (categories demo_tables) (bills demo_tables) (budgets demo_tables)
    (budget_alerts demo_tables ++ [demo_stray_alert]) 5 6.

Definition demo_stray_store : Store := mkStore demo_stray_tables None [] [].
(** ** Vocabulary of the properties *)

(** A computation that only reads: it leaves the committed tables and the
    open transaction as they are and issues only queries. *)
Definition reads {A} (m : DB A) : Prop :=
  forall s r s', m s = (r, s') ->
    tables s' = tables s /\ pending s' = pending s
    /\ (faults s = [] -> faults s' = [])
    /\ exists calls, log s' = log s ++ calls /\ forallb is_query calls = true.


(** [B] is a budget that [GetBudget] or [GetBudgets] returns to
    [userID] on store [s]. *)
Definition returned_budget {engine : SqlEngine} (userID : N) (s : Store)
  (B : Budget.t) : Prop :=
  (exists id s', GetBudget id userID s = (Ok B, s'))
  \/ (exists month L s', GetBudgets userID month s = (Ok L, s') /\ In B L).

(** [Percentage] is [UsedAmount / Amount * 100] for a positive [Amount]
    and 0 otherwise. *)
Definition percentage_ok (B : Budget.t) : Prop :=
  (PrimFloat.ltb 0%float (Budget.Amount B) = true ->
   Budget.Percentage B
   = PrimFloat.mul (PrimFloat.div (Budget.UsedAmount B) (Budget.Amount B))
                   100%float)
  /\ (PrimFloat.leb (Budget.Amount B) 0%float = true ->
      Budget.Percentage B = 0%float)
  /\ (PrimFloat.ltb 0%float (Budget.Amount B) = false ->
      Budget.Percentage B = 0%float).

(** What the column types of [budgets] guarantee: [month] is a DATE with
    a year of at most four digits, and [category_id], when not NULL, is an
    AUTO_INCREMENT id of [categories], which start at 1. *)
Definition schema_ok (t : Tables) : Prop :=
  Forall (fun b => valid_month (bud_month b)
                   /\ forall c, bud_category_id b = Some c -> (0 < c)%N)
         (budgets t).

(** Following the spec's words: a bill counts for a budget when it is of
    type expense, of the user, dated from the first to the last day of the
    month of the budget, both included, and of the category of the budget
    when the budget has one. *)
Definition bill_in_scope (userID : N) (row : BudgetRow) (b : BillRow) : bool :=
  kind_eqb (bill_type b) expense
  && N.eqb (bill_user_id b) userID
  && date_leb (first_day (bud_month row)) (bill_date b)
  && date_leb (bill_date b) (last_day (bud_month row))
  && match bud_category_id row with
     | Some c => N.eqb (bill_category_id b) c
     | None => true
     end.

Definition spec_used_amount (t : Tables) (userID : N) (row : BudgetRow) : Z :=
  sum_amounts (filter (bill_in_scope userID row) (bills t)).

(** Rows [DeleteBudget id userID] is to remove, and rows it is to keep. *)
Definition is_budget (id userID : N) (b : BudgetRow) : bool :=
  N.eqb (bud_id b) id && N.eqb (bud_user_id b) userID.

Definition alert_of_budget (id : N) (a : AlertRow) : bool :=
  N.eqb (al_budget_id a) id.

(** The tables once the budget [id] of [userID] and the alerts that
    reference [id] are gone. *)
Definition without_budget (id userID : N) (t : Tables) : Tables :=
  mkTables (categories t) (bills t)
    (filter (fun b => negb (is_budget id userID b)) (budgets t))
    (filter (fun a => negb (alert_of_budget id a)) (budget_alerts t))
    (next_budget_id t) (next_alert_id t).

(** The primary keys of [budgets] and [budget_alerts]. *)
Definition pk_unique (t : Tables) : Prop :=
  NoDup (map bud_id (budgets t)) /\ NoDup (map al_id (budget_alerts t)).

(** Every alert references a budget of its own user. *)
Definition alerts_owned (t : Tables) : Prop :=
  forall a, In a (budget_alerts t) ->
    exists b, In b (budgets t)
              /\ bud_id b = al_budget_id a /\ bud_user_id b = al_user_id a.

(** [recs] holds a record for the alert row [a]. *)
Definition reported (recs : list AlertInfo.t) (a : AlertRow) : Prop :=
  exists r, In r recs /\ AlertInfo.alert_id r = al_id a.

(** A list of ids without repetition, decided. *)
Fixpoint distinct (l : list N) : bool :=
  match l with
  | [] => true
  | x :: l' => negb (existsb (N.eqb x) l') && distinct l'
  end.

(** Two budget rows in the same slot: same user, same category (or both
    without one) and same month. *)
Definition same_slot (b1 b2 : BudgetRow) : Prop :=
  bud_user_id b1 = bud_user_id b2
  /\ bud_category_id b1 = bud_category_id b2
  /\ DATE_FORMAT_Ym (bud_month b1) = DATE_FORMAT_Ym (bud_month b2).

(** At most one budget per (user, category or none, month). *)
Definition slot_unique (t : Tables) : Prop :=
  forall b1 b2, In b1 (budgets t) -> In b2 (budgets t) ->
                same_slot b1 b2 -> bud_id b1 = bud_id b2.

Definition threshold_out_of_range (req : BudgetAlertRequest.t) : Prop :=
  BudgetAlertRequest.Threshold req < 1 \/ 100 < BudgetAlertRequest.Threshold req.

(** The rule for [CreateBudgetAlert] as the spec words it: a threshold
    outside 1..100 fails with a ValidationError before any persistence
    call, that is with nothing added to the log of statements (on a
    store whose driver does not fail). *)
Definition threshold_rejected_before_persistence : Prop :=
  forall (engine : SqlEngine) (userID : N) (req : BudgetAlertRequest.t)
         (s : Store),
    faults s = [] ->
    threshold_out_of_range req ->
    exists e s',
      CreateBudgetAlert userID req s = (Err e, s')
      /\ classify e = ValidationError
      /\ log s' = log s.

(** A budget of [userID] with id [id]. *)
Definition owns_budget (t : Tables) (userID id : N) : Prop :=
  exists row, In row (budgets t) /\ bud_id row = id /\ bud_user_id row = userID.

(** The budget rows and the alert rows of a user. *)
Definition budgets_of (userID : N) (t : Tables) : list BudgetRow :=
  filter (fun b => N.eqb (bud_user_id b) userID) (budgets t).

Definition alerts_of (userID : N) (t : Tables) : list AlertRow :=
  filter (fun a => N.eqb (al_user_id a) userID) (budget_alerts t).

(** The ids in use are below the AUTO_INCREMENT counters. *)
Definition ids_fresh (t : Tables) : Prop :=
  (forall b, In b (budgets t) -> (bud_id b < next_budget_id t)%N)
  /\ (forall a, In a (budget_alerts t) -> (al_id a < next_alert_id t)%N).

(** The well-formed databases: primary keys, AUTO_INCREMENT, and alerts
    on budgets of their own user. *)
Definition store_wf (t : Tables) : Prop :=
  pk_unique t /\ alerts_owned t /\ ids_fresh t.

(** A triggered-alert record about an alert and a budget of [userID]. *)
Definition info_owned (userID : N) (t : Tables) (r : AlertInfo.t) : Prop :=
  (exists a, In a (budget_alerts t)
             /\ al_id a = AlertInfo.alert_id r /\ al_user_id a = userID)
  /\ (exists b, In b (budgets t)
                /\ bud_id b = AlertInfo.budget_id r /\ bud_user_id b = userID).

(** Every record in a reply is a record of [userID]. *)
Definition reply_owned (userID : N) (t : Tables) (r : Reply) : Prop :=
  match r with
  | RBudget b => Budget.UserID b = userID
  | RBudgets l => Forall (fun b => Budget.UserID b = userID) l
  | RAlert a => BudgetAlert.UserID a = userID
  | RAlerts l => Forall (fun a => BudgetAlert.UserID a = userID) l
  | RTriggered l => Forall (info_owned userID t) l
  | RNil => True
  end.

(** The rows of [userID] are the same in [t'] as in [t]. *)
Definition same_rows_of (userID : N) (t t' : Tables) : Prop :=
  budgets_of userID t' = budgets_of userID t
  /\ alerts_of userID t' = alerts_of userID t.

(** [m], run from a well-formed store that satisfies [P] with no
    transaction open, leaves the rows of [v] alone, the store well formed
    and no transaction open, and a result it returns satisfies [Q] on the
    tables it leaves. *)
Definition keeps_rows_of (v : N) {A} (P : Tables -> Prop) (m : DB A)
  (Q : Tables -> A -> Prop) : Prop :=
  forall s r s',
    pending s = None -> store_wf (tables s) -> P (tables s) ->
    m s = (r, s') ->
    pending s' = None
    /\ same_rows_of v (tables s) (tables s')
    /\ store_wf (tables s')
    /\ forall a, r = Ok a -> Q (tables s') a.

(** The slot a request asks for. *)
Definition in_requested_slot (userID categoryID : N) (month : string)
  (b : BudgetRow) : Prop :=
  bud_user_id b = userID
  /\ bud_category_id b = category_param categoryID
  /\ DATE_FORMAT_Ym (bud_month b) = month.


(** ** Vocabulary of the further properties *)

(** The operations that are meant to read only. *)
Definition is_read_op (op : Op) : bool :=
  match op with
  | OpList _ | OpGet _ | OpListAlerts _ | OpCheckAlerts _ => true
  | _ => false
  end.

(** What a DATE column holds: a month in 1..12 and a day of that month. *)
Definition valid_date (d : Date) : Prop :=
  1 <= d_month d <= 12 /\ 1 <= d_day d <= daysIn (d_year d) (d_month d).

(** An expense bill of the user dated in the calendar month of the
    budget row, of its category when it has one. *)
Definition bill_of_month (userID : N) (row : BudgetRow) (b : BillRow) : bool :=
  kind_eqb (bill_type b) expense
  && N.eqb (bill_user_id b) userID
  && (d_year (bill_date b) =? d_year (bud_month row))
  && (d_month (bill_date b) =? d_month (bud_month row))
  && match bud_category_id row with
     | Some c => N.eqb (bill_category_id b) c
     | None => true
     end.

(** The WHERE clause of the budget list of [GetBudgets]. *)
Definition listed_in_month (userID : N) (month : string) (b : BudgetRow)
  : bool :=
  N.eqb (bud_user_id b) userID
  && String.eqb (DATE_FORMAT_Ym (bud_month b)) month.

(** A computation whose result, when the driver does not fail, depends
    on the tables only. *)
Definition result_of_tables {A} (m : DB A) : Prop :=
  forall s1 s2,
    faults s1 = [] -> faults s2 = [] -> tables s1 = tables s2 ->
    fst (m s1) = fst (m s2).

(** The row [CreateBudget] inserts and [UpdateBudget] writes over the row
    it updates. *)
Definition requested_row (id userID : N) (req : BudgetRequest.t)
  (cents : Z) (month : Time) : BudgetRow :=
  mkBudgetRow id userID (category_param (BudgetRequest.CategoryID req))
              cents (t_date month).

(** The budget struct returned for a request that went through. *)
Definition matches_request {engine : SqlEngine} (B : Budget.t) (id userID : N)
  (req : BudgetRequest.t) (cents : Z) (month : Time) : Prop :=
  Budget.ID B = id /\ Budget.UserID B = userID
  /\ Budget.CategoryID B = BudgetRequest.CategoryID req
  /\ Budget.Amount B = float64_of_decimal cents
  /\ Budget.Month B = month.

(** The rules of [budget_alerts] that the model functions check before
    they write: a threshold in 1..100, and no two alerts of one budget
    with the same threshold. *)
Definition alert_rules (t : Tables) : Prop :=
  (forall a, In a (budget_alerts t) -> 1 <= al_threshold a <= 100)
  /\ (forall a1 a2, In a1 (budget_alerts t) -> In a2 (budget_alerts t) ->
        al_budget_id a1 = al_budget_id a2 ->
        al_threshold a1 = al_threshold a2 -> al_id a1 = al_id a2).

(** The alert row [CreateBudgetAlert] inserts and [UpdateBudgetAlert]
    writes over the row it updates. *)
Definition requested_alert (id userID : N) (req : BudgetAlertRequest.t)
  : AlertRow :=
  mkAlertRow id userID (BudgetAlertRequest.BudgetID req)
             (BudgetAlertRequest.Threshold req)
             (BudgetAlertRequest.IsActive req).

(** The alert [id] of [userID]. *)
Definition is_alert (id userID : N) (a : AlertRow) : bool :=
  N.eqb (al_id a) id && N.eqb (al_user_id a) userID.

(** * The request limiter (middleware/rate_limiter.go)

    [IPRateLimiter] keeps, for each client address, the number of
    requests counted and the time of the last request that passed.  Its
    mutex is held for the whole of [RateLimiter] and for the whole of a
    pass of the clean-up loop, so an execution is a sequence of such
    steps, each running alone on the limiter the previous one left. *)

(** [time.Duration]: a number of nanoseconds in an int64. *)
Definition minDuration : Z := - 9223372036854775808.
Definition maxDuration : Z := 9223372036854775807.
Definition Second : Z := 1000000000.
Definition Minute : Z := 60 * Second.

(** [t.Sub(u)] for two times taken with [time.Now()], as readings of the
    monotonic clock in nanoseconds: their difference, or the smallest or
    largest [Duration] when the difference does not fit. *)
Definition Sub (t u : Z) : Z :=
  let d := t - u in
  if d <? minDuration then minDuration
  else if maxDuration <? d then maxDuration
  else d.

(** The two maps of the limiter, keyed by address. *)
Record IPRateLimiter : Type := mkIPRateLimiter {
  ipRequestCount : string -> option Z;
  ipLastRequest : string -> option Z
}.

(** [m[k] = v] and [delete(m, k)] *)
Definition map_set {V} (m : string -> option V) (k : string) (v : V)
  : string -> option V :=
  fun k' => if String.eqb k' k then Some v else m k'.

Definition map_delete {V} (m : string -> option V) (k : string)
  : string -> option V :=
  fun k' => if String.eqb k' k then None else m k'.

(** [m[k]] on a map of ints: 0 for a missing key. *)
Definition count_of (m : string -> option Z) (k : string) : Z :=
  match m k with
  | Some c => c
  | None => 0
  end.

(** [var limiter = &IPRateLimiter{...}] with two empty maps. *)
Definition limiter : IPRateLimiter :=
  mkIPRateLimiter (fun _ => None) (fun _ => None).

(** What the filter does with a request: it lets it through, or answers
    it with status 429. *)
Inductive Verdict : Type :=
| Passed
| TooManyRequests.

Definition accept (ip : string) (count now : Z) (l : IPRateLimiter)
  : Verdict * IPRateLimiter :=
  (Passed, mkIPRateLimiter (map_set (ipRequestCount l) ip count)
                           (map_set (ipLastRequest l) ip now)).

(** [RateLimiter], for the address [ip] at time [now].  [count + 1] is
    computed only for [count <= 10], where an int does not wrap. *)
Definition RateLimiter (ip : string) (now : Z) (l : IPRateLimiter)
  : Verdict * IPRateLimiter :=
  match ipLastRequest l ip with
  | Some lastTime =>
      if Sub now lastTime <? Second then
        let count := count_of (ipRequestCount l) ip in
        if 10 <? count then (TooManyRequests, l)
        else accept ip (count + 1) now l
      else accept ip 1 now l
  | None => accept ip 1 now l
  end.

(** One pass of the clean-up loop: for each address of [ipLastRequest],
    [time.Since(lastTime) > 5*time.Minute] deletes its two entries.
    [clock ip] is the time that [time.Since] reads when the loop is at
    the entry of [ip]. *)
Definition sweep (clock : string -> Z) (l : IPRateLimiter) : IPRateLimiter :=
  let stale ip :=
    match ipLastRequest l ip with
    | Some lastTime => 5 * Minute <? Sub (clock ip) lastTime
    | None => false
    end in
  mkIPRateLimiter
    (fun ip => if stale ip then None else ipRequestCount l ip)
    (fun ip => if stale ip then None else ipLastRequest l ip).

(** The steps that take the mutex. *)
Inductive Event : Type :=
| Request (ip : string) (now : Z)
| Sweep (clock : string -> Z).

(** A sequence of steps: the verdict of each request, with its address,
    and the limiter at the end. *)
Fixpoint serve (evs : list Event) (l : IPRateLimiter)
  : list (string * Verdict) * IPRateLimiter :=
  match evs with
  | [] => ([], l)
  | Request ip now :: rest =>
      let (v, l1) := RateLimiter ip now l in
      let (vs, l2) := serve rest l1 in
      ((ip, v) :: vs, l2)
  | Sweep clock :: rest => serve rest (sweep clock l)
  end.

(** ** Vocabulary of the properties of the limiter *)

(** An address has both entries or none, and a count from 1 to 11. *)
Definition limiter_ok (l : IPRateLimiter) : Prop :=
  forall ip,
    match ipLastRequest l ip with
    | Some _ => exists c, ipRequestCount l ip = Some c /\ 1 <= c <= 11
    | None => ipRequestCount l ip = None
    end.

(** The clock does not run backwards: a request of an address that
    comes after a pass of the clean-up is made no earlier than the pass
    looked at the entry of that address. *)
Fixpoint clock_ordered (evs : list Event) : Prop :=
  match evs with
  | [] => True
  | Request _ _ :: rest => clock_ordered rest
  | Sweep clock :: rest =>
      (forall ip now, In (Request ip now) rest -> clock ip <= now)
      /\ clock_ordered rest
  end.

Definition is_request (e : Event) : bool :=
  match e with
  | Request _ _ => true
  | Sweep _ => false
  end.

(** The steps that concern an address: its requests, and the passes of
    the clean-up. *)
Definition concerns (ip : string) (e : Event) : bool :=
  match e with
  | Request ip' _ => String.eqb ip' ip
  | Sweep _ => true
  end.

(** The verdicts given to an address. *)
Definition verdicts_of (ip : string) (vs : list (string * Verdict))
  : list Verdict :=
  map snd (filter (fun p => String.eqb (fst p) ip) vs).

(** Two limiters that agree on the entries of [ip]. *)
Definition agree_on (ip : string) (l1 l2 : IPRateLimiter) : Prop :=
  ipRequestCount l1 ip = ipRequestCount l2 ip
  /\ ipLastRequest l1 ip = ipLastRequest l2 ip.

(** A limiter [l1] that has been cleaned, against the same limiter [l2]
    without the clean-up: every address has the same entries in both, or
    has none in [l1] and in [l2] a last request that is more than five
    minutes before [lo ip]. *)
Definition cleaned (lo : string -> Z) (l1 l2 : IPRateLimiter) : Prop :=
  forall ip,
    agree_on ip l1 l2
    \/ (ipLastRequest l1 ip = None
        /\ exists lastTime, ipLastRequest l2 ip = Some lastTime
                            /\ 5 * Minute < Sub (lo ip) lastTime).

(** * Categories: GetCategory and DeleteCategory (the category model)

    The two functions run on the same tables as the budget code.  Their
    errors are values of their own ([errors.New] with a text of its
    own), and they open no transaction, so they get a result type and a
    store of their own: the tables, and for each coming statement
    whether the driver fails on it. *)

Inductive category_error : Type :=
| ErrCategoryMissing        (* "分类不存在" *)
| ErrCategoryInBills        (* "该分类已被使用，无法删除" *)
| ErrCategoryInBudgets      (* "该分类已设置预算，无法删除" *)
| ErrCategoryScan           (* Scan of a NULL icon into a string *)
| ErrCategoryDriver.        (* any other failure of the connection *)

Inductive CResult (A : Type) : Type :=
| COk (a : A)
| CErr (e : category_error).
Arguments COk {A} a.
Arguments CErr {A} e.

Record CStore : Type := mkCStore {
  c_tables : Tables;
  c_faults : list bool
}.

Definition CDB (A : Type) : Type := CStore -> CResult A * CStore.

Definition c_ret {A} (a : A) : CDB A := fun s => (COk a, s).
Definition c_fail {A} (e : category_error) : CDB A := fun s => (CErr e, s).
Definition c_bind {A B} (m : CDB A) (k : A -> CDB B) : CDB B :=
  fun s => match m s with
           | (COk a, s1) => k a s1
           | (CErr e, s1) => (CErr e, s1)
           end.

(** The store after a statement was sent: one fault consumed. *)
Definition c_sent (s : CStore) : CStore :=
  mkCStore (c_tables s) (tl (c_faults s)).

(** [DB.QueryRow(...).Scan] *)
Definition c_query {A} (q : Tables -> CResult A) : CDB A :=
  fun s => if hd false (c_faults s) then (CErr ErrCategoryDriver, c_sent s)
           else (q (c_tables s), c_sent s).

(** [DB.Exec] *)
Definition c_exec (x : Tables -> Tables) : CDB unit :=
  fun s => if hd false (c_faults s) then (CErr ErrCategoryDriver, c_sent s)
           else (COk tt, mkCStore (x (c_tables s)) (tl (c_faults s))).

Module Category.
Record t : Type := mk {
  ID : N;
  UserID : N;
  Name : string;
  Type_ : string;
  Icon : string
}.
End Category.

(** The text of an ENUM value. *)
Definition kind_name (k : kind) : string :=
  match k with
  | income => "income"
  | expense => "expense"
  end.

(** [SELECT id, user_id, name, type, icon, created_at, updated_at FROM
    categories WHERE id = ? AND user_id = ?] *)
Definition select_category (t : Tables) (id userID : N) : list CategoryRow :=
  filter (fun c => N.eqb (cat_id c) id && N.eqb (cat_user_id c) userID)
         (categories t).

(** [Scan] into the fields of a [Category]: [Icon] is a string, which a
    NULL cannot be stored in. *)
Definition scan_category (c : CategoryRow) : CResult Category.t :=
  match cat_icon c with
  | Some icon =>
      COk (Category.mk (cat_id c) (cat_user_id c) (cat_name c)
                       (kind_name (cat_type c)) icon)
  | None => CErr ErrCategoryScan
  end.

Definition GetCategory (id userID : N) : CDB Category.t :=
  c_query (fun t => match select_category t id userID with
                    | [] => CErr ErrCategoryMissing
                    | c :: _ => scan_category c
                    end).

(** [SELECT COUNT( * ) FROM bills WHERE category_id = ?] *)
Definition count_bills_of_category (t : Tables) (id : N) : Z :=
  Z.of_nat (List.length
    (filter (fun b => N.eqb (bill_category_id b) id) (bills t))).

(** [SELECT COUNT( * ) FROM budgets WHERE category_id = ?] *)
Definition count_budgets_of_category (t : Tables) (id : N) : Z :=
  Z.of_nat (List.length
    (filter (fun b => null_eqb (bud_category_id b) id) (budgets t))).

(** [DELETE FROM categories WHERE id = ? AND user_id = ?].  The bills of
    a deleted category go with it ([FOREIGN KEY (category_id) REFERENCES
    categories(id) ON DELETE CASCADE] of [bills]), and its budgets lose
    their category ([ON DELETE SET NULL] of [budgets]). *)
Definition delete_category (id userID : N) (t : Tables) : Tables :=
  let gone c := N.eqb (cat_id c) id && N.eqb (cat_user_id c) userID in
  let deleted cid :=
    existsb (fun c => gone c && N.eqb (cat_id c) cid) (categories t) in
  mkTables
    (filter (fun c => negb (gone c)) (categories t))
    (filter (fun b => negb (deleted (bill_category_id b))) (bills t))
    (map (fun b => match bud_category_id b with
                   | Some cid =>
                       if deleted cid
                       then mkBudgetRow (bud_id b) (bud_user_id b) None
                                        (bud_amount b) (bud_month b)
                       else b
                   | None => b
                   end)
         (budgets t))
    (budget_alerts t) (next_budget_id t) (next_alert_id t).

Definition DeleteCategory (id userID : N) : CDB unit :=
  c_bind (GetCategory id userID) (fun _ =>
  c_bind (c_query (fun t => COk (count_bills_of_category t id)))
         (fun billsCount =>
  if 0 <? billsCount then c_fail ErrCategoryInBills
  else
    c_bind (c_query (fun t => COk (count_budgets_of_category t id)))
           (fun budgetsCount =>
    if 0 <? budgetsCount then c_fail ErrCategoryInBudgets
    else c_exec (delete_category id userID)))).

(** A category of [userID] with id [id] that [GetCategory] can read. *)
Definition readable_category (t : Tables) (id userID : N) : Prop :=
  exists c rest, select_category t id userID = c :: rest
                 /\ cat_icon c <> None.

(** A sample database for the category functions: category 4 of user 1
    has no bill and no budget. *)
Definition demo_category_tables : Tables :=
  mkTables
    [ mkCategoryRow 1 1 "Food" expense (Some "bowl"%string);
      mkCategoryRow 3 2 "Rent" expense (Some "home"%string);
      mkCategoryRow 4 1 "Travel" expense (Some "train"%string) ]
    (bills demo_tables) (budgets demo_tables) (budget_alerts demo_tables)
    5 5.
(** * Properties *)

(** ** Month strings and the end of the month *)

Lemma digit_of_ascii_range c d :
  digit_of_ascii c = Some d -> 0 <= d <= 9.
Proof.
  unfold digit_of_ascii.
  destruct ((48 <=? Z.of_N (N_of_ascii c)) && (Z.of_N (N_of_ascii c) <=? 57))
    eqn:E; [|discriminate].
  apply andb_true_iff in E. destruct E as [E1 E2].
  apply Z.leb_le in E1, E2. intros [= <-]. lia.
Qed.

Lemma ascii_of_digit_of_ascii c d :
  digit_of_ascii c = Some d -> ascii_of_digit d = c.
Proof.
  unfold digit_of_ascii, ascii_of_digit.
  destruct ((48 <=? Z.of_N (N_of_ascii c)) && (Z.of_N (N_of_ascii c) <=? 57))
    eqn:E; [|discriminate].
  intros [= <-].
  replace (Z.of_N (N_of_ascii c) - 48 + 48) with (Z.of_N (N_of_ascii c)) by lia.
  rewrite N2Z.id. apply ascii_N_embedding.
Qed.

Lemma digit_of_ascii_of_digit d :
  0 <= d <= 9 -> digit_of_ascii (ascii_of_digit d) = Some d.
Proof.
  intros Hd. unfold digit_of_ascii, ascii_of_digit.
  rewrite N_ascii_embedding by lia.
  rewrite Z2N.id by lia.
  replace ((48 <=? d + 48) && (d + 48 <=? 57)) with true.
  - f_equal. lia.
  - symmetry. apply andb_true_iff. split; apply Z.leb_le; lia.
Qed.

Lemma parse_format_ym d :
  valid_month d ->
  parse_month (format_ym d) = Some (mkTime (mkDate (d_year d) (d_month d) 1) 0).
Proof.
  intros [Hy Hm]. unfold parse_month, format_ym.
  rewrite !digit_of_ascii_of_digit
    by (Z.to_euclidean_division_equations; lia).
  cbv zeta.
  replace (10 * (d_month d / 10 mod 10) + d_month d mod 10) with (d_month d)
    by (Z.to_euclidean_division_equations; lia).
  replace (1000 * (d_year d / 1000 mod 10) + 100 * (d_year d / 100 mod 10)
           + 10 * (d_year d / 10 mod 10) + d_year d mod 10) with (d_year d)
    by (Z.to_euclidean_division_equations; lia).
  replace (1 <=? d_month d) with true by (symmetry; apply Z.leb_le; lia).
  replace (d_month d <=? 12) with true by (symmetry; apply Z.leb_le; lia).
  reflexivity.
Qed.

Lemma parse_month_inv s t :
  parse_month s = Some t ->
  format_ym (t_date t) = s /\ valid_month (t_date t)
  /\ d_day (t_date t) = 1 /\ t_sec t = 0.
Proof.
  unfold parse_month.
  destruct s as [|c1 [|c2 [|c3 [|c4 [|sep [|c5 [|c6 [|c7 s]]]]]]]];
    try discriminate.
  destruct (digit_of_ascii c1) as [y1|] eqn:E1; [|discriminate].
  destruct (digit_of_ascii c2) as [y2|] eqn:E2; [|discriminate].
  destruct (digit_of_ascii c3) as [y3|] eqn:E3; [|discriminate].
  destruct (digit_of_ascii c4) as [y4|] eqn:E4; [|discriminate].
  destruct (digit_of_ascii c5) as [m1|] eqn:E5; [|discriminate].
  destruct (digit_of_ascii c6) as [m2|] eqn:E6; [|discriminate].
  cbv zeta.
  destruct (Ascii.eqb sep "-" && (1 <=? 10 * m1 + m2) && (10 * m1 + m2 <=? 12))
    eqn:E; [|discriminate].
  apply andb_true_iff in E. destruct E as [E Hhi].
  apply andb_true_iff in E. destruct E as [Hsep Hlo].
  apply Ascii.eqb_eq in Hsep. apply Z.leb_le in Hlo, Hhi.
  pose proof (digit_of_ascii_range _ _ E1).
  pose proof (digit_of_ascii_range _ _ E2).
  pose proof (digit_of_ascii_range _ _ E3).
  pose proof (digit_of_ascii_range _ _ E4).
  pose proof (digit_of_ascii_range _ _ E5).
  pose proof (digit_of_ascii_range _ _ E6).
  intros Heq.
  assert (Ht : t = mkTime (mkDate (1000 * y1 + 100 * y2 + 10 * y3 + y4) (10 * m1 + m2) 1) 0)
    by congruence.
  clear Heq. subst t. unfold valid_month, format_ym.
  cbv beta iota zeta delta [t_date t_sec d_year d_month d_day].
  repeat split; try lia.
  replace ((1000 * y1 + 100 * y2 + 10 * y3 + y4) / 1000 mod 10) with y1
    by (Z.to_euclidean_division_equations; lia).
  replace ((1000 * y1 + 100 * y2 + 10 * y3 + y4) / 100 mod 10) with y2
    by (Z.to_euclidean_division_equations; lia).
  replace ((1000 * y1 + 100 * y2 + 10 * y3 + y4) / 10 mod 10) with y3
    by (Z.to_euclidean_division_equations; lia).
  replace ((1000 * y1 + 100 * y2 + 10 * y3 + y4) mod 10) with y4
    by (Z.to_euclidean_division_equations; lia).
  replace ((10 * m1 + m2) / 10 mod 10) with m1
    by (Z.to_euclidean_division_equations; lia).
  replace ((10 * m1 + m2) mod 10) with m2
    by (Z.to_euclidean_division_equations; lia).
  rewrite (ascii_of_digit_of_ascii _ _ E1), (ascii_of_digit_of_ascii _ _ E2),
    (ascii_of_digit_of_ascii _ _ E3), (ascii_of_digit_of_ascii _ _ E4),
    (ascii_of_digit_of_ascii _ _ E5), (ascii_of_digit_of_ascii _ _ E6).
  subst sep. reflexivity.
Qed.

Lemma daysIn_ge_28 y m : 28 <= daysIn y m.
Proof.
  unfold daysIn.
  destruct (m =? 2); [destruct (isLeap y); lia|].
  destruct ((m =? 4) || (m =? 6) || (m =? 9) || (m =? 11)); lia.
Qed.

(** [startDate.AddDate(0, 1, 0).Add(-time.Second)] falls on the last day
    of the month of [startDate], for the months [time.Parse] returns. *)
Lemma end_of_month t :
  1 <= d_month (t_date t) <= 12 -> d_day (t_date t) = 1 -> t_sec t = 0 ->
  Format_date (Add_minus_second (AddDate_months t 1)) = last_day (t_date t).
Proof.
  destruct t as [[y m d] sec]. cbn [t_date t_sec d_year d_month d_day].
  intros Hm -> ->.
  unfold AddDate_months, Add_minus_second, Format_date, last_day.
  cbn [t_date t_sec d_year d_month d_day].
  assert (H28 := daysIn_ge_28 (y + (m - 1 + 1) / 12) ((m - 1 + 1) mod 12 + 1)).
  replace (1 <=? daysIn (y + (m - 1 + 1) / 12) ((m - 1 + 1) mod 12 + 1))
    with true by (symmetry; apply Z.leb_le; lia).
  cbn [t_date t_sec d_year d_month d_day]. 
  change (0 <? 0) with false. cbv iota.
  unfold prev_day. cbn [t_date t_sec d_year d_month d_day].
  change (1 <? 1) with false. cbv iota.
  destruct (Z.eq_dec m 12) as [->|Hne].
  - change ((12 - 1 + 1) mod 12 + 1) with 1.
    change ((12 - 1 + 1) / 12) with 1.
    change (1 <? 1) with false. cbv iota.
    f_equal; lia.
  - replace ((m - 1 + 1) mod 12) with m by (Z.to_euclidean_division_equations; lia).
    replace ((m - 1 + 1) / 12) with 0 by (Z.to_euclidean_division_equations; lia).
    replace (1 <? m + 1) with true by (symmetry; apply Z.ltb_lt; lia).
    cbn [t_date]. f_equal; try lia.
    replace (y + 0) with y by lia. replace (m + 1 - 1) with m by lia.
    reflexivity.
Qed.

(** ** The monad *)

Lemma bind_inv {A B} (m : DB A) (k : A -> DB B) s r s' :
  bind m k s = (r, s') ->
  (exists e, m s = (Err e, s') /\ r = Err e)
  \/ (exists a s1, m s = (Ok a, s1) /\ k a s1 = (r, s')).
Proof.
  unfold bind. destruct (m s) as [[a|e] s1]; intros H.
  - right. eauto.
  - left. exists e. inversion H; subst. auto.
Qed.

Lemma bind_ok_inv {A B} (m : DB A) (k : A -> DB B) s b s' :
  bind m k s = (Ok b, s') ->
  exists a s1, m s = (Ok a, s1) /\ k a s1 = (Ok b, s').
Proof.
  intros H. apply bind_inv in H. destruct H as [(e & _ & H)|H]; [discriminate|exact H].
Qed.

Lemma bind_eq_ok {A B} (m : DB A) (k : A -> DB B) s a s1 :
  m s = (Ok a, s1) -> bind m k s = k a s1.
Proof. unfold bind. intros ->. reflexivity. Qed.

Lemma bind_eq_err {A B} (m : DB A) (k : A -> DB B) s e s1 :
  m s = (Err e, s1) -> bind m k s = (Err e, s1).
Proof. unfold bind. intros ->. reflexivity. Qed.

Lemma reads_ret {A} (a : A) : reads (ret a).
Proof.
  intros s r s' H. inversion H; subst. repeat split; auto.
  exists []. rewrite app_nil_r. auto.
Qed.

Lemma reads_fail {A} e : reads (@fail A e).
Proof.
  intros s r s' H. inversion H; subst. repeat split; auto.
  exists []. rewrite app_nil_r. auto.
Qed.

Lemma reads_bind {A B} (m : DB A) (k : A -> DB B) :
  reads m -> (forall a, reads (k a)) -> reads (bind m k).
Proof.
  intros Hm Hk s r s' H. apply bind_inv in H.
  destruct H as [(e & H & _)|(a & s1 & H1 & H2)].
  - exact (Hm _ _ _ H).
  - destruct (Hm _ _ _ H1) as (T1 & P1 & F1 & c1 & L1 & Q1).
    destruct (Hk a _ _ _ H2) as (T2 & P2 & F2 & c2 & L2 & Q2).
    repeat split; try congruence; auto.
    exists (c1 ++ c2). rewrite L2, L1, app_assoc. split; auto.
    rewrite forallb_app, Q1, Q2. reflexivity.
Qed.

Lemma tl_nil_of_nil (l : list bool) : l = [] -> tl l = [].
Proof. intros ->. reflexivity. Qed.

Lemma reads_query {A} c (q : Tables -> Result A) :
  is_query c = true -> reads (db_query c q).
Proof.
  intros Hc s r s'. unfold db_query.
  destruct (faulty s); intros H; inversion H; subst; cbn;
    (repeat split; auto using tl_nil_of_nil;
     exists [c]; cbn; rewrite Hc; auto).
Qed.

Lemma reads_no_rows_as {A} e (m : DB A) : reads m -> reads (no_rows_as e m).
Proof.
  intros Hm s r s'. unfold no_rows_as.
  destruct (m s) as [[a|e0] s1] eqn:E.
  - intros H; inversion H; subst. exact (Hm _ _ _ E).
  - destruct e0; intros H; inversion H; subst; exact (Hm _ _ _ E).
Qed.

(** A query on a store without faults returns what the statement
    returns. *)
Lemma db_query_no_fault {A} c (q : Tables -> Result A) s :
  faults s = [] -> db_query c q s = (q (tables s), tick c s).
Proof. unfold db_query, faulty. intros ->. reflexivity. Qed.

Lemma db_query_inv {A} c (q : Tables -> Result A) s r s' :
  db_query c q s = (r, s') ->
  s' = tick c s /\ (r = Err ErrDriver \/ r = q (tables s)).
Proof.
  unfold db_query. destruct (faulty s); intros H; inversion H; subst; auto.
Qed.

Lemma db_query_ok_inv {A} c (q : Tables -> Result A) s a s' :
  db_query c q s = (Ok a, s') -> s' = tick c s /\ q (tables s) = Ok a.
Proof.
  intros H. apply db_query_inv in H. destruct H as [-> [H|H]]; [discriminate|auto].
Qed.

Lemma db_exec_inv {A} c (x : Tables -> Result (A * Tables)) s r s' :
  db_exec c x s = (r, s') ->
  pending s' = pending s
  /\ log s' = log s ++ [c]
  /\ (faults s = [] -> faults s' = [])
  /\ ((exists a t', x (tables s) = Ok (a, t') /\ r = Ok a /\ tables s' = t'
                    /\ faulty s = false)
      \/ (tables s' = tables s
          /\ exists e, r = Err e
                       /\ (faults s = [] -> x (tables s) = Err e))).
Proof.
  unfold db_exec. destruct (faulty s) eqn:Ef.
  - intros H. inversion H; subst. cbn. repeat split; auto using tl_nil_of_nil.
    right. split; auto. exists ErrDriver. split; auto.
    intros F. unfold faulty in Ef. rewrite F in Ef. discriminate.
  - destruct (x (tables s)) as [[a t']|e] eqn:Ex; intros H; inversion H; subst;
      cbn; repeat split; auto using tl_nil_of_nil.
    + left. eauto 6.
    + right. eauto.
Qed.

(** ** Reading budgets *)

Section BudgetFacts.

Context {engine : SqlEngine}.

Lemma no_rows_as_ok_inv {A} e (m : DB A) s a s' :
  no_rows_as e m s = (Ok a, s') -> m s = (Ok a, s').
Proof.
  unfold no_rows_as. destruct (m s) as [[a0|e0] s1]; [auto|].
  destruct e0; discriminate.
Qed.

Lemma first_row_ok_inv {A} (rows : list A) r :
  first_row rows = Ok r -> exists rest, rows = r :: rest.
Proof. destruct rows; [discriminate|]. intros [= ->]. eauto. Qed.

Lemma with_usage_inv userID startDate endDate budget s r s' :
  with_usage userID startDate endDate budget s = (r, s') ->
  s' = tick QSumBills s
  /\ (r = Err ErrDriver
      \/ r = Ok (usage (tables s) userID startDate endDate budget)).
Proof.
  unfold with_usage, bind, db_query, ret, usage.
  destruct (faulty s); intros H; inversion H; subst; auto.
Qed.

Lemma with_usage_no_fault userID startDate endDate budget s :
  faults s = [] ->
  with_usage userID startDate endDate budget s
  = (Ok (usage (tables s) userID startDate endDate budget), tick QSumBills s).
Proof.
  intros F. unfold with_usage, bind, db_query, ret, usage, faulty.
  rewrite F. reflexivity.
Qed.

Lemma reads_with_usage userID startDate endDate budget :
  reads (with_usage userID startDate endDate budget).
Proof.
  unfold with_usage. apply reads_bind.
  - apply reads_query. reflexivity.
  - intros a. apply reads_ret.
Qed.

Lemma reads_GetBudget id userID : reads (GetBudget id userID).
Proof.
  unfold GetBudget. apply reads_bind.
  - apply reads_no_rows_as, reads_query. reflexivity.
  - intros j. destruct (parse_month _).
    + apply reads_with_usage.
    + apply reads_fail.
Qed.

Lemma reads_GetBudgets_rows userID startDate endDate rows :
  reads (GetBudgets_rows userID startDate endDate rows).
Proof.
  induction rows as [|j rest IH]; cbn [GetBudgets_rows].
  - apply reads_ret.
  - destruct (parse_month _); [|apply reads_fail].
    apply reads_bind; [apply reads_with_usage|]. intros b.
    apply reads_bind; [exact IH|]. intros bs. apply reads_ret.
Qed.

Lemma reads_GetBudgets userID month : reads (GetBudgets userID month).
Proof.
  unfold GetBudgets. destruct (parse_month month); [|apply reads_fail].
  apply reads_bind.
  - apply reads_query. reflexivity.
  - intros rows. apply reads_GetBudgets_rows.
Qed.

Lemma reads_check_placement userID categoryID month exclude :
  reads (check_placement userID categoryID month exclude).
Proof.
  unfold check_placement. destruct (N.ltb 0 categoryID).
  - apply reads_bind; [apply reads_query; reflexivity|]. intros r.
    destruct (negb (fst r)); [apply reads_fail|].
    destruct (negb (kind_eqb (snd r) expense)); [apply reads_fail|].
    apply reads_bind; [apply reads_query; reflexivity|]. intros c.
    destruct (0 <? c); [apply reads_fail|apply reads_ret].
  - apply reads_bind; [apply reads_query; reflexivity|]. intros c.
    destruct (0 <? c); [apply reads_fail|apply reads_ret].
Qed.

(** The budget [GetBudget] returns is a row of [budgets] with the id and
    the user asked for, with the usage of its month. *)
Lemma GetBudget_ok_inv id userID s B s' :
  GetBudget id userID s = (Ok B, s') ->
  exists row month,
    In row (budgets (tables s))
    /\ bud_id row = id /\ bud_user_id row = userID
    /\ parse_month (DATE_FORMAT_Ym (bud_month row)) = Some month
    /\ B = usage (tables s) userID month
             (Add_minus_second (AddDate_months month 1))
             (budget_of_row (left_join_category (tables s) row) month).
Proof.
  unfold GetBudget. intros H.
  apply bind_ok_inv in H. destruct H as (j & s1 & Hq & H).
  apply no_rows_as_ok_inv, db_query_ok_inv in Hq. destruct Hq as [-> Hq].
  apply first_row_ok_inv in Hq. destruct Hq as [rest Hq].
  assert (Hj : In j (select_budget (tables s) id userID))
    by (rewrite Hq; left; reflexivity).
  unfold select_budget in Hj. apply in_map_iff in Hj.
  destruct Hj as (row & <- & Hrow). apply filter_In in Hrow.
  destruct Hrow as [Hin Hc]. apply andb_true_iff in Hc.
  destruct Hc as [Hid Hu]. apply N.eqb_eq in Hid, Hu.
  cbn [fst left_join_category] in H.
  destruct (parse_month (DATE_FORMAT_Ym (bud_month row))) as [month|] eqn:Hp;
    [|discriminate].
  apply with_usage_inv in H. destruct H as [_ [H|H]]; [discriminate|].
  injection H as ->. exists row, month. cbn [budget_of_row Budget.Month].
  repeat split; auto.
Qed.

Lemma GetBudgets_rows_ok_inv userID startDate endDate rows :
  forall s L s',
    GetBudgets_rows userID startDate endDate rows s = (Ok L, s') ->
    Forall2
      (fun j B =>
         exists month,
           parse_month (DATE_FORMAT_Ym (bud_month (fst j))) = Some month
           /\ B = usage (tables s) userID startDate endDate
                    (budget_of_row j month))
      rows L.
Proof.
  induction rows as [|j rest IH]; intros s L s' H; cbn [GetBudgets_rows] in H.
  - injection H as <- _. constructor.
  - destruct (parse_month (DATE_FORMAT_Ym (bud_month (fst j))))
      as [month|] eqn:Hp; [|discriminate].
    apply bind_ok_inv in H. destruct H as (b & s1 & Hb & H).
    apply bind_ok_inv in H. destruct H as (bs & s2 & Hbs & H).
    injection H as <- _.
    destruct (reads_with_usage _ _ _ _ _ _ _ Hb) as (T1 & _).
    apply with_usage_inv in Hb. destruct Hb as [_ [Hb|Hb]]; [discriminate|].
    injection Hb as ->.
    constructor.
    + exists month. auto.
    + apply IH in Hbs. rewrite T1 in Hbs. exact Hbs.
Qed.

Lemma GetBudgets_ok_inv userID month s L s' :
  GetBudgets userID month s = (Ok L, s') ->
  exists parsedMonth,
    parse_month month = Some parsedMonth
    /\ Forall2
         (fun j B =>
            exists m,
              parse_month (DATE_FORMAT_Ym (bud_month (fst j))) = Some m
              /\ B = usage (tables s) userID parsedMonth
                       (Add_minus_second (AddDate_months parsedMonth 1))
                       (budget_of_row j m))
         (select_budgets_of_month (tables s) userID month) L.
Proof.
  unfold GetBudgets.
  destruct (parse_month month) as [pm|] eqn:Hp; [|discriminate].
  intros H. apply bind_ok_inv in H. destruct H as (rows & s1 & Hq & H).
  apply db_query_ok_inv in Hq. destruct Hq as [-> Hq]. injection Hq as <-.
  apply GetBudgets_rows_ok_inv in H. exists pm. split; auto.
Qed.

End BudgetFacts.

(** ** Percentage of a returned budget *)

(** [Amount <= 0] excludes [0 < Amount] on binary64 floats. *)
Lemma leb_zero_not_pos (a : float) :
  PrimFloat.leb a 0%float = true -> PrimFloat.ltb 0%float a = false.
Proof.
  rewrite FloatAxioms.leb_spec, FloatAxioms.ltb_spec.
  change (Prim2SF 0%float) with (S754_zero false).
  unfold SFleb, SFltb, SFcompare.
  destruct (Prim2SF a) as [sg|sg| |sg m e]; try destruct sg; cbn; congruence.
Qed.

Lemma usage_percentage_ok {engine : SqlEngine} t userID startDate endDate j month :
  percentage_ok (usage t userID startDate endDate (budget_of_row j month)).
Proof.
  unfold percentage_ok, usage.
  cbn [Budget.Amount Budget.Percentage Budget.UsedAmount budget_of_row].
  split; [|split].
  - intros ->. reflexivity.
  - intros H. apply leb_zero_not_pos in H. rewrite H. reflexivity.
  - intros ->. reflexivity.
Qed.

(** C1.  Every budget that [GetBudget] or [GetBudgets] returns has
    [Percentage = UsedAmount / Amount * 100] when its [Amount] is
    strictly positive, and [Percentage = 0] when its [Amount] is zero or
    negative (more generally, whenever it is not strictly positive). *)
Theorem returned_budget_percentage {engine : SqlEngine} userID s B :
  returned_budget userID s B -> percentage_ok B.
Proof.
  intros [(id & s' & H)|(month & L & s' & H & HB)].
  - apply GetBudget_ok_inv in H.
    destruct H as (row & m & _ & _ & _ & _ & ->).
    apply usage_percentage_ok.
  - apply GetBudgets_ok_inv in H. destruct H as (pm & _ & HL).
    revert HB. induction HL as [|j B' rows L' (m & _ & ->) _ IH]; cbn.
    + tauto.
    + intros [<-|HB]; [apply usage_percentage_ok|auto].
Qed.

Lemma returned_budget_percentage_witness :
  let B := Budget.mk 1 1 1 1000%float (mkTime (mkDate 2024 3 1) 0)
             "Food" "" 850%float 85%float in
  returned_budget (engine := ref_engine) 1 demo_store B /\ percentage_ok B.
Proof.
  intros B.
  assert (H : returned_budget (engine := ref_engine) 1 demo_store B).
  { left. exists 1%N. eexists. vm_compute. reflexivity. }
  split; [exact H|].
  exact (returned_budget_percentage (engine := ref_engine) 1 demo_store B H).
Defined.

(** ** The bills a budget sums *)

Section UsedAmount.

Context {engine : SqlEngine}.

Lemma usage_used_amount t userID row month :
  valid_month (bud_month row) ->
  (forall c, bud_category_id row = Some c -> (0 < c)%N) ->
  parse_month (DATE_FORMAT_Ym (bud_month row)) = Some month ->
  Budget.UsedAmount
    (usage t userID month (Add_minus_second (AddDate_months month 1))
       (budget_of_row (left_join_category t row) month))
  = float64_of_decimal (spec_used_amount t userID row).
Proof.
  intros Hv Hc Hp.
  unfold DATE_FORMAT_Ym in Hp. rewrite (parse_format_ym _ Hv) in Hp.
  injection Hp as <-.
  unfold usage. cbn [Budget.UsedAmount Budget.CategoryID budget_of_row
                     left_join_category fst].
  rewrite end_of_month by (cbn; destruct Hv; auto).
  change (last_day (t_date {| t_date := {| d_year := d_year (bud_month row);
                                           d_month := d_month (bud_month row);
                                           d_day := 1 |}; t_sec := 0 |}))
    with (last_day (bud_month row)).
  change (Format_date {| t_date := {| d_year := d_year (bud_month row);
                                      d_month := d_month (bud_month row);
                                      d_day := 1 |}; t_sec := 0 |})
    with (first_day (bud_month row)).
  f_equal. unfold spec_used_amount.
  destruct (bud_category_id row) as [c|] eqn:Ec.
  - assert (Hpos : N.ltb 0 c = true) by (apply N.ltb_lt; auto).
    rewrite Hpos. unfold sum_bills_category. f_equal.
    apply filter_ext. intros b. unfold bill_in_scope, between. rewrite Ec.
    destruct (N.eqb (bill_user_id b) userID), (N.eqb (bill_category_id b) c),
      (kind_eqb (bill_type b) expense),
      (date_leb (first_day (bud_month row)) (bill_date b)),
      (date_leb (bill_date b) (last_day (bud_month row))); reflexivity.
  - change (N.ltb 0 0) with false. cbv iota.
    unfold sum_bills_total. f_equal.
    apply filter_ext. intros b. unfold bill_in_scope, between. rewrite Ec.
    destruct (N.eqb (bill_user_id b) userID),
      (kind_eqb (bill_type b) expense),
      (date_leb (first_day (bud_month row)) (bill_date b)),
      (date_leb (bill_date b) (last_day (bud_month row))); reflexivity.
Qed.

Lemma budget_of_row_ID t row month :
  Budget.ID (budget_of_row (left_join_category t row) month) = bud_id row.
Proof. reflexivity. Qed.

(** C3.  The [UsedAmount] of a budget that [GetBudget] or [GetBudgets]
    returns is the sum of the user's bills of type expense dated from the
    first to the last day of the month of the budget, both included, of
    the category of the budget when it has one and of every category when
    it has none. *)
Theorem used_amount_sums_bills_in_scope userID s B :
  schema_ok (tables s) ->
  returned_budget userID s B ->
  exists row,
    In row (budgets (tables s))
    /\ bud_id row = Budget.ID B /\ bud_user_id row = userID
    /\ Budget.UsedAmount B
       = float64_of_decimal (spec_used_amount (tables s) userID row).
Proof.
  intros Hs [(id & s' & H)|(month & L & s' & H & HB)].
  - apply GetBudget_ok_inv in H.
    destruct H as (row & m & Hin & Hid & Hu & Hp & ->).
    exists row. unfold schema_ok in Hs. rewrite Forall_forall in Hs.
    destruct (Hs _ Hin) as [Hv Hc].
    repeat split; auto. apply usage_used_amount; auto.
  - apply GetBudgets_ok_inv in H. destruct H as (pm & Hpm & HL).
    assert (Hrows : forall j, In j (select_budgets_of_month (tables s) userID month) ->
              exists row, j = left_join_category (tables s) row
                          /\ In row (budgets (tables s))
                          /\ bud_user_id row = userID
                          /\ DATE_FORMAT_Ym (bud_month row) = month).
    { intros j Hj. unfold select_budgets_of_month in Hj.
      apply (Permutation_in _ (order_budgets_perm _)) in Hj.
      apply in_map_iff in Hj. destruct Hj as (row & <- & Hrow).
      apply filter_In in Hrow. destruct Hrow as [Hin Hc].
      apply andb_true_iff in Hc. destruct Hc as [Hu Hm].
      apply N.eqb_eq in Hu. apply String.eqb_eq in Hm. eauto. }
    revert HB Hrows.
    induction HL as [|j B' rows L' (m & Hm & ->) _ IH]; cbn [In]; [tauto|].
    intros [<-|HB] Hrows; [|apply IH; auto].
    destruct (Hrows j (or_introl eq_refl)) as (row & -> & Hin & Hu & Hmonth).
    cbn [left_join_category fst] in Hm.
    assert (pm = m) by congruence. subst pm.
    exists row. unfold schema_ok in Hs. rewrite Forall_forall in Hs.
    destruct (Hs _ Hin) as [Hv Hc].
    repeat split; auto. apply usage_used_amount; auto.
Qed.

End UsedAmount.

Lemma used_amount_sums_bills_in_scope_witness :
  let B := Budget.mk 1 1 1 1000%float (mkTime (mkDate 2024 3 1) 0)
             "Food" "" 850%float 85%float in
  schema_ok demo_tables
  /\ returned_budget (engine := ref_engine) 1 demo_store B
  /\ exists row,
       In row (budgets demo_tables)
       /\ bud_id row = 1%N /\ bud_user_id row = 1%N
       /\ 850%float
          = ref_float64_of_decimal (spec_used_amount demo_tables 1 row).
Proof.
  intros B.
  assert (Hs : schema_ok demo_tables).
  { unfold schema_ok, valid_month. cbn.
    repeat constructor; cbn; try lia; intros c [= <-]; reflexivity. }
  assert (H : returned_budget (engine := ref_engine) 1 demo_store B).
  { left. exists 1%N. eexists. vm_compute. reflexivity. }
  split; [exact Hs|]. split; [exact H|].
  exact (used_amount_sums_bills_in_scope (engine := ref_engine)
           1 demo_store B Hs H).
Defined.

(** ** Deleting a budget *)

Section Delete.

Context {engine : SqlEngine}.

Lemma filter_filter_absorb {A} (p q : A -> bool) l :
  (forall x, q x = true -> p x = true) ->
  filter p (filter q l) = filter q l.
Proof.
  intros H. induction l as [|x l IH]; cbn; [reflexivity|].
  destruct (q x) eqn:Eq; cbn; [rewrite (H _ Eq), IH; reflexivity|exact IH].
Qed.

(** The two DELETE statements of the transaction, one after the other. *)
Lemma delete_statements id userID t t1 t2 :
  delete_alerts_of_budget id t = Ok (tt, t1) ->
  delete_budget id userID t1 = Ok (tt, t2) ->
  t2 = without_budget id userID t.
Proof.
  unfold delete_alerts_of_budget, delete_budget, without_budget.
  intros [= <-] [= <-]. cbn [categories bills budgets budget_alerts
                             next_budget_id next_alert_id].
  f_equal. apply filter_filter_absorb.
  intros a Ha. unfold alert_of_budget in Ha.
  apply negb_true_iff in Ha. apply negb_true_iff.
  apply not_true_iff_false. intros Hex. apply existsb_exists in Hex.
  destruct Hex as (b & _ & Hb). apply andb_true_iff in Hb.
  destruct Hb as [Hg Hid]. apply andb_true_iff in Hg. destruct Hg as [Hg _].
  apply N.eqb_eq in Hg, Hid. rewrite <- Hid, Hg, N.eqb_refl in Ha.
  discriminate.
Qed.

(** The transaction of [DeleteBudget], from [DB.Begin] on: whatever the
    driver does, it ends with no transaction open and with either both
    deletions committed or the tables as they were. *)
Lemma delete_transaction id userID s r s' :
  pending s = None ->
  (Begin;;;
   or_rollback (tx_exec TxDeleteAlerts (delete_alerts_of_budget id));;;
   or_rollback (tx_exec TxDeleteBudget (delete_budget id userID));;;
   Commit) s = (r, s') ->
  pending s' = None
  /\ match r with
     | Ok _ => tables s' = without_budget id userID (tables s)
     | Err _ => tables s' = tables s
     end
  /\ (faults s = [] -> r = Ok tt).
Proof.
  destruct s as [t p f l]. cbn [pending tables faults]. intros ->.
  assert (E1 : exists t1, delete_alerts_of_budget id t = Ok (tt, t1))
    by (eexists; reflexivity).
  destruct E1 as [t1 E1].
  assert (E2 : exists t2, delete_budget id userID t1 = Ok (tt, t2))
    by (eexists; reflexivity).
  destruct E2 as [t2 E2].
  pose proof (delete_statements id userID t t1 t2 E1 E2) as Hd.
  unfold bind, Begin, or_rollback, tx_exec, Commit, Rollback, faulty, tick.
  destruct f as [|[|] [|[|] [|[|] [|[|] f]]]];
    cbn [hd tl faults pending tables log fst snd];
    rewrite ?E1; cbn [hd tl faults pending tables log fst snd];
    rewrite ?E2; cbn [hd tl faults pending tables log fst snd];
    intros H; inversion H; subst r s'; cbn [pending tables];
    (split; [reflexivity|split; [|try discriminate; auto]]);
    try reflexivity; exact Hd.
Qed.

Lemma GetBudget_total id userID s row :
  faults s = [] -> schema_ok (tables s) ->
  In row (budgets (tables s)) -> bud_id row = id -> bud_user_id row = userID ->
  exists B s', GetBudget id userID s = (Ok B, s').
Proof.
  intros F Hs Hin Hid Hu. unfold GetBudget.
  assert (Hsel : In (left_join_category (tables s) row)
                    (select_budget (tables s) id userID)).
  { unfold select_budget. apply in_map, filter_In. split; auto.
    rewrite Hid, Hu, !N.eqb_refl. reflexivity. }
  destruct (select_budget (tables s) id userID) as [|j rest] eqn:E;
    [destruct Hsel|].
  assert (Hj : In j (select_budget (tables s) id userID))
    by (rewrite E; left; reflexivity).
  unfold select_budget in Hj. apply in_map_iff in Hj.
  destruct Hj as (row' & <- & Hrow'). apply filter_In in Hrow'.
  destruct Hrow' as [Hin' _].
  unfold schema_ok in Hs. rewrite Forall_forall in Hs.
  destruct (Hs _ Hin') as [Hv _].
  unfold bind, no_rows_as. rewrite db_query_no_fault by exact F.
  rewrite E. cbn [first_row fst left_join_category].
  unfold DATE_FORMAT_Ym. rewrite (parse_format_ym _ Hv).
  rewrite with_usage_no_fault by (cbn; rewrite F; reflexivity).
  eauto.
Qed.

Lemma GetBudget_missing id userID s r s' :
  (forall row, In row (budgets (tables s)) ->
               ~ (bud_id row = id /\ bud_user_id row = userID)) ->
  GetBudget id userID s = (r, s') ->
  exists e, r = Err e /\ (faults s = [] -> e = ErrBudgetNotFound).
Proof.
  intros Hno H.
  assert (Hsel : select_budget (tables s) id userID = []).
  { unfold select_budget.
    destruct (filter _ (budgets (tables s))) as [|row rest] eqn:E;
      [reflexivity|].
    assert (Hin : In row (row :: rest)) by (left; reflexivity).
    rewrite <- E in Hin. apply filter_In in Hin. destruct Hin as [Hin Hc].
    apply andb_true_iff in Hc. destruct Hc as [H1 H2].
    apply N.eqb_eq in H1, H2. destruct (Hno _ Hin); auto. }
  revert H. unfold GetBudget, bind, no_rows_as, db_query.
  rewrite Hsel. cbn [first_row].
  destruct (faulty s) eqn:Ef; intros H; inversion H; subst.
  - exists ErrDriver. split; auto. intros F. unfold faulty in Ef.
    rewrite F in Ef. discriminate.
  - exists ErrBudgetNotFound. auto.
Qed.

(** What a run of [DeleteBudget] leaves behind. *)
Lemma DeleteBudget_outcome id userID s r s' :
  pending s = None ->
  DeleteBudget id userID s = (r, s') ->
  pending s' = None
  /\ match r with
     | Ok _ => owns_budget (tables s) userID id
               /\ tables s' = without_budget id userID (tables s)
     | Err _ => tables s' = tables s
     end
  /\ (forall B s1, GetBudget id userID s = (Ok B, s1) ->
                   faults s = [] -> r = Ok tt).
Proof.
  intros Hp H. unfold DeleteBudget in H.
  apply bind_inv in H. destruct H as [(e & H & ->)|(B & s1 & HB & H)].
  - destruct (reads_GetBudget _ _ _ _ _ H) as (T & P & _).
    split; [congruence|]. split; [exact T|]. intros B s1 HB. congruence.
  - destruct (reads_GetBudget _ _ _ _ _ HB) as (T & P & F1 & _).
    apply GetBudget_ok_inv in HB.
    destruct HB as (row & m & Hin & Hid & Hu & _).
    apply delete_transaction in H; [|congruence].
    destruct H as (P' & Hr & Hok).
    split; [exact P'|]. split.
    + rewrite T in Hr. destruct r; [|exact Hr].
      split; [exists row; auto|exact Hr].
    + intros _ _ _ F. auto.
Qed.

(** C4.  [DeleteBudget id userID] succeeds only for a budget that exists
    and belongs to the user, and then the alerts that reference the
    budget and the budget row are all gone; when it returns an error,
    whichever statement failed, the tables are as they were: neither the
    alerts nor the budget row are removed.  In both cases no transaction
    is left open.  Without a budget of that id and user it returns an
    error (the not-found error when the driver does not fail); with one,
    and no failure of the driver, it succeeds. *)
Theorem DeleteBudget_atomic id userID s r s' :
  pending s = None ->
  DeleteBudget id userID s = (r, s') ->
  pending s' = None
  /\ match r with
     | Ok _ => owns_budget (tables s) userID id
               /\ budgets (tables s')
                  = filter (fun b => negb (is_budget id userID b))
                           (budgets (tables s))
               /\ budget_alerts (tables s')
                  = filter (fun a => negb (alert_of_budget id a))
                           (budget_alerts (tables s))
     | Err _ => tables s' = tables s
     end
  /\ (~ owns_budget (tables s) userID id ->
      exists e, r = Err e /\ (faults s = [] -> e = ErrBudgetNotFound))
  /\ (faults s = [] -> schema_ok (tables s) ->
      owns_budget (tables s) userID id -> r = Ok tt).
Proof.
  intros Hp H.
  destruct (DeleteBudget_outcome _ _ _ _ _ Hp H) as (P' & Hr & Hok).
  split; [exact P'|]. split; [|split].
  - destruct r; [|exact Hr]. destruct Hr as [Hown ->]. auto.
  - intros Hno. unfold DeleteBudget in H. apply bind_inv in H.
    destruct H as [(e & H & ->)|(B & s1 & HB & _)].
    + destruct (GetBudget_missing id userID s _ _
                  (fun row Hin Hc => Hno (ex_intro _ row (conj Hin Hc))) H)
        as (e' & He & He').
      injection He as <-. eauto.
    + apply GetBudget_ok_inv in HB.
      destruct HB as (row & m & Hin & Hid & Hu & _).
      destruct Hno. exists row. auto.
  - intros F Hs (row & Hin & Hid & Hu).
    destruct (GetBudget_total id userID s row F Hs Hin Hid Hu)
      as (B & s2 & HB).
    exact (Hok B s2 HB F).
Qed.

End Delete.

Lemma DeleteBudget_atomic_witness :
  pending demo_store = None
  /\ fst (DeleteBudget (engine := ref_engine) 1 1 demo_store) = Ok tt
  /\ budget_alerts
       (tables (snd (DeleteBudget (engine := ref_engine) 1 1 demo_store)))
     = [mkAlertRow 4 2 4 100 true].
Proof.
  pose proof (DeleteBudget_atomic (engine := ref_engine) 1 1 demo_store
                (fst (DeleteBudget (engine := ref_engine) 1 1 demo_store))
                (snd (DeleteBudget (engine := ref_engine) 1 1 demo_store))
                eq_refl (surjective_pairing _)) as (_ & H & _ & Hok).
  assert (Hr : fst (DeleteBudget (engine := ref_engine) 1 1 demo_store) = Ok tt).
  { apply Hok.
    - reflexivity.
    - unfold schema_ok, valid_month. cbn.
      repeat constructor; cbn; try lia; intros c [= <-]; reflexivity.
    - exists (mkBudgetRow 1 1 (Some 1%N) 100000 (mkDate 2024 3 1)).
      cbn. auto. }
  split; [reflexivity|]. split; [exact Hr|].
  rewrite Hr in H. destruct H as (_ & _ & ->). reflexivity.
Defined.

(** ** Checking the alerts *)

Section CheckAlerts.

Context {engine : SqlEngine}.

Lemma NoDup_map_inj {A B} (f : A -> B) l x y :
  NoDup (map f l) -> In x l -> In y l -> f x = f y -> x = y.
Proof.
  induction l as [|z l IH]; cbn; [tauto|].
  intros Hnd. inversion Hnd as [|? ? Hz Hl]; subst.
  intros [->|Hx] [->|Hy] E; auto.
  - destruct Hz. rewrite E. apply in_map. exact Hy.
  - destruct Hz. rewrite <- E. apply in_map. exact Hx.
Qed.

Lemma NoDup_map_filter {A B} (f : A -> B) p l :
  NoDup (map f l) -> NoDup (map f (filter p l)).
Proof.
  induction l as [|z l IH]; cbn; [auto|].
  intros Hnd. inversion Hnd as [|? ? Hz Hl]; subst.
  destruct (p z); cbn; auto. constructor; auto.
  intros Hin. apply Hz. apply in_map_iff in Hin.
  destruct Hin as (x & E & Hx). apply filter_In in Hx.
  rewrite <- E. apply in_map. tauto.
Qed.

Lemma Forall2_In_l {A B} (R : A -> B -> Prop) l l' x :
  Forall2 R l l' -> In x l -> exists y, In y l' /\ R x y.
Proof.
  induction 1 as [|a b l l' Hab _ IH]; cbn; [tauto|].
  intros [->|Hx]; [eauto|]. destruct (IH Hx) as (y & Hy & Hr). eauto.
Qed.

Lemma Forall2_In_r {A B} (R : A -> B -> Prop) l l' y :
  Forall2 R l l' -> In y l' -> exists x, In x l /\ R x y.
Proof.
  induction 1 as [|a b l l' Hab _ IH]; cbn; [tauto|].
  intros [->|Hy]; [eauto|]. destruct (IH Hy) as (x & Hx & Hr). eauto.
Qed.

Lemma Forall2_map_eq {A B C} (R : A -> B -> Prop) (f : A -> C) (g : B -> C)
  l l' :
  Forall2 R l l' -> (forall x y, R x y -> f x = g y) -> map f l = map g l'.
Proof.
  induction 1 as [|a b l l' Hab _ IH]; cbn; [reflexivity|].
  intros H. rewrite (H _ _ Hab), IH; auto.
Qed.

(** The rows of the budget list of a month are the budgets of the user
    in that month. *)
Lemma select_budgets_of_month_In t userID month j :
  In j (select_budgets_of_month t userID month) <->
  exists row, j = left_join_category t row
              /\ In row (budgets t)
              /\ bud_user_id row = userID
              /\ DATE_FORMAT_Ym (bud_month row) = month.
Proof.
  unfold select_budgets_of_month. split.
  - intros Hj. apply (Permutation_in _ (order_budgets_perm _)) in Hj.
    apply in_map_iff in Hj. destruct Hj as (row & <- & Hrow).
    apply filter_In in Hrow. destruct Hrow as [Hin Hc].
    apply andb_true_iff in Hc. destruct Hc as [Hu Hm].
    apply N.eqb_eq in Hu. apply String.eqb_eq in Hm. eauto.
  - intros (row & -> & Hin & Hu & Hm).
    apply (Permutation_in _ (Permutation_sym (order_budgets_perm _))).
    apply in_map, filter_In. split; auto.
    apply andb_true_iff. split; [apply N.eqb_eq|apply String.eqb_eq]; auto.
Qed.

Lemma select_budgets_of_month_ids t userID month :
  NoDup (map bud_id (budgets t)) ->
  NoDup (map (fun j => bud_id (fst j)) (select_budgets_of_month t userID month)).
Proof.
  intros Hnd. unfold select_budgets_of_month.
  eapply Permutation_NoDup.
  - apply Permutation_map, Permutation_sym, order_budgets_perm.
  - rewrite map_map. cbn [left_join_category fst].
    apply NoDup_map_filter. exact Hnd.
Qed.

(** The budgets [GetBudgets] loads: one for each budget of the user in
    the month, with its id, and no two with the same id. *)
Lemma GetBudgets_loaded userID month s L s' :
  NoDup (map bud_id (budgets (tables s))) ->
  GetBudgets userID month s = (Ok L, s') ->
  NoDup (map Budget.ID L)
  /\ (forall B, In B L ->
        exists row, In row (budgets (tables s))
                    /\ bud_user_id row = userID
                    /\ DATE_FORMAT_Ym (bud_month row) = month
                    /\ Budget.ID B = bud_id row)
  /\ (forall row, In row (budgets (tables s)) ->
        bud_user_id row = userID ->
        DATE_FORMAT_Ym (bud_month row) = month ->
        exists B, In B L /\ Budget.ID B = bud_id row).
Proof.
  intros Hnd H. apply GetBudgets_ok_inv in H.
  destruct H as (pm & _ & HL).
  assert (Hid : forall j B,
             (exists m, parse_month (DATE_FORMAT_Ym (bud_month (fst j))) = Some m
                        /\ B = usage (tables s) userID pm
                                 (Add_minus_second (AddDate_months pm 1))
                                 (budget_of_row j m)) ->
             bud_id (fst j) = Budget.ID B).
  { intros j B (m & _ & ->). reflexivity. }
  split; [|split].
  - rewrite <- (Forall2_map_eq _ _ _ _ _ HL Hid).
    apply select_budgets_of_month_ids. exact Hnd.
  - intros B HB. destruct (Forall2_In_r _ _ _ _ HL HB) as (j & Hj & HR).
    apply select_budgets_of_month_In in Hj.
    destruct Hj as (row & -> & Hin & Hu & Hm).
    exists row. rewrite <- (Hid _ _ HR). auto.
  - intros row Hin Hu Hm.
    assert (Hj : In (left_join_category (tables s) row)
                   (select_budgets_of_month (tables s) userID month))
      by (apply select_budgets_of_month_In; eauto).
    destruct (Forall2_In_l _ _ _ _ HL Hj) as (B & HB & HR).
    exists B. rewrite <- (Hid _ _ HR). auto.
Qed.

Lemma find_budget_some L id B :
  find_budget L id = Some B -> In B L /\ Budget.ID B = id.
Proof.
  unfold find_budget. intros H. apply find_some in H.
  destruct H as [H1 H2]. apply N.eqb_eq in H2. auto.
Qed.

Lemma find_budget_unique L id B :
  NoDup (map Budget.ID L) -> In B L -> Budget.ID B = id ->
  find_budget L id = Some B.
Proof.
  intros Hnd HB Hid. unfold find_budget.
  destruct (find (fun b => N.eqb (Budget.ID b) id) L) as [B'|] eqn:E.
  - apply find_some in E. destruct E as [HB' E]. apply N.eqb_eq in E.
    f_equal. apply (NoDup_map_inj Budget.ID L); auto. congruence.
  - pose proof (find_none _ _ E _ HB) as Hn. cbn beta in Hn.
    rewrite Hid, N.eqb_refl in Hn. discriminate.
Qed.

(** The records of the loop: one for each alert row whose budget is
    found with a percentage of at least the threshold. *)
Lemma scan_alerts_In L rows r :
  In r (scan_alerts L rows) <->
  exists row B,
    In row rows
    /\ find_budget L (aa_budget_id row) = Some B
    /\ PrimFloat.leb (float64_of_int (aa_threshold row))
                     (Budget.Percentage B) = true
    /\ r = alert_info row B.
Proof.
  induction rows as [|row rows IH]; cbn [scan_alerts In].
  - split; [tauto|]. intros (? & ? & [] & _).
  - destruct (find_budget L (aa_budget_id row)) as [B|] eqn:Ef.
    + cbv zeta.
      destruct (PrimFloat.leb (float64_of_int (aa_threshold row))
                              (Budget.Percentage B)) eqn:El.
      * cbn [In]. rewrite IH. split.
        -- intros [<-|(row' & B' & Hin & H)].
           ++ exists row, B. auto.
           ++ exists row', B'. tauto.
        -- intros (row' & B' & [<-|Hin] & Hf & Hl & ->).
           ++ left. congruence.
           ++ right. exists row', B'. auto.
      * rewrite IH. split.
        -- intros (row' & B' & Hin & H). exists row', B'. tauto.
        -- intros (row' & B' & [<-|Hin] & Hf & Hl & ->).
           ++ congruence.
           ++ exists row', B'. auto.
    + rewrite IH. split.
      * intros (row' & B' & Hin & H). exists row', B'. tauto.
      * intros (row' & B' & [<-|Hin] & Hf & Hl & ->).
        -- congruence.
        -- exists row', B'. auto.
Qed.

(** The rows of the alert SELECT: the active alerts of the user joined
    with a budget of the month. *)
Lemma select_active_alerts_In t userID month row :
  In row (select_active_alerts t userID month) <->
  exists a b,
    In a (budget_alerts t) /\ In b (budgets t)
    /\ al_user_id a = userID /\ al_is_active a = true
    /\ al_budget_id a = bud_id b
    /\ DATE_FORMAT_Ym (bud_month b) = month
    /\ row = mkActiveAlertRow (al_id a) (al_budget_id a) (al_threshold a)
               (bud_amount b) (bud_category_id b)
               (option_map cat_name (snd (left_join_category t b))).
Proof.
  unfold select_active_alerts. rewrite in_flat_map. split.
  - intros (a & Ha & Hrow). apply filter_In in Ha. destruct Ha as [Ha Hc].
    apply andb_true_iff in Hc. destruct Hc as [Hu Hact].
    apply N.eqb_eq in Hu. apply in_map_iff in Hrow.
    destruct Hrow as (b & <- & Hb). apply filter_In in Hb.
    destruct Hb as [Hb Hc]. apply andb_true_iff in Hc.
    destruct Hc as [Hid Hm]. apply N.eqb_eq in Hid.
    apply String.eqb_eq in Hm. exists a, b. repeat split; auto.
  - intros (a & b & Ha & Hb & Hu & Hact & Hid & Hm & ->).
    exists a. split.
    + apply filter_In. split; auto. rewrite Hact, Hu, N.eqb_refl. reflexivity.
    + apply in_map_iff. exists b. split; auto.
      apply filter_In. split; auto.
      apply andb_true_iff. split; [apply N.eqb_eq|apply String.eqb_eq]; auto.
Qed.

(** What [CheckBudgetAlerts] returns, in terms of what its two reads
    return. *)
Lemma CheckBudgetAlerts_ok_inv now userID s recs s' :
  CheckBudgetAlerts now userID s = (Ok recs, s') ->
  exists L s1,
    GetBudgets userID (Format_ym now) s = (Ok L, s1)
    /\ recs = scan_alerts L
                (select_active_alerts (tables s) userID (Format_ym now)).
Proof.
  unfold CheckBudgetAlerts. intros H.
  apply bind_ok_inv in H. destruct H as (L & s1 & HL & H).
  apply bind_ok_inv in H. destruct H as (rows & s2 & Hq & H).
  injection H as <- _.
  destruct (reads_GetBudgets _ _ _ _ _ HL) as (T & _).
  apply db_query_ok_inv in Hq. destruct Hq as [_ Hq]. injection Hq as <-.
  rewrite T. eauto.
Qed.

End CheckAlerts.

Section CheckAlertsClaims.

Context {engine : SqlEngine}.

(** C2.  When [CheckBudgetAlerts] returns the records [recs], then for
    every active alert of the user whose parent budget lies in the
    current month, the budget was loaded by [GetBudgets] and the alert is
    reported exactly when the [Percentage] of the loaded budget is greater
    than or equal to the threshold (equality counts); and every alert
    that is reported is an active alert of the user whose parent budget
    lies in the current month, so that inactive alerts and alerts of a
    budget of another month are never reported. *)
Theorem CheckBudgetAlerts_reports now userID s recs s' :
  pk_unique (tables s) -> alerts_owned (tables s) ->
  CheckBudgetAlerts now userID s = (Ok recs, s') ->
  exists L s1,
    GetBudgets userID (Format_ym now) s = (Ok L, s1)
    /\ (forall a b,
          In a (budget_alerts (tables s)) -> In b (budgets (tables s)) ->
          al_user_id a = userID -> al_budget_id a = bud_id b ->
          al_is_active a = true ->
          DATE_FORMAT_Ym (bud_month b) = Format_ym now ->
          (exists B, In B L /\ Budget.ID B = bud_id b)
          /\ (forall B, In B L -> Budget.ID B = bud_id b ->
                (reported recs a <->
                 PrimFloat.leb (float64_of_int (al_threshold a))
                               (Budget.Percentage B) = true)))
    /\ (forall a,
          In a (budget_alerts (tables s)) -> reported recs a ->
          al_user_id a = userID /\ al_is_active a = true
          /\ exists b, In b (budgets (tables s))
                       /\ al_budget_id a = bud_id b
                       /\ DATE_FORMAT_Ym (bud_month b) = Format_ym now).
Proof.
  intros [Hpb Hpa] Hown H.
  apply CheckBudgetAlerts_ok_inv in H. destruct H as (L & s1 & HL & ->).
  exists L, s1. split; [exact HL|].
  destruct (GetBudgets_loaded _ _ _ _ _ Hpb HL) as (HndL & HLrow & HrowL).
  split.
  - intros a b Ha Hb Hu Hid Hact Hm.
    assert (Hbu : bud_user_id b = userID).
    { destruct (Hown a Ha) as (b' & Hb' & Hid' & Hu').
      assert (b' = b)
        by (apply (NoDup_map_inj bud_id (budgets (tables s))); auto; congruence).
      subst b'. congruence. }
    split; [exact (HrowL b Hb Hbu Hm)|].
    intros B HB HBid. unfold reported. split.
    + intros (r & Hr & Hrid). apply scan_alerts_In in Hr.
      destruct Hr as (row & B' & Hrow & Hf & Hl & ->).
      apply select_active_alerts_In in Hrow.
      destruct Hrow as (a' & b' & Ha' & _ & _ & _ & _ & _ & ->).
      cbn [alert_info AlertInfo.alert_id aa_id aa_budget_id aa_threshold] in *.
      assert (a' = a)
        by (apply (NoDup_map_inj al_id (budget_alerts (tables s))); auto).
      subst a'.
      rewrite (find_budget_unique L (al_budget_id a) B) in Hf
        by (auto; congruence).
      injection Hf as <-. exact Hl.
    + intros Hl.
      set (row := mkActiveAlertRow (al_id a) (al_budget_id a) (al_threshold a)
                    (bud_amount b) (bud_category_id b)
                    (option_map cat_name
                       (snd (left_join_category (tables s) b)))).
      exists (alert_info row B). split; [|reflexivity].
      apply scan_alerts_In. exists row, B. repeat split; auto.
      * apply select_active_alerts_In. exists a, b. repeat split; auto.
      * apply find_budget_unique; auto. cbn. congruence.
  - intros a Ha (r & Hr & Hrid). apply scan_alerts_In in Hr.
    destruct Hr as (row & B' & Hrow & _ & _ & ->).
    apply select_active_alerts_In in Hrow.
    destruct Hrow as (a' & b' & Ha' & Hb' & Hu' & Hact' & Hid' & Hm' & ->).
    cbn [alert_info AlertInfo.alert_id aa_id] in Hrid.
    assert (a' = a)
      by (apply (NoDup_map_inj al_id (budget_alerts (tables s))); auto).
    subst a'. eauto 8.
Qed.

Lemma GetBudgets_rows_total userID startDate endDate rows :
  forall s,
    faults s = [] ->
    (forall j, In j rows -> valid_month (bud_month (fst j))) ->
    exists L s',
      GetBudgets_rows userID startDate endDate rows s = (Ok L, s')
      /\ faults s' = [].
Proof.
  induction rows as [|j rest IH]; intros s F Hv; cbn [GetBudgets_rows].
  - exists [], s. auto.
  - unfold DATE_FORMAT_Ym.
    rewrite (parse_format_ym _ (Hv j (or_introl eq_refl))).
    destruct (IH (tick QSumBills s)) as (L & s' & HL & F').
    + cbn. rewrite F. reflexivity.
    + intros j' Hj'. apply Hv. right. exact Hj'.
    + eexists. exists s'. split; [|exact F'].
      unfold bind at 1. rewrite with_usage_no_fault by exact F.
      unfold bind. rewrite HL. reflexivity.
Qed.

Lemma GetBudgets_total userID month parsedMonth s :
  faults s = [] -> schema_ok (tables s) ->
  parse_month month = Some parsedMonth ->
  exists L s', GetBudgets userID month s = (Ok L, s') /\ faults s' = [].
Proof.
  intros F Hs Hp. unfold GetBudgets. rewrite Hp.
  destruct (GetBudgets_rows_total userID parsedMonth
              (Add_minus_second (AddDate_months parsedMonth 1))
              (select_budgets_of_month (tables s) userID month)
              (tick QListBudgets s)) as (L & s' & HL & F').
  - cbn. rewrite F. reflexivity.
  - intros j Hj. apply select_budgets_of_month_In in Hj.
    destruct Hj as (row & -> & Hin & _). unfold schema_ok in Hs.
    rewrite Forall_forall in Hs. exact (proj1 (Hs _ Hin)).
  - exists L, s'. split; [|exact F'].
    unfold bind. rewrite db_query_no_fault by exact F. exact HL.
Qed.

Lemma CheckBudgetAlerts_total now userID s :
  faults s = [] -> schema_ok (tables s) -> valid_month (t_date now) ->
  exists recs s', CheckBudgetAlerts now userID s = (Ok recs, s').
Proof.
  intros F Hs Hnow. unfold CheckBudgetAlerts.
  destruct (GetBudgets_total userID (Format_ym now)
              (mkTime (mkDate (d_year (t_date now)) (d_month (t_date now)) 1) 0)
              s F Hs (parse_format_ym _ Hnow)) as (L & s1 & HL & F1).
  unfold bind at 1. rewrite HL.
  unfold bind. rewrite db_query_no_fault by exact F1.
  unfold ret. eauto.
Qed.

(** C9.  An alert of the user whose parent budget is not among the
    budgets [GetBudgets] loaded is skipped: [CheckBudgetAlerts] still
    succeeds (as it does whenever the driver does not fail), and its
    result holds no record for that alert. *)
Theorem CheckBudgetAlerts_skips_unmatched now userID s :
  faults s = [] -> schema_ok (tables s) -> valid_month (t_date now) ->
  pk_unique (tables s) ->
  exists recs s' L s1,
    CheckBudgetAlerts now userID s = (Ok recs, s')
    /\ GetBudgets userID (Format_ym now) s = (Ok L, s1)
    /\ forall a,
         In a (budget_alerts (tables s)) ->
         (forall B, In B L -> Budget.ID B <> al_budget_id a) ->
         ~ reported recs a.
Proof.
  intros F Hs Hnow [_ Hpa].
  destruct (CheckBudgetAlerts_total now userID s F Hs Hnow) as (recs & s' & H).
  destruct (CheckBudgetAlerts_ok_inv _ _ _ _ _ H) as (L & s1 & HL & Hrecs).
  exists recs, s', L, s1. split; [exact H|]. split; [exact HL|].
  intros a Ha Hno (r & Hr & Hrid). rewrite Hrecs in Hr.
  apply scan_alerts_In in Hr. destruct Hr as (row & B & Hrow & Hf & _ & ->).
  apply select_active_alerts_In in Hrow.
  destruct Hrow as (a' & b' & Ha' & _ & _ & _ & _ & _ & ->).
  cbn [alert_info AlertInfo.alert_id aa_id aa_budget_id] in *.
  assert (a' = a)
    by (apply (NoDup_map_inj al_id (budget_alerts (tables s))); auto).
  subst a'. apply find_budget_some in Hf. destruct Hf as [HB Hid].
  exact (Hno B HB Hid).
Qed.

End CheckAlertsClaims.

(** ** Where the code departs from its own rules *)

(** C5.  [UpdateBudget] checks the slot only when the category changes.
    In the sample database user 1 has a total budget for 2024-03 (id 2)
    and one for 2024-04 (id 3), one budget per slot.  Moving budget 3 to
    2024-03, its category unchanged, succeeds: no check runs, and
    [unique_budget] does not apply to rows whose category is NULL.  The
    slot (user 1, no category, 2024-03) then holds two budgets. *)
Theorem UpdateBudget_month_change_fills_occupied_slot :
  let req := BudgetRequest.mk 0 1500%float "2024-03" in
  let run := UpdateBudget (engine := ref_engine) 3 1 req demo_store in
  slot_unique demo_tables
  /\ (exists B, fst run = Ok B)
  /\ In (mkBudgetRow 2 1 None 200000 (mkDate 2024 3 1)) (budgets (tables (snd run)))
  /\ In (mkBudgetRow 3 1 None 150000 (mkDate 2024 3 1)) (budgets (tables (snd run)))
  /\ ~ slot_unique (tables (snd run)).
Proof.
  cbv zeta.
  assert (Hrun : tables (snd (UpdateBudget (engine := ref_engine) 3 1
                                (BudgetRequest.mk 0 1500%float "2024-03")
                                demo_store))
                 = mkTables (categories demo_tables) (bills demo_tables)
                     [ mkBudgetRow 1 1 (Some 1%N) 100000 (mkDate 2024 3 1);
                       mkBudgetRow 2 1 None 200000 (mkDate 2024 3 1);
                       mkBudgetRow 3 1 None 150000 (mkDate 2024 3 1);
                       mkBudgetRow 4 2 (Some 3%N) 100000 (mkDate 2024 3 1) ]
                     (budget_alerts demo_tables) 5 5)
    by (vm_compute; reflexivity).
  rewrite Hrun. cbn [budgets].
  split; [|split; [|split; [|split]]].
  - intros b1 b2 H1 H2 (Hu & Hc & Hm). cbn in H1, H2.
    destruct H1 as [<-|[<-|[<-|[<-|[]]]]];
      destruct H2 as [<-|[<-|[<-|[<-|[]]]]];
      try reflexivity; cbn in Hu, Hc, Hm; discriminate.
  - eexists. vm_compute. reflexivity.
  - cbn. auto.
  - cbn. auto.
  - intros H.
    specialize (H (mkBudgetRow 2 1 None 200000 (mkDate 2024 3 1))
                  (mkBudgetRow 3 1 None 150000 (mkDate 2024 3 1))).
    cbn in H. assert (2%N = 3%N); [|discriminate].
    apply H; auto. repeat split.
Qed.

(** C6.  Budget 3 of the sample database is stored for 2024-04; the
    request asks for 2024-03 and the same (absent) category.  The month
    differs from the stored one, and [UpdateBudget] issues neither the
    category check nor the slot count: its statements are the two reads of
    [GetBudget], the UPDATE, and the two reads again. *)
Theorem UpdateBudget_month_change_not_validated :
  let req := BudgetRequest.mk 0 1500%float "2024-03" in
  let run := UpdateBudget (engine := ref_engine) 3 1 req demo_store in
  In (mkBudgetRow 3 1 None 150000 (mkDate 2024 4 1)) (budgets demo_tables)
  /\ DATE_FORMAT_Ym (mkDate 2024 4 1) <> BudgetRequest.Month req
  /\ (exists B, fst run = Ok B)
  /\ log (snd run)
     = [QBudgetById; QSumBills; XUpdateBudget; QBudgetById; QSumBills]
  /\ ~ In QCountBudgets (log (snd run))
  /\ ~ In QCategoryCheck (log (snd run)).
Proof.
  cbv zeta.
  assert (Hlog : log (snd (UpdateBudget (engine := ref_engine) 3 1
                             (BudgetRequest.mk 0 1500%float "2024-03")
                             demo_store))
                 = [QBudgetById; QSumBills; XUpdateBudget; QBudgetById;
                    QSumBills])
    by (vm_compute; reflexivity).
  rewrite Hlog.
  split; [cbn; auto|]. split; [vm_compute; discriminate|].
  split; [eexists; vm_compute; reflexivity|]. split; [reflexivity|].
  split; cbn; intuition discriminate.
Qed.

(** C8.  [CreateBudget] and [UpdateBudget] with a category id that no
    category has: the category SELECT returns no row, and the
    [sql.ErrNoRows] of its [Scan] is logged and returned as it is, not the
    error "分类不存在或不属于当前用户" the next line of the source holds
    ready for a category that does not exist. *)
Theorem category_missing_returns_no_rows :
  let req := BudgetRequest.mk 99 100%float "2024-05" in
  (forall c, In c (categories demo_tables) -> cat_id c <> 99%N)
  /\ fst (CreateBudget (engine := ref_engine) 1 req demo_store) = Err ErrNoRows
  /\ fst (UpdateBudget (engine := ref_engine) 1 1 req demo_store) = Err ErrNoRows
  /\ classify ErrNoRows <> ValidationError
  /\ tables (snd (CreateBudget (engine := ref_engine) 1 req demo_store))
     = demo_tables.
Proof.
  cbv zeta. split; [|split; [|split; [|split]]].
  - intros c Hc. cbn in Hc.
    destruct Hc as [<-|[<-|[<-|[]]]]; cbn; discriminate.
  - vm_compute. reflexivity.
  - vm_compute. reflexivity.
  - cbn. discriminate.
  - vm_compute. reflexivity.
Qed.

(** ** The sample database is well formed *)

Lemma demo_schema_ok : schema_ok demo_tables.
Proof.
  unfold schema_ok, valid_month. cbn.
  repeat constructor; cbn; try lia; intros c [= <-]; reflexivity.
Qed.

Lemma NoDup_N_decide (l : list N) : distinct l = true -> NoDup l.
Proof.
  induction l as [|x l IH]; cbn; [constructor|].
  intros H. apply andb_true_iff in H. destruct H as [Hx Hl].
  constructor; auto. intros Hin. apply negb_true_iff in Hx.
  assert (Hex : existsb (N.eqb x) l = true)
    by (apply existsb_exists; exists x; split; [exact Hin|apply N.eqb_refl]).
  congruence.
Qed.

Lemma demo_pk_unique : pk_unique demo_tables.
Proof. split; apply NoDup_N_decide; reflexivity. Qed.

Lemma demo_stray_pk_unique : pk_unique demo_stray_tables.
Proof. split; apply NoDup_N_decide; reflexivity. Qed.

Lemma demo_alerts_owned : alerts_owned demo_tables.
Proof.
  intros a Ha. cbn in Ha.
  destruct Ha as [<-|[<-|[<-|[<-|[]]]]]; cbn;
    [exists (mkBudgetRow 1 1 (Some 1%N) 100000 (mkDate 2024 3 1))
    |exists (mkBudgetRow 1 1 (Some 1%N) 100000 (mkDate 2024 3 1))
    |exists (mkBudgetRow 1 1 (Some 1%N) 100000 (mkDate 2024 3 1))
    |exists (mkBudgetRow 4 2 (Some 3%N) 100000 (mkDate 2024 3 1))];
    cbn; tauto.
Qed.

Lemma CheckBudgetAlerts_reports_witness :
  pk_unique demo_tables /\ alerts_owned demo_tables
  /\ exists recs s',
       CheckBudgetAlerts (engine := ref_engine) demo_now 1 demo_store
       = (Ok recs, s')
       /\ reported recs (mkAlertRow 1 1 1 80 true)
       /\ ~ reported recs (mkAlertRow 2 1 1 90 true)
       /\ ~ reported recs (mkAlertRow 3 1 1 50 false).
Proof.
  split; [exact demo_pk_unique|]. split; [exact demo_alerts_owned|].
  destruct (CheckBudgetAlerts (engine := ref_engine) demo_now 1 demo_store)
    as [[recs|e] s'] eqn:E; [|vm_compute in E; discriminate E].
  exists recs, s'. split; [reflexivity|].
  destruct (CheckBudgetAlerts_reports (engine := ref_engine)
              demo_now 1 demo_store recs s'
              demo_pk_unique demo_alerts_owned E)
    as (L & s1 & HL & Hiff & Honly).
  vm_compute in HL. injection HL as <- _.
  set (b1 := mkBudgetRow 1 1 (Some 1%N) 100000 (mkDate 2024 3 1)).
  set (B1 := Budget.mk 1 1 1 1000%float (mkTime (mkDate 2024 3 1) 0)
               "Food" "" 850%float 85%float).
  assert (Hb1 : In b1 (budgets (tables demo_store))) by (cbn; auto).
  assert (HB1 : In B1 [B1; Budget.mk 2 1 0 2000%float
                             (mkTime (mkDate 2024 3 1) 0) "" ""
                             850%float 42.5%float]) by (left; reflexivity).
  split; [|split].
  - apply (proj2 (Hiff (mkAlertRow 1 1 1 80 true) b1 ltac:(cbn; auto) Hb1
                    eq_refl eq_refl eq_refl eq_refl) B1 HB1 eq_refl).
    vm_compute. reflexivity.
  - intros Hr.
    apply (proj2 (Hiff (mkAlertRow 2 1 1 90 true) b1 ltac:(cbn; auto) Hb1
                    eq_refl eq_refl eq_refl eq_refl) B1 HB1 eq_refl) in Hr.
    vm_compute in Hr. discriminate Hr.
  - intros Hr.
    apply (Honly (mkAlertRow 3 1 1 50 false) ltac:(cbn; auto)) in Hr.
    destruct Hr as (_ & Hact & _). discriminate Hact.
Defined.

Lemma CheckBudgetAlerts_skips_unmatched_witness :
  faults demo_stray_store = [] /\ schema_ok (tables demo_stray_store)
  /\ valid_month (t_date demo_now) /\ pk_unique (tables demo_stray_store)
  /\ exists recs s',
       CheckBudgetAlerts (engine := ref_engine) demo_now 1 demo_stray_store
       = (Ok recs, s')
       /\ ~ reported recs demo_stray_alert.
Proof.
  assert (Hv : valid_month (t_date demo_now)) by (unfold valid_month; cbn; lia).
  split; [reflexivity|]. split; [exact demo_schema_ok|].
  split; [exact Hv|]. split; [exact demo_stray_pk_unique|].
  destruct (CheckBudgetAlerts_skips_unmatched (engine := ref_engine)
              demo_now 1 demo_stray_store eq_refl demo_schema_ok Hv
              demo_stray_pk_unique)
    as (recs & s' & L & s1 & H & HL & Hskip).
  exists recs, s'. split; [exact H|].
  apply Hskip.
  - cbn. auto 10.
  - vm_compute in HL. injection HL as <- _.
    intros B [<-|[<-|[]]]; cbn; discriminate.
Defined.

(** A percentage equal to the threshold is reported: a budget of 1000
    with 800 spent is at 80 percent, and an alert at 80 fires while one
    at 81 does not. *)
Example threshold_boundary_is_reported :
  let B := usage (engine := ref_engine)
             (mkTables [] [mkBillRow 1 1 1 80000 expense (mkDate 2024 3 9)]
                       [] [] 1 1)
             1 (mkTime (mkDate 2024 3 1) 0) (mkTime (mkDate 2024 3 31) 86399)
             (Budget.mk 7 1 0 1000%float (mkTime (mkDate 2024 3 1) 0)
                        "" "" 0%float 0%float) in
  Budget.Percentage B = 80%float
  /\ map AlertInfo.alert_id
       (scan_alerts (engine := ref_engine) [B]
          [mkActiveAlertRow 1 7 80 100000 None None;
           mkActiveAlertRow 2 7 81 100000 None None])
     = [1%N].
Proof. vm_compute. split; reflexivity. Qed.

(** ** Creating an alert *)

(** C7, as stated, fails: on the sample database a threshold of 150 for
    budget 1 of user 1 is rejected only after [GetBudget] has read the
    budget and summed its bills. *)
Lemma threshold_rejected_before_persistence_fails :
  ~ threshold_rejected_before_persistence.
Proof.
  intros H.
  destruct (H ref_engine 1%N (BudgetAlertRequest.mk 1 150 true) demo_store)
    as (e & s' & Hrun & _ & Hlog).
  - reflexivity.
  - right. cbn. lia.
  - vm_compute in Hrun. injection Hrun as _ <-. discriminate Hlog.
Qed.

Section CreateAlert.

Context {engine : SqlEngine}.

(** C7, amended.  [CreateBudgetAlert] with a threshold outside 1..100
    always fails and writes nothing: the statements it issues are the
    reads of [GetBudget], which come first; when the budget is not one of
    the user the error is the not-found error, and when it is, the error
    is the ValidationError.  More generally [CreateBudgetAlert] succeeds
    only for a budget of the user, a threshold in 1..100 and no alert of
    that budget with the same threshold; with such an alert present it
    fails with a ConflictError. *)
Theorem CreateBudgetAlert_requirements userID req s r s' :
  faults s = [] -> schema_ok (tables s) ->
  CreateBudgetAlert userID req s = (r, s') ->
  (threshold_out_of_range req ->
     tables s' = tables s /\ pending s' = pending s
     /\ (exists calls, log s' = log s ++ calls
                       /\ forallb is_query calls = true)
     /\ (owns_budget (tables s) userID (BudgetAlertRequest.BudgetID req) ->
         r = Err ErrThresholdRange /\ classify ErrThresholdRange = ValidationError
         /\ log s' = log s ++ [QBudgetById; QSumBills])
     /\ (~ owns_budget (tables s) userID (BudgetAlertRequest.BudgetID req) ->
         r = Err ErrBudgetNotFound))
  /\ (forall alert, r = Ok alert ->
        owns_budget (tables s) userID (BudgetAlertRequest.BudgetID req)
        /\ 1 <= BudgetAlertRequest.Threshold req <= 100
        /\ count_alerts (tables s) (BudgetAlertRequest.BudgetID req)
             (BudgetAlertRequest.Threshold req) None = 0)
  /\ (owns_budget (tables s) userID (BudgetAlertRequest.BudgetID req) ->
      1 <= BudgetAlertRequest.Threshold req <= 100 ->
      0 < count_alerts (tables s) (BudgetAlertRequest.BudgetID req)
            (BudgetAlertRequest.Threshold req) None ->
      r = Err (ErrAlertExists (BudgetAlertRequest.Threshold req))
      /\ classify (ErrAlertExists (BudgetAlertRequest.Threshold req))
         = ConflictError
      /\ tables s' = tables s).
Proof.
  intros F Hs H. unfold CreateBudgetAlert in H.
  apply bind_inv in H. destruct H as [(e & H & ->)|(B & s1 & HB & H)].
  - (* GetBudget failed *)
    assert (Hno : ~ owns_budget (tables s) userID (BudgetAlertRequest.BudgetID req)).
    { intros (row & Hin & Hid & Hu).
      destruct (GetBudget_total _ _ _ _ F Hs Hin Hid Hu) as (B & s2 & HB).
      congruence. }
    destruct (reads_GetBudget _ _ _ _ _ H) as (T & P & _ & Hlog).
    assert (He : e = ErrBudgetNotFound).
    { destruct (GetBudget_missing _ _ _ _ _
                  (fun row Hin Hc => Hno (ex_intro _ row (conj Hin Hc))) H)
        as (e' & He' & Hnf).
      injection He' as ->. auto. }
    subst e. split; [|split].
    + intros _. split; [exact T|]. split; [exact P|]. split; [exact Hlog|].
      split; [intros Hown; destruct (Hno Hown)|intros _; reflexivity].
    + discriminate.
    + tauto.
  - (* GetBudget succeeded *)
    destruct (reads_GetBudget _ _ _ _ _ HB) as (T & P & F1 & _).
    assert (Hlog1 : s1 = tick QSumBills (tick QBudgetById s)).
    { revert HB. unfold GetBudget, bind, no_rows_as.
      rewrite db_query_no_fault by exact F.
      destruct (first_row _) as [j|e]; [|destruct e; discriminate].
      destruct (parse_month _); [|discriminate].
      rewrite with_usage_no_fault by (cbn; rewrite F; reflexivity).
      intros [= _ <-]. reflexivity. }
    assert (Hown : owns_budget (tables s) userID (BudgetAlertRequest.BudgetID req)).
    { apply GetBudget_ok_inv in HB.
      destruct HB as (row & m & Hin & Hid & Hu & _). exists row. auto. }
    destruct ((BudgetAlertRequest.Threshold req <? 1)
              || (100 <? BudgetAlertRequest.Threshold req)) eqn:Ethr.
    + (* threshold out of range *)
      inversion H; subst r s'. split; [|split].
      * intros _. split; [exact T|]. split; [exact P|].
        assert (Hl : log s1 = log s ++ [QBudgetById; QSumBills])
          by (rewrite Hlog1; cbn; rewrite <- app_assoc; reflexivity).
        split; [exists [QBudgetById; QSumBills]; auto|].
        split; [intros _; auto|intros Hno; destruct (Hno Hown)].
      * discriminate.
      * intros _ Hr _. apply orb_true_iff in Ethr.
        destruct Ethr as [E|E]; apply Z.ltb_lt in E; lia.
    + (* threshold in range *)
      apply orb_false_iff in Ethr. destruct Ethr as [E1 E2].
      apply Z.ltb_ge in E1, E2.
      apply bind_inv in H. destruct H as [(e & H & ->)|(count & s2 & Hc & H)].
      { rewrite db_query_no_fault in H by (apply F1, F).
        discriminate. }
      rewrite db_query_no_fault in Hc by (apply F1, F).
      injection Hc as <- <-. rewrite T in H.
      destruct (0 <? count_alerts (tables s) (BudgetAlertRequest.BudgetID req)
                       (BudgetAlertRequest.Threshold req) None) eqn:Ec.
      * inversion H; subst r s'. split; [|split].
        -- intros [Hlt|Hgt]; lia.
        -- discriminate.
        -- intros _ _ _. cbn. auto.
      * apply Z.ltb_ge in Ec. split; [|split].
        -- intros [Hlt|Hgt]; lia.
        -- intros alert _. repeat split; auto; try lia.
           unfold count_alerts in *. lia.
        -- intros _ _ Hpos. lia.
Qed.

End CreateAlert.

Lemma CreateBudgetAlert_requirements_witness :
  let req := BudgetAlertRequest.mk 1 150 true in
  let run := CreateBudgetAlert (engine := ref_engine) 1 req demo_store in
  faults demo_store = [] /\ schema_ok (tables demo_store)
  /\ threshold_out_of_range req
  /\ owns_budget (tables demo_store) 1 1
  /\ fst run = Err ErrThresholdRange
  /\ tables (snd run) = demo_tables
  /\ log (snd run) = [QBudgetById; QSumBills].
Proof.
  cbv zeta.
  assert (Hthr : threshold_out_of_range (BudgetAlertRequest.mk 1 150 true))
    by (right; cbn; lia).
  assert (Hown : owns_budget (tables demo_store) 1 1).
  { exists (mkBudgetRow 1 1 (Some 1%N) 100000 (mkDate 2024 3 1)).
    cbn. auto. }
  destruct (CreateBudgetAlert_requirements (engine := ref_engine) 1
              (BudgetAlertRequest.mk 1 150 true) demo_store
              (fst (CreateBudgetAlert (engine := ref_engine) 1
                      (BudgetAlertRequest.mk 1 150 true) demo_store))
              (snd (CreateBudgetAlert (engine := ref_engine) 1
                      (BudgetAlertRequest.mk 1 150 true) demo_store))
              eq_refl demo_schema_ok (surjective_pairing _))
    as (Hout & _ & _).
  destruct (Hout Hthr) as (T & _ & _ & Hval & _).
  destruct (Hval Hown) as (Hr & _ & Hlog).
  repeat split; auto. exact demo_schema_ok.
Defined.

(** ** What the writing statements do to the rows of another user *)

Section Frames.

Context {engine : SqlEngine}.

Variables u v : N.
Hypothesis u_not_v : u <> v.

Lemma filter_app_one {A} (p : A -> bool) l x :
  p x = false -> filter p (l ++ [x]) = filter p l.
Proof. intros H. rewrite filter_app. cbn. rewrite H, app_nil_r. reflexivity. Qed.

Lemma filter_map_same {A} (p : A -> bool) (f : A -> A) l :
  (forall x, In x l -> (p x = true -> f x = x) /\ (p x = false -> p (f x) = false)) ->
  filter p (map f l) = filter p l.
Proof.
  induction l as [|x l IH]; cbn; [reflexivity|]. intros H.
  destruct (H x (or_introl eq_refl)) as [H1 H2].
  rewrite IH by (intros y Hy; apply H; right; exact Hy).
  destruct (p x) eqn:E.
  - rewrite (H1 eq_refl), E. reflexivity.
  - rewrite (H2 eq_refl). reflexivity.
Qed.

Lemma filter_filter_same {A} (p q : A -> bool) l :
  (forall x, In x l -> p x = true -> q x = true) ->
  filter p (filter q l) = filter p l.
Proof.
  induction l as [|x l IH]; cbn; [reflexivity|]. intros H.
  rewrite <- IH by (intros y Hy; apply H; right; exact Hy).
  destruct (q x) eqn:Eq; cbn.
  - reflexivity.
  - destruct (p x) eqn:Ep; [|reflexivity].
    rewrite (H x (or_introl eq_refl) Ep) in Eq. discriminate.
Qed.

Lemma neq_eqb_false (a b : N) : a <> b -> N.eqb a b = false.
Proof. intros H. apply N.eqb_neq. exact H. Qed.

Lemma NoDup_map_app_fresh {A} (f : A -> N) l x :
  NoDup (map f l) -> (forall y, In y l -> (f y < f x)%N) ->
  NoDup (map f (l ++ [x])).
Proof.
  intros Hnd Hlt. rewrite map_app. cbn.
  apply NoDup_app.
  - exact Hnd.
  - constructor; [intros []|constructor].
  - intros a Ha [<-|[]]. apply in_map_iff in Ha.
    destruct Ha as (y & Hy & Hin). specialize (Hlt y Hin). lia.
Qed.

Lemma NoDup_map_same {A} (f : A -> N) (g : A -> A) l :
  (forall x, f (g x) = f x) -> NoDup (map f l) -> NoDup (map f (map g l)).
Proof.
  intros H Hnd. rewrite map_map.
  rewrite (map_ext _ f) by exact H. exact Hnd.
Qed.

(** *** INSERT INTO budgets *)

Lemma insert_budget_ok_inv categoryID amount month t id t' :
  insert_budget u categoryID amount month t = Ok (id, t') ->
  exists cents,
    id = next_budget_id t
    /\ t' = mkTables (categories t) (bills t)
              (budgets t
               ++ [mkBudgetRow (next_budget_id t) u categoryID cents
                               (t_date month)])
              (budget_alerts t) (N.succ (next_budget_id t)) (next_alert_id t)
    /\ existsb (same_key u categoryID (t_date month)) (budgets t) = false.
Proof.
  unfold insert_budget. destruct (decimal_of_float64 amount); [|discriminate].
  destruct (existsb _ (budgets t)) eqn:E; [discriminate|].
  intros [= <- <-]. eauto.
Qed.

Lemma insert_budget_frame categoryID amount month t id t' :
  insert_budget u categoryID amount month t = Ok (id, t') ->
  budgets_of v t' = budgets_of v t /\ alerts_of v t' = alerts_of v t
  /\ (store_wf t -> store_wf t').
Proof.
  intros H. apply insert_budget_ok_inv in H.
  destruct H as (cents & _ & -> & _).
  unfold budgets_of, alerts_of.
  cbn [budgets budget_alerts]. split; [|split].
  - apply filter_app_one. cbn. apply neq_eqb_false. exact u_not_v.
  - reflexivity.
  - intros ((Hpb & Hpa) & Hown & (Hfb & Hfa)).
    split; [split|split]; cbn [budgets budget_alerts next_budget_id next_alert_id].
    + apply NoDup_map_app_fresh; auto.
    + exact Hpa.
    + intros a Ha. destruct (Hown a Ha) as (b & Hb & H1 & H2).
      exists b. split; [apply in_or_app; left; exact Hb|auto].
    + split; [|exact Hfa].
      intros b Hb. apply in_app_or in Hb. destruct Hb as [Hb|[<-|[]]].
      * specialize (Hfb b Hb). cbn [next_budget_id]. lia.
      * cbn [next_budget_id bud_id]. lia.
Qed.

(** *** UPDATE budgets *)

Lemma update_budget_ok_inv id categoryID amount month t t' :
  update_budget id u categoryID amount month t = Ok (tt, t') ->
  exists cents,
    t' = mkTables (categories t) (bills t)
           (map (fun b =>
                   if is_budget id u b
                   then mkBudgetRow (bud_id b) (bud_user_id b) categoryID
                                    cents (t_date month)
                   else b)
                (budgets t))
           (budget_alerts t) (next_budget_id t) (next_alert_id t).
Proof.
  unfold update_budget. destruct (decimal_of_float64 amount); [|discriminate].
  destruct (_ && _); [discriminate|]. intros [= <-]. eauto.
Qed.

Lemma update_budget_frame id categoryID amount month t t' :
  update_budget id u categoryID amount month t = Ok (tt, t') ->
  budgets_of v t' = budgets_of v t /\ alerts_of v t' = alerts_of v t
  /\ (store_wf t -> store_wf t').
Proof.
  intros H. apply update_budget_ok_inv in H. destruct H as (cents & ->).
  unfold budgets_of, alerts_of. cbn [budgets budget_alerts].
  set (g := fun b => if is_budget id u b
                     then mkBudgetRow (bud_id b) (bud_user_id b) categoryID
                                      cents (t_date month)
                     else b).
  assert (Hid : forall b, bud_id (g b) = bud_id b)
    by (intros b; unfold g; destruct (is_budget id u b); reflexivity).
  assert (Hu : forall b, bud_user_id (g b) = bud_user_id b)
    by (intros b; unfold g; destruct (is_budget id u b); reflexivity).
  split; [|split].
  - apply filter_map_same. intros b _. split.
    + intros Hb. apply N.eqb_eq in Hb. unfold g, is_budget.
      rewrite Hb, (neq_eqb_false v u) by auto.
      rewrite andb_false_r. reflexivity.
    + intros Hb. rewrite Hu. exact Hb.
  - reflexivity.
  - intros ((Hpb & Hpa) & Hown & (Hfb & Hfa)).
    split; [split|split]; cbn [budgets budget_alerts next_budget_id next_alert_id].
    + apply NoDup_map_same; auto.
    + exact Hpa.
    + intros a Ha. destruct (Hown a Ha) as (b & Hb & H1 & H2).
      exists (g b). rewrite Hid, Hu. split; [apply in_map; exact Hb|auto].
    + split; [|exact Hfa].
      intros b Hb. apply in_map_iff in Hb. destruct Hb as (b0 & <- & Hb0).
      rewrite Hid. auto.
Qed.

(** *** The two DELETEs of [DeleteBudget] *)

Lemma without_budget_frame id t :
  store_wf t -> owns_budget t u id ->
  budgets_of v (without_budget id u t) = budgets_of v t
  /\ alerts_of v (without_budget id u t) = alerts_of v t
  /\ store_wf (without_budget id u t).
Proof.
  intros ((Hpb & Hpa) & Hown & (Hfb & Hfa)) (row & Hrow & Hrid & Hru).
  unfold budgets_of, alerts_of, without_budget. cbn [budgets budget_alerts].
  split; [|split].
  - apply filter_filter_same. intros b _ Hb. apply N.eqb_eq in Hb.
    unfold is_budget. rewrite Hb, (neq_eqb_false v u) by auto.
    rewrite andb_false_r. reflexivity.
  - apply filter_filter_same. intros a Ha Hav. apply N.eqb_eq in Hav.
    unfold alert_of_budget. apply negb_true_iff. apply N.eqb_neq.
    intros Hid. destruct (Hown a Ha) as (b & Hb & H1 & H2).
    assert (b = row)
      by (apply (NoDup_map_inj bud_id (budgets t)); auto; congruence).
    subst b. apply u_not_v. congruence.
  - split; [split|split]; cbn [budgets budget_alerts next_budget_id next_alert_id].
    + apply NoDup_map_filter. exact Hpb.
    + apply NoDup_map_filter. exact Hpa.
    + intros a Ha. apply filter_In in Ha. destruct Ha as [Ha Hk].
      destruct (Hown a Ha) as (b & Hb & H1 & H2).
      exists b. split; [|auto]. apply filter_In. split; [exact Hb|].
      unfold alert_of_budget in Hk. unfold is_budget.
      apply negb_true_iff in Hk. rewrite H1, Hk. reflexivity.
    + split.
      * intros b Hb. apply filter_In in Hb. apply Hfb. tauto.
      * intros a Ha. apply filter_In in Ha. apply Hfa. tauto.
Qed.

(** *** INSERT INTO budget_alerts *)

Lemma insert_alert_frame budgetID threshold isActive t id t' :
  insert_alert u budgetID threshold isActive t = Ok (id, t') ->
  budgets_of v t' = budgets_of v t /\ alerts_of v t' = alerts_of v t
  /\ (store_wf t -> owns_budget t u budgetID -> store_wf t').
Proof.
  unfold insert_alert. intros [= <- <-].
  unfold budgets_of, alerts_of. cbn [budgets budget_alerts].
  split; [reflexivity|]. split.
  - apply filter_app_one. cbn. apply neq_eqb_false. exact u_not_v.
  - intros ((Hpb & Hpa) & Hown & (Hfb & Hfa)) (row & Hrow & Hrid & Hru).
    split; [split|split]; cbn [budgets budget_alerts next_budget_id next_alert_id].
    + exact Hpb.
    + apply NoDup_map_app_fresh; auto.
    + intros a Ha. apply in_app_or in Ha. destruct Ha as [Ha|[<-|[]]].
      * exact (Hown a Ha).
      * exists row. cbn. auto.
    + split; [exact Hfb|].
      intros a Ha. apply in_app_or in Ha. destruct Ha as [Ha|[<-|[]]].
      * specialize (Hfa a Ha). cbn [next_alert_id]. lia.
      * cbn [next_alert_id al_id]. lia.
Qed.

(** *** UPDATE budget_alerts *)

Lemma update_alert_frame id budgetID threshold isActive t t' :
  update_alert id u budgetID threshold isActive t = Ok (tt, t') ->
  budgets_of v t' = budgets_of v t /\ alerts_of v t' = alerts_of v t
  /\ (store_wf t -> owns_budget t u budgetID -> store_wf t').
Proof.
  unfold update_alert. intros [= <-].
  unfold budgets_of, alerts_of. cbn [budgets budget_alerts].
  set (g := fun a => if N.eqb (al_id a) id && N.eqb (al_user_id a) u
                     then mkAlertRow (al_id a) (al_user_id a) budgetID
                                     threshold isActive
                     else a).
  assert (Hid : forall a, al_id (g a) = al_id a)
    by (intros a; unfold g; destruct (_ && _); reflexivity).
  assert (Hu : forall a, al_user_id (g a) = al_user_id a)
    by (intros a; unfold g; destruct (_ && _); reflexivity).
  split; [reflexivity|]. split.
  - apply filter_map_same. intros a _. split.
    + intros Ha. apply N.eqb_eq in Ha. unfold g.
      rewrite Ha, (neq_eqb_false v u) by auto.
      rewrite andb_false_r. reflexivity.
    + intros Ha. rewrite Hu. exact Ha.
  - intros ((Hpb & Hpa) & Hown & (Hfb & Hfa)) (row & Hrow & Hrid & Hru).
    split; [split|split]; cbn [budgets budget_alerts next_budget_id next_alert_id].
    + exact Hpb.
    + apply NoDup_map_same; auto.
    + intros a Ha. apply in_map_iff in Ha. destruct Ha as (a0 & <- & Ha0).
      unfold g. destruct (N.eqb (al_id a0) id && N.eqb (al_user_id a0) u) eqn:E.
      * apply andb_true_iff in E. destruct E as [_ E]. apply N.eqb_eq in E.
        exists row. cbn [al_budget_id al_user_id]. split; [exact Hrow|].
        split; congruence.
      * exact (Hown a0 Ha0).
    + split; [exact Hfb|].
      intros a Ha. apply in_map_iff in Ha. destruct Ha as (a0 & <- & Ha0).
      rewrite Hid. auto.
Qed.

(** *** DELETE FROM budget_alerts *)

Lemma delete_alert_frame id t t' :
  delete_alert id u t = Ok (tt, t') ->
  budgets_of v t' = budgets_of v t /\ alerts_of v t' = alerts_of v t
  /\ (store_wf t -> store_wf t').
Proof.
  unfold delete_alert. intros [= <-].
  unfold budgets_of, alerts_of. cbn [budgets budget_alerts].
  split; [reflexivity|]. split.
  - apply filter_filter_same. intros a _ Ha. apply N.eqb_eq in Ha.
    rewrite Ha, (neq_eqb_false v u) by auto.
    rewrite andb_false_r. reflexivity.
  - intros ((Hpb & Hpa) & Hown & (Hfb & Hfa)).
    split; [split|split]; cbn [budgets budget_alerts next_budget_id next_alert_id].
    + exact Hpb.
    + apply NoDup_map_filter. exact Hpa.
    + intros a Ha. apply filter_In in Ha. apply Hown. tauto.
    + split; [exact Hfb|].
      intros a Ha. apply filter_In in Ha. apply Hfa. tauto.
Qed.

End Frames.

(** ** Isolation of users *)

Section Isolation.

Context {engine : SqlEngine}.

Variables u v : N.
Hypothesis u_not_v : u <> v.

Lemma same_rows_of_refl t : same_rows_of v t t.
Proof. split; reflexivity. Qed.

Lemma same_rows_of_trans t1 t2 t3 :
  same_rows_of v t1 t2 -> same_rows_of v t2 t3 -> same_rows_of v t1 t3.
Proof. intros [H1 H2] [H3 H4]. split; congruence. Qed.

Lemma keeps_ret {A} (P : Tables -> Prop) (a : A) (Q : Tables -> A -> Prop) :
  (forall t, P t -> Q t a) -> keeps_rows_of v P (ret a) Q.
Proof.
  intros HQ s r s' Hp Hwf HP H. inversion H; subst.
  split; [exact Hp|]. split; [apply same_rows_of_refl|].
  split; [exact Hwf|]. intros a' [= <-]. auto.
Qed.

Lemma keeps_fail {A} (P : Tables -> Prop) e (Q : Tables -> A -> Prop) :
  keeps_rows_of v P (fail e) Q.
Proof.
  intros s r s' Hp Hwf HP H. inversion H; subst.
  split; [exact Hp|]. split; [apply same_rows_of_refl|].
  split; [exact Hwf|]. discriminate.
Qed.

Lemma keeps_bind {A B} P (m : DB A) (k : A -> DB B) Q1 Q2 :
  keeps_rows_of v P m Q1 ->
  (forall a, keeps_rows_of v (fun t => Q1 t a) (k a) Q2) ->
  keeps_rows_of v P (bind m k) Q2.
Proof.
  intros Hm Hk s r s' Hp Hwf HP H. apply bind_inv in H.
  destruct H as [(e & H & ->)|(a & s1 & H1 & H2)].
  - destruct (Hm _ _ _ Hp Hwf HP H) as (P1 & R1 & W1 & _).
    split; [exact P1|]. split; [exact R1|]. split; [exact W1|discriminate].
  - destruct (Hm _ _ _ Hp Hwf HP H1) as (P1 & R1 & W1 & Q1a).
    destruct (Hk a _ _ _ P1 W1 (Q1a a eq_refl) H2) as (P2 & R2 & W2 & Q2b).
    split; [exact P2|]. split; [exact (same_rows_of_trans _ _ _ R1 R2)|].
    split; [exact W2|exact Q2b].
Qed.

Lemma keeps_weaken {A} (P P' : Tables -> Prop) (m : DB A)
  (Q Q' : Tables -> A -> Prop) :
  keeps_rows_of v P' m Q' ->
  (forall t, P t -> P' t) -> (forall t a, Q' t a -> Q t a) ->
  keeps_rows_of v P m Q.
Proof.
  intros Hm HP HQ s r s' Hp Hwf HPs H.
  destruct (Hm _ _ _ Hp Hwf (HP _ HPs) H) as (P1 & R1 & W1 & Q1).
  split; [exact P1|]. split; [exact R1|]. split; [exact W1|].
  intros a Ha. apply HQ, Q1, Ha.
Qed.

(** A computation that only reads keeps whatever holds of the tables. *)
Lemma keeps_reads {A} (P : Tables -> Prop) (m : DB A)
  (Q : Tables -> A -> Prop) :
  reads m ->
  (forall s a s', P (tables s) -> store_wf (tables s) ->
                  m s = (Ok a, s') -> Q (tables s) a) ->
  keeps_rows_of v P m Q.
Proof.
  intros Hr HQ s r s' Hp Hwf HP H.
  destruct (Hr _ _ _ H) as (T & P1 & _).
  rewrite T. split; [congruence|]. split; [apply same_rows_of_refl|].
  split; [exact Hwf|]. intros a ->. exact (HQ _ _ _ HP Hwf H).
Qed.

Lemma keeps_exec {A} (P : Tables -> Prop) c
  (x : Tables -> Result (A * Tables)) (Q : Tables -> A -> Prop) :
  (forall t a t', P t -> store_wf t -> x t = Ok (a, t') ->
                  same_rows_of v t t' /\ store_wf t' /\ Q t' a) ->
  keeps_rows_of v P (db_exec c x) Q.
Proof.
  intros Hx s r s' Hp Hwf HP H. apply db_exec_inv in H.
  destruct H as (P1 & _ & _ & [(a & t' & Ex & -> & <- & _)|(T & e & -> & _)]).
  - destruct (Hx _ _ _ HP Hwf Ex) as (R & W & HQ).
    split; [congruence|]. split; [exact R|]. split; [exact W|].
    intros a' [= <-]. exact HQ.
  - rewrite T. split; [congruence|]. split; [apply same_rows_of_refl|].
    split; [exact Hwf|]. discriminate.
Qed.

(** *** The reading functions *)

Lemma GetBudget_UserID id s B s' :
  GetBudget id u s = (Ok B, s') ->
  Budget.UserID B = u /\ owns_budget (tables s) u id.
Proof.
  intros H. apply GetBudget_ok_inv in H.
  destruct H as (row & m & Hin & Hid & Hu & _ & ->).
  split; [exact Hu|]. exists row. auto.
Qed.

Lemma keeps_GetBudget (P : Tables -> Prop) id :
  keeps_rows_of v P (GetBudget id u)
    (fun t B => P t /\ Budget.UserID B = u /\ owns_budget t u id).
Proof.
  apply keeps_reads; [apply reads_GetBudget|].
  intros s B s' HP _ H. split; [exact HP|]. exact (GetBudget_UserID _ _ _ _ H).
Qed.

Lemma GetBudgets_UserID month s L s' :
  GetBudgets u month s = (Ok L, s') ->
  Forall (fun B => Budget.UserID B = u) L.
Proof.
  intros H. apply GetBudgets_ok_inv in H. destruct H as (pm & _ & HL).
  apply Forall_forall. intros B HB.
  destruct (Forall2_In_r _ _ _ _ HL HB) as (j & Hj & m & _ & ->).
  apply select_budgets_of_month_In in Hj.
  destruct Hj as (row & -> & _ & Hu & _). exact Hu.
Qed.

Lemma reads_GetBudgetAlerts budgetID : reads (GetBudgetAlerts u budgetID).
Proof.
  unfold GetBudgetAlerts. apply reads_bind.
  - apply reads_query. reflexivity.
  - intros rows. apply reads_ret.
Qed.

Lemma GetBudgetAlerts_UserID budgetID s L s' :
  GetBudgetAlerts u budgetID s = (Ok L, s') ->
  Forall (fun a => BudgetAlert.UserID a = u) L.
Proof.
  unfold GetBudgetAlerts. intros H.
  apply bind_ok_inv in H. destruct H as (rows & s1 & Hq & H).
  injection H as <- _. apply db_query_ok_inv in Hq.
  destruct Hq as [_ Hq]. injection Hq as <-.
  apply Forall_forall. intros a Ha. apply in_map_iff in Ha.
  destruct Ha as (row & <- & Hrow). unfold select_alerts in Hrow.
  apply (Permutation_in _ (order_alerts_perm _)) in Hrow.
  apply filter_In in Hrow. destruct Hrow as [_ Hc].
  apply andb_true_iff in Hc. destruct Hc as [Hu _].
  apply N.eqb_eq in Hu. exact Hu.
Qed.

Lemma reads_CheckBudgetAlerts now : reads (CheckBudgetAlerts now u).
Proof.
  unfold CheckBudgetAlerts. apply reads_bind; [apply reads_GetBudgets|].
  intros L. apply reads_bind; [apply reads_query; reflexivity|].
  intros rows. apply reads_ret.
Qed.

Lemma CheckBudgetAlerts_owned now s recs s' :
  pk_unique (tables s) ->
  CheckBudgetAlerts now u s = (Ok recs, s') ->
  Forall (info_owned u (tables s)) recs.
Proof.
  intros [Hpb _] H. apply CheckBudgetAlerts_ok_inv in H.
  destruct H as (L & s1 & HL & ->).
  destruct (GetBudgets_loaded _ _ _ _ _ Hpb HL) as (_ & HLrow & _).
  apply Forall_forall. intros r Hr. apply scan_alerts_In in Hr.
  destruct Hr as (row & B & Hrow & Hf & _ & ->).
  apply select_active_alerts_In in Hrow.
  destruct Hrow as (a & b & Ha & _ & Hu & _ & _ & _ & ->).
  apply find_budget_some in Hf. destruct Hf as [HB Hid].
  destruct (HLrow B HB) as (row & Hin & Hru & _ & HBid).
  split.
  - exists a. cbn. auto.
  - exists row. cbn in *. split; [exact Hin|]. split; [congruence|exact Hru].
Qed.

(** *** The writing functions *)

Lemma keeps_check_placement (P : Tables -> Prop) categoryID month exclude :
  keeps_rows_of v P (check_placement u categoryID month exclude)
    (fun t _ => P t).
Proof.
  apply keeps_reads; [apply reads_check_placement|]. auto.
Qed.

Lemma keeps_CreateBudget req :
  keeps_rows_of v (fun _ => True) (CreateBudget u req)
    (fun _ B => Budget.UserID B = u).
Proof.
  unfold CreateBudget.
  destruct (parse_month (BudgetRequest.Month req)) as [month|];
    [|apply keeps_fail].
  eapply keeps_bind; [apply (keeps_check_placement (fun _ => True))|]. intros ?.
  eapply keeps_bind with (Q1 := fun _ _ => True).
  - apply keeps_exec. intros t id t' _ Hwf Hx.
    destruct (insert_budget_frame u v u_not_v _ _ _ _ _ _ Hx) as (R1 & R2 & W).
    split; [split; assumption|]. split; [auto|exact I].
  - intros id. eapply keeps_weaken; [apply (keeps_GetBudget (fun _ => True))|auto|].
    cbn beta. intros t B H. apply H.
Qed.

Lemma keeps_UpdateBudget id req :
  keeps_rows_of v (fun _ => True) (UpdateBudget id u req)
    (fun _ B => Budget.UserID B = u).
Proof.
  unfold UpdateBudget.
  eapply keeps_bind with (Q1 := fun _ _ => True).
  { eapply keeps_weaken; [apply (keeps_GetBudget (fun _ => True))|auto|]. cbn beta. auto. }
  intros budget.
  eapply keeps_bind with (Q1 := fun _ _ => True).
  { destruct (negb _).
    - eapply keeps_weaken; [apply (keeps_check_placement (fun _ => True))|auto|]. cbn beta. auto.
    - apply keeps_ret. auto. }
  intros ?.
  destruct (parse_month (BudgetRequest.Month req)) as [month|];
    [|apply keeps_fail].
  eapply keeps_bind with (Q1 := fun _ _ => True).
  - apply keeps_exec. intros t [] t' _ Hwf Hx.
    destruct (update_budget_frame u v u_not_v _ _ _ _ _ _ Hx) as (R1 & R2 & W).
    split; [split; assumption|]. split; [auto|exact I].
  - intros ?. eapply keeps_weaken; [apply (keeps_GetBudget (fun _ => True))|auto|].
    cbn beta. intros t B H. apply H.
Qed.

Lemma keeps_DeleteBudget id :
  keeps_rows_of v (fun _ => True) (DeleteBudget id u) (fun _ _ => True).
Proof.
  intros s r s' Hp Hwf _ H.
  destruct (DeleteBudget_outcome _ _ _ _ _ Hp H) as (P1 & Hr & _).
  split; [exact P1|]. destruct r as [[]|e].
  - destruct Hr as [Hown ->].
    destruct (without_budget_frame u v u_not_v id _ Hwf Hown) as (R1 & R2 & W).
    split; [split; assumption|]. split; [exact W|auto].
  - rewrite Hr. split; [apply same_rows_of_refl|]. split; [exact Hwf|auto].
Qed.

Lemma keeps_CreateBudgetAlert req :
  keeps_rows_of v (fun _ => True) (CreateBudgetAlert u req)
    (fun _ a => BudgetAlert.UserID a = u).
Proof.
  unfold CreateBudgetAlert.
  eapply keeps_bind with
    (Q1 := fun t _ => owns_budget t u (BudgetAlertRequest.BudgetID req)).
  { eapply keeps_weaken; [apply (keeps_GetBudget (fun _ => True))|auto|].
    cbn beta. intros t B H. apply H. }
  intros ?. destruct (_ || _); [apply keeps_fail|].
  eapply keeps_bind with
    (Q1 := fun t _ => owns_budget t u (BudgetAlertRequest.BudgetID req)).
  { apply keeps_reads; [apply reads_query; reflexivity|]. auto. }
  intros count. destruct (0 <? count); [apply keeps_fail|].
  eapply keeps_bind with (Q1 := fun _ _ => True).
  - apply keeps_exec. intros t id t' Hown Hwf Hx.
    destruct (insert_alert_frame u v u_not_v _ _ _ _ _ _ Hx) as (R1 & R2 & W).
    split; [split; assumption|]. split; [auto|exact I].
  - intros alertID. apply keeps_ret. reflexivity.
Qed.

Lemma alert_exists_spec t id :
  alert_exists t id u = true <->
  exists a, In a (budget_alerts t) /\ al_id a = id /\ al_user_id a = u.
Proof.
  unfold alert_exists. rewrite existsb_exists. split.
  - intros (a & Ha & Hc). apply andb_true_iff in Hc. destruct Hc as [H1 H2].
    apply N.eqb_eq in H1, H2. eauto.
  - intros (a & Ha & <- & <-). exists a. rewrite !N.eqb_refl. auto.
Qed.

Lemma keeps_UpdateBudgetAlert id req :
  keeps_rows_of v (fun _ => True) (UpdateBudgetAlert id u req)
    (fun _ a => BudgetAlert.UserID a = u).
Proof.
  unfold UpdateBudgetAlert.
  eapply keeps_bind with (Q1 := fun t ex => ex = alert_exists t id u).
  { apply keeps_reads; [apply reads_query; reflexivity|].
    intros s a s' _ _ H. apply db_query_ok_inv in H.
    destruct H as [_ H]. congruence. }
  intros ex. destruct ex; [|apply keeps_fail]. cbn [negb].
  eapply keeps_bind with
    (Q1 := fun t _ => alert_exists t id u = true
                      /\ owns_budget t u (BudgetAlertRequest.BudgetID req)).
  { eapply keeps_weaken;
      [apply (keeps_GetBudget (fun t => true = alert_exists t id u))|auto|].
    cbn beta. intros t B (H1 & _ & H2). auto. }
  intros ?. destruct (_ || _); [apply keeps_fail|].
  eapply keeps_bind with
    (Q1 := fun t _ => alert_exists t id u = true
                      /\ owns_budget t u (BudgetAlertRequest.BudgetID req)).
  { apply keeps_reads; [apply reads_query; reflexivity|]. auto. }
  intros count. destruct (0 <? count); [apply keeps_fail|].
  eapply keeps_bind with (Q1 := fun t _ => alert_exists t id u = true).
  - apply keeps_exec. intros t [] t' [Hex Hown] Hwf Hx.
    destruct (update_alert_frame u v u_not_v _ _ _ _ _ _ Hx) as (R1 & R2 & W).
    split; [split; assumption|]. split; [auto|].
    apply alert_exists_spec in Hex. destruct Hex as (al & Hal & Hid & Hu).
    apply alert_exists_spec. unfold update_alert in Hx. injection Hx as <-.
    cbn [budget_alerts]. eexists. split; [apply in_map; exact Hal|].
    rewrite Hid, Hu, !N.eqb_refl. cbn. auto.
  - intros ?.
    eapply keeps_bind with (Q1 := fun _ row => al_user_id row = u).
    + apply keeps_reads; [apply reads_query; reflexivity|].
      intros s row s' Hex Hwf H. apply db_query_ok_inv in H.
      destruct H as [_ H]. apply first_row_ok_inv in H.
      destruct H as [rest H].
      assert (Hrow : In row (select_alert_by_id (tables s) id))
        by (rewrite H; left; reflexivity).
      unfold select_alert_by_id in Hrow. apply filter_In in Hrow.
      destruct Hrow as [Hrow Hid]. apply N.eqb_eq in Hid.
      apply alert_exists_spec in Hex. destruct Hex as (al & Hal & Haid & Hau).
      destruct Hwf as ((_ & Hpa) & _).
      assert (row = al)
        by (apply (NoDup_map_inj al_id (budget_alerts (tables s))); auto;
            congruence).
      congruence.
    + intros row. apply keeps_ret. auto.
Qed.

Lemma keeps_DeleteBudgetAlert id :
  keeps_rows_of v (fun _ => True) (DeleteBudgetAlert id u) (fun _ _ => True).
Proof.
  unfold DeleteBudgetAlert.
  eapply keeps_bind with (Q1 := fun _ _ => True).
  { apply keeps_reads; [apply reads_query; reflexivity|]. auto. }
  intros ex. destruct (negb ex); [apply keeps_fail|].
  apply keeps_exec. intros t [] t' _ Hwf Hx.
  destruct (delete_alert_frame u v u_not_v _ _ _ Hx) as (R1 & R2 & W).
  split; [split; assumption|]. auto.
Qed.

(** C10.  Whatever budget or alert operation user [u] runs, on a
    well-formed database, the budgets and the alerts of another user [v]
    are the same afterwards, every record in what the operation returns
    is a record of [u] (a budget of [u], an alert of [u], or a triggered
    alert about an alert and a budget of [u]), and the database is
    well formed again. *)
Theorem tenant_isolation op s r s' :
  pending s = None -> store_wf (tables s) ->
  run_op u op s = (r, s') ->
  budgets_of v (tables s') = budgets_of v (tables s)
  /\ alerts_of v (tables s') = alerts_of v (tables s)
  /\ (forall reply, r = Ok reply -> reply_owned u (tables s') reply)
  /\ store_wf (tables s') /\ pending s' = None.
Proof.
  intros Hp Hwf H.
  assert (K : keeps_rows_of v (fun _ => True) (run_op u op)
                (fun t reply => reply_owned u t reply)).
  { destruct op; unfold run_op.
    - eapply keeps_bind with
        (Q1 := fun _ L => Forall (fun B => Budget.UserID B = u) L).
      + apply keeps_reads; [apply reads_GetBudgets|].
        intros s0 L s0' _ _ H0. exact (GetBudgets_UserID _ _ _ _ H0).
      + intros L. apply keeps_ret. auto.
    - eapply keeps_bind; [apply keeps_CreateBudget|].
      intros B. apply keeps_ret. auto.
    - eapply keeps_bind; [apply (keeps_GetBudget (fun _ => True))|].
      intros B. apply keeps_ret. cbn. tauto.
    - eapply keeps_bind; [apply keeps_UpdateBudget|].
      intros B. apply keeps_ret. auto.
    - eapply keeps_bind; [apply keeps_DeleteBudget|].
      intros ?. apply keeps_ret. cbn. auto.
    - eapply keeps_bind; [apply keeps_CreateBudgetAlert|].
      intros a. apply keeps_ret. auto.
    - eapply keeps_bind with
        (Q1 := fun _ L => Forall (fun a => BudgetAlert.UserID a = u) L).
      + apply keeps_reads; [apply reads_GetBudgetAlerts|].
        intros s0 L s0' _ _ H0. exact (GetBudgetAlerts_UserID _ _ _ _ H0).
      + intros L. apply keeps_ret. auto.
    - eapply keeps_bind; [apply keeps_UpdateBudgetAlert|].
      intros a. apply keeps_ret. auto.
    - eapply keeps_bind; [apply keeps_DeleteBudgetAlert|].
      intros ?. apply keeps_ret. cbn. auto.
    - eapply keeps_bind with (Q1 := fun t L => Forall (info_owned u t) L).
      + apply keeps_reads; [apply reads_CheckBudgetAlerts|].
        intros s0 L s0' _ Hwf0 H0.
        exact (CheckBudgetAlerts_owned _ _ _ _ (proj1 Hwf0) H0).
      + intros L. apply keeps_ret. auto. }
  destruct (K _ _ _ Hp Hwf I H) as (P1 & (R1 & R2) & W & Q).
  auto.
Qed.

End Isolation.

Lemma demo_store_wf : store_wf demo_tables.
Proof.
  split; [exact demo_pk_unique|]. split; [exact demo_alerts_owned|].
  split.
  - intros b Hb. cbn in Hb.
    destruct Hb as [<-|[<-|[<-|[<-|[]]]]]; reflexivity.
  - intros a Ha. cbn in Ha.
    destruct Ha as [<-|[<-|[<-|[<-|[]]]]]; reflexivity.
Qed.

Lemma tenant_isolation_witness :
  let run := run_op (engine := ref_engine) 1 (OpDelete 1) demo_store in
  1%N <> 2%N /\ pending demo_store = None /\ store_wf (tables demo_store)
  /\ fst run = Ok RNil
  /\ budgets_of 2 (tables (snd run)) = budgets_of 2 demo_tables
  /\ alerts_of 2 (tables (snd run)) = alerts_of 2 demo_tables
  /\ alerts_of 1 (tables (snd run)) = [].
Proof.
  cbv zeta.
  assert (Hne : 1%N <> 2%N) by discriminate.
  destruct (tenant_isolation (engine := ref_engine) 1 2 Hne (OpDelete 1)
              demo_store
              (fst (run_op (engine := ref_engine) 1 (OpDelete 1) demo_store))
              (snd (run_op (engine := ref_engine) 1 (OpDelete 1) demo_store))
              eq_refl demo_store_wf (surjective_pairing _))
    as (Hb & Ha & _).
  split; [exact Hne|]. split; [reflexivity|]. split; [exact demo_store_wf|].
  split; [vm_compute; reflexivity|]. split; [exact Hb|].
  split; [exact Ha|]. vm_compute. reflexivity.
Defined.

(** ** Where the slot rule does hold *)

Section Slots.

Context {engine : SqlEngine}.

Lemma count_zero_none {A} (p : A -> bool) l x :
  (0 <? Z.of_nat (List.length (filter p l))) = false -> In x l -> p x = false.
Proof.
  intros H Hx. apply Z.ltb_ge in H.
  destruct (p x) eqn:E; [|reflexivity].
  assert (Hin : In x (filter p l)) by (apply filter_In; auto).
  destruct (filter p l); [destruct Hin|cbn in H; lia].
Qed.

(** When the placement check passes, no budget other than the excluded
    one is in the slot asked for. *)
Lemma check_placement_ok_inv userID categoryID month exclude s s' :
  check_placement userID categoryID month exclude s = (Ok tt, s') ->
  forall b, In b (budgets (tables s)) ->
            in_requested_slot userID categoryID month b ->
            not_excluded exclude (bud_id b) = false.
Proof.
  unfold check_placement, in_requested_slot, category_param.
  intros H b Hb (Hu & Hc & Hm).
  destruct (N.ltb 0 categoryID).
  - apply bind_ok_inv in H. destruct H as (r & s1 & Hq & H).
    destruct (reads_query QCategoryCheck _ eq_refl _ _ _ Hq) as (T & _).
    destruct (negb (fst r)); [discriminate|].
    destruct (negb (kind_eqb (snd r) expense)); [discriminate|].
    apply bind_ok_inv in H. destruct H as (count & s2 & Hc2 & H).
    apply db_query_ok_inv in Hc2. destruct Hc2 as [_ Hc2].
    injection Hc2 as <-. rewrite T in H.
    destruct (0 <? count_budgets_category (tables s) userID categoryID month
                     exclude) eqn:E; [discriminate|].
    unfold count_budgets_category in E.
    pose proof (count_zero_none _ _ b E Hb) as Hp. cbn beta in Hp.
    rewrite Hu, Hc, Hm, N.eqb_refl, String.eqb_refl in Hp.
    cbn [null_eqb] in Hp. rewrite N.eqb_refl in Hp. exact Hp.
  - apply bind_ok_inv in H. destruct H as (count & s2 & Hc2 & H).
    apply db_query_ok_inv in Hc2. destruct Hc2 as [_ Hc2].
    injection Hc2 as <-.
    destruct (0 <? count_budgets_total (tables s) userID month exclude) eqn:E;
      [discriminate|].
    unfold count_budgets_total in E.
    pose proof (count_zero_none _ _ b E Hb) as Hp. cbn beta in Hp.
    rewrite Hu, Hc, Hm, N.eqb_refl, String.eqb_refl in Hp.
    exact Hp.
Qed.

(** X15.  [CreateBudget] keeps the slots: a budget is inserted only after the
    count of the budgets in its slot came back as zero. *)
Theorem CreateBudget_keeps_slot_unique userID req s r s' :
  slot_unique (tables s) ->
  CreateBudget userID req s = (r, s') ->
  slot_unique (tables s').
Proof.
  intros Hslot H. unfold CreateBudget in H.
  destruct (parse_month (BudgetRequest.Month req)) as [month|] eqn:Hp;
    [|inversion H; subst; exact Hslot].
  apply bind_inv in H. destruct H as [(e & H & ->)|([] & s1 & Hc & H)].
  { destruct (reads_check_placement _ _ _ _ _ _ _ H) as (T & _).
    rewrite T. exact Hslot. }
  destruct (reads_check_placement _ _ _ _ _ _ _ Hc) as (T1 & _).
  pose proof (check_placement_ok_inv _ _ _ _ _ _ Hc) as Hfree.
  apply bind_inv in H. destruct H as [(e & H & ->)|(id & s2 & Hx & H)].
  { apply db_exec_inv in H.
    destruct H as (_ & _ & _ & [(a & t' & _ & Hr & _)|(T & _)]);
      [discriminate|].
    rewrite T, T1. exact Hslot. }
  assert (T3 : tables s' = tables s2).
  { destruct (reads_GetBudget _ _ _ _ _ H) as (T & _). exact T. }
  apply db_exec_inv in Hx.
  destruct Hx as (_ & _ & _ & [(a & t' & Hins & Hr & T2 & _)|(_ & e & Hr & _)]);
    [|discriminate].
  apply insert_budget_ok_inv in Hins. destruct Hins as (cents & _ & Ht' & _).
  rewrite T3, T2, Ht', T1. clear T3 T2 Ht'.
  apply parse_month_inv in Hp. destruct Hp as (Hfmt & _).
  set (new := mkBudgetRow (next_budget_id (tables s)) userID
                (category_param (BudgetRequest.CategoryID req)) cents
                (t_date month)).
  assert (Hnew : forall b, In b (budgets (tables s)) -> ~ same_slot b new).
  { intros b Hb (Hu & Hcat & Hm).
    assert (Hx : not_excluded None (bud_id b) = false).
    { apply Hfree; [exact Hb|]. split; [exact Hu|]. split; [exact Hcat|].
      rewrite Hm. exact Hfmt. }
    discriminate Hx. }
  intros b1 b2 H1 H2 Hs. cbn [budgets] in H1, H2.
  apply in_app_or in H1. apply in_app_or in H2.
  destruct H1 as [H1|[<-|[]]]; destruct H2 as [H2|[<-|[]]].
  - apply Hslot; auto.
  - destruct (Hnew b1 H1 Hs).
  - destruct (Hnew b2 H2). destruct Hs as (Hu & Hcat & Hm).
    split; [|split]; congruence.
  - reflexivity.
Qed.

(** X16.  [UpdateBudget] keeps the slots when it changes the category, the
    case in which it counts the budgets of the slot asked for. *)
Theorem UpdateBudget_keeps_slot_unique_on_category_change
  id userID req s r s' :
  slot_unique (tables s) ->
  (forall B s0, GetBudget id userID s = (Ok B, s0) ->
                Budget.CategoryID B <> BudgetRequest.CategoryID req) ->
  UpdateBudget id userID req s = (r, s') ->
  slot_unique (tables s').
Proof.
  intros Hslot Hchg H. unfold UpdateBudget in H.
  apply bind_inv in H. destruct H as [(e & H & ->)|(B & s1 & HB & H)].
  { destruct (reads_GetBudget _ _ _ _ _ H) as (T & _). rewrite T. exact Hslot. }
  destruct (reads_GetBudget _ _ _ _ _ HB) as (T1 & _).
  specialize (Hchg B s1 HB). apply N.eqb_neq in Hchg.
  rewrite Hchg in H. cbn [negb] in H.
  apply bind_inv in H. destruct H as [(e & H & ->)|([] & s2 & Hc & H)].
  { destruct (reads_check_placement _ _ _ _ _ _ _ H) as (T & _).
    rewrite T, T1. exact Hslot. }
  destruct (reads_check_placement _ _ _ _ _ _ _ Hc) as (T2 & _).
  pose proof (check_placement_ok_inv _ _ _ _ _ _ Hc) as Hfree.
  rewrite T1 in Hfree.
  destruct (parse_month (BudgetRequest.Month req)) as [month|] eqn:Hp;
    [|inversion H; subst; rewrite T2, T1; exact Hslot].
  apply bind_inv in H. destruct H as [(e & H & ->)|([] & s3 & Hx & H)].
  { apply db_exec_inv in H.
    destruct H as (_ & _ & _ & [(a & t' & _ & Hr & _)|(T & _)]);
      [discriminate|].
    rewrite T, T2, T1. exact Hslot. }
  assert (T4 : tables s' = tables s3).
  { destruct (reads_GetBudget _ _ _ _ _ H) as (T & _). exact T. }
  apply db_exec_inv in Hx.
  destruct Hx as (_ & _ & _ & [(a & t' & Hupd & Hr & T3 & _)|(_ & e & Hr & _)]);
    [|discriminate].
  destruct a. apply update_budget_ok_inv in Hupd. destruct Hupd as (cents & Ht').
  rewrite T4, T3, Ht', T2, T1. clear T4 T3 Ht'.
  apply parse_month_inv in Hp. destruct Hp as (Hfmt & _).
  set (g := fun b => if is_budget id userID b
                     then mkBudgetRow (bud_id b) (bud_user_id b)
                            (category_param (BudgetRequest.CategoryID req))
                            cents (t_date month)
                     else b).
  assert (Hmoved : forall b, is_budget id userID b = true ->
                     bud_id (g b) = id
                     /\ in_requested_slot userID (BudgetRequest.CategoryID req)
                          (BudgetRequest.Month req) (g b)).
  { intros b Hb. unfold g. rewrite Hb. unfold is_budget in Hb.
    apply andb_true_iff in Hb. destruct Hb as [Hi Hu].
    apply N.eqb_eq in Hi, Hu. unfold in_requested_slot. cbn. auto. }
  assert (Hstay : forall b, is_budget id userID b = false -> g b = b)
    by (intros b Hb; unfold g; rewrite Hb; reflexivity).
  assert (Hclash : forall b1 b2,
             In b2 (budgets (tables s)) ->
             is_budget id userID b1 = true -> is_budget id userID b2 = false ->
             ~ same_slot (g b1) b2).
  { intros b1 b2 H2 Hb1 Hb2 (Hu & Hcat & Hm).
    destruct (Hmoved b1 Hb1) as (_ & Hu1 & Hc1 & Hm1).
    assert (Hx : not_excluded (Some id) (bud_id b2) = false).
    { apply Hfree; [exact H2|]. split; [|split]; congruence. }
    cbn [not_excluded] in Hx. apply negb_false_iff in Hx.
    unfold is_budget in Hb2. rewrite Hx in Hb2. cbn [andb] in Hb2.
    apply N.eqb_neq in Hb2. congruence. }
  intros c1 c2 H1 H2 Hs. cbn [budgets] in H1, H2.
  apply in_map_iff in H1. destruct H1 as (b1 & <- & H1).
  apply in_map_iff in H2. destruct H2 as (b2 & <- & H2).
  fold g in Hs |- *.
  destruct (is_budget id userID b1) eqn:E1;
    destruct (is_budget id userID b2) eqn:E2.
  - destruct (Hmoved b1 E1) as [-> _]. destruct (Hmoved b2 E2) as [-> _].
    reflexivity.
  - rewrite (Hstay b2 E2) in Hs. destruct (Hclash b1 b2 H2 E1 E2 Hs).
  - rewrite (Hstay b1 E1) in Hs. destruct (Hclash b2 b1 H1 E2 E1).
    destruct Hs as (Hu & Hcat & Hm). split; [|split]; congruence.
  - rewrite (Hstay b1 E1), (Hstay b2 E2) in *. apply Hslot; auto.
Qed.

End Slots.

(** ** The category of a budget *)

Section CategoryGuard.

Context {engine : SqlEngine}.

(** X17.  What the category check of [CreateBudget] and [UpdateBudget] answers
    for a category id above zero, when the driver does not fail: the
    ValidationError for a category of another user and for an income
    category, [sql.ErrNoRows] when no category has the id; it passes only
    for an expense category of the user. *)
Theorem check_placement_category userID categoryID month exclude s r s' :
  faults s = [] ->
  NoDup (map cat_id (categories (tables s))) ->
  (0 < categoryID)%N ->
  check_placement userID categoryID month exclude s = (r, s') ->
  ((forall c, In c (categories (tables s)) -> cat_id c <> categoryID) ->
   r = Err ErrNoRows)
  /\ (forall c, In c (categories (tables s)) -> cat_id c = categoryID ->
        cat_user_id c <> userID -> r = Err ErrCategoryNotOwned)
  /\ (forall c, In c (categories (tables s)) -> cat_id c = categoryID ->
        cat_user_id c = userID -> cat_type c = income ->
        r = Err ErrCategoryNotExpense)
  /\ (r = Ok tt ->
      exists c, In c (categories (tables s)) /\ cat_id c = categoryID
                /\ cat_user_id c = userID /\ cat_type c = expense).
Proof.
  intros F Hnd Hpos H. unfold check_placement in H.
  apply N.ltb_lt in Hpos. rewrite Hpos in H.
  unfold bind at 1 in H. rewrite db_query_no_fault in H by exact F.
  unfold select_category_check in H.
  destruct (filter (fun c => N.eqb (cat_id c) categoryID)
                   (categories (tables s))) as [|c0 rest] eqn:E.
  - cbn [map first_row] in H. inversion H; subst r s'.
    split; [reflexivity|]. split; [|split; [|discriminate]].
    + intros c Hc Hid _.
      assert (Hin : In c []) by (rewrite <- E; apply filter_In; split;
                                 [exact Hc|apply N.eqb_eq; exact Hid]).
      destruct Hin.
    + intros c Hc Hid _ _.
      assert (Hin : In c []) by (rewrite <- E; apply filter_In; split;
                                 [exact Hc|apply N.eqb_eq; exact Hid]).
      destruct Hin.
  - assert (H0 : In c0 (categories (tables s)) /\ cat_id c0 = categoryID).
    { assert (Hin : In c0 (c0 :: rest)) by (left; reflexivity).
      rewrite <- E in Hin. apply filter_In in Hin.
      destruct Hin as [Hin Hid]. apply N.eqb_eq in Hid. auto. }
    destruct H0 as [Hc0 Hid0].
    assert (Hsame : forall c, In c (categories (tables s)) ->
                              cat_id c = categoryID -> c = c0).
    { intros c Hc Hid.
      apply (NoDup_map_inj cat_id (categories (tables s))); auto. congruence. }
    cbn [map first_row fst snd] in H.
    assert (Hex : existsb (fun c' => N.eqb (cat_id c') categoryID
                                     && N.eqb (cat_user_id c') userID)
                          (categories (tables s))
                  = N.eqb (cat_user_id c0) userID).
    { destruct (N.eqb (cat_user_id c0) userID) eqn:Eu.
      - apply existsb_exists. exists c0. rewrite Hid0, Eu, N.eqb_refl. auto.
      - apply not_true_iff_false. intros Hx. apply existsb_exists in Hx.
        destruct Hx as (c & Hc & Hx). apply andb_true_iff in Hx.
        destruct Hx as [H1 H2]. apply N.eqb_eq in H1.
        rewrite (Hsame c Hc H1) in H2. congruence. }
    rewrite Hex in H.
    split; [intros Hno; destruct (Hno c0 Hc0 Hid0)|].
    destruct (N.eqb (cat_user_id c0) userID) eqn:Eu; cbn [negb] in H.
    + apply N.eqb_eq in Eu.
      destruct (cat_type c0) eqn:Et; cbn [kind_eqb negb] in H.
      * inversion H; subst r s'. split; [|split; [|discriminate]].
        -- intros c Hc Hid Hu. rewrite (Hsame c Hc Hid) in Hu. congruence.
        -- reflexivity.
      * split; [|split].
        -- intros c Hc Hid Hu. rewrite (Hsame c Hc Hid) in Hu. congruence.
        -- intros c Hc Hid _ Ht. rewrite (Hsame c Hc Hid) in Ht. congruence.
        -- intros _. exists c0. auto.
    + apply N.eqb_neq in Eu. inversion H; subst r s'.
      split; [reflexivity|]. split; [|discriminate].
      intros c Hc Hid Hu. rewrite (Hsame c Hc Hid) in Hu. congruence.
Qed.

End CategoryGuard.

(** * Further properties of the budget code *)

(** ** The operations that read *)

Section ReadOperations.

Context {engine : SqlEngine}.

Lemma reads_run_op_read userID op :
  is_read_op op = true -> reads (run_op userID op).
Proof.
  destruct op; cbn [is_read_op]; try discriminate; intros _; unfold run_op;
    (apply reads_bind; [|intros x; apply reads_ret]).
  - apply reads_GetBudgets.
  - apply reads_GetBudget.
  - apply reads_GetBudgetAlerts.
  - apply reads_CheckBudgetAlerts.
Qed.

(** X1.  [GetBudgets], [GetBudget], [GetBudgetAlerts] and [CheckBudgetAlerts]
    write nothing, whatever they return and whether or not the driver
    fails: the tables and the open transaction are as before, and every
    statement they issue is a SELECT. *)
Theorem read_operations_write_nothing userID op s r s' :
  is_read_op op = true ->
  run_op userID op s = (r, s') ->
  tables s' = tables s /\ pending s' = pending s
  /\ exists calls, log s' = log s ++ calls /\ forallb is_query calls = true.
Proof.
  intros Hop H.
  destruct (reads_run_op_read userID op Hop _ _ _ H) as (T & P & _ & L).
  auto.
Qed.

Lemma result_of_tables_ret {A} (a : A) : result_of_tables (ret a).
Proof. intros s1 s2 _ _ _. reflexivity. Qed.

Lemma result_of_tables_fail {A} e : result_of_tables (@fail A e).
Proof. intros s1 s2 _ _ _. reflexivity. Qed.

Lemma result_of_tables_query {A} c (q : Tables -> Result A) :
  result_of_tables (db_query c q).
Proof.
  intros s1 s2 F1 F2 T. rewrite !db_query_no_fault by assumption.
  cbn. rewrite T. reflexivity.
Qed.

Lemma result_of_tables_bind {A B} (m : DB A) (k : A -> DB B) :
  reads m -> result_of_tables m -> (forall a, result_of_tables (k a)) ->
  result_of_tables (bind m k).
Proof.
  intros Hr Hm Hk s1 s2 F1 F2 T. unfold bind.
  specialize (Hm s1 s2 F1 F2 T).
  destruct (m s1) as [r1 s1'] eqn:E1. destruct (m s2) as [r2 s2'] eqn:E2.
  cbn in Hm. subst r2.
  destruct (Hr _ _ _ E1) as (T1 & _ & G1 & _).
  destruct (Hr _ _ _ E2) as (T2 & _ & G2 & _).
  destruct r1 as [a|e]; [|reflexivity].
  apply Hk; auto. congruence.
Qed.

Lemma result_of_tables_GetBudgets_rows userID startDate endDate rows :
  result_of_tables (GetBudgets_rows userID startDate endDate rows).
Proof.
  induction rows as [|j rest IH]; cbn [GetBudgets_rows].
  - apply result_of_tables_ret.
  - destruct (parse_month _); [|apply result_of_tables_fail].
    apply result_of_tables_bind; [apply reads_with_usage| |].
    + unfold with_usage. apply result_of_tables_bind.
      * apply reads_query. reflexivity.
      * apply result_of_tables_query.
      * intros a. apply result_of_tables_ret.
    + intros b. apply result_of_tables_bind;
        [apply reads_GetBudgets_rows|exact IH|].
      intros bs. apply result_of_tables_ret.
Qed.

Lemma result_of_tables_CheckBudgetAlerts now userID :
  result_of_tables (CheckBudgetAlerts now userID).
Proof.
  unfold CheckBudgetAlerts.
  apply result_of_tables_bind; [apply reads_GetBudgets| |].
  - unfold GetBudgets.
    destruct (parse_month _); [|apply result_of_tables_fail].
    (* the row query hands its rows to the loop *)
    intros s1 s2 F1 F2 T. unfold bind.
    rewrite !db_query_no_fault by assumption. rewrite T.
    apply result_of_tables_GetBudgets_rows; cbn; auto using tl_nil_of_nil.
  - intros L. apply result_of_tables_bind.
    + apply reads_query. reflexivity.
    + apply result_of_tables_query.
    + intros rows. apply result_of_tables_ret.
Qed.

(** X2.  [CheckBudgetAlerts] keeps no memory of what it reported: called
    again on the store it leaves, with the driver not failing, it returns
    the same records, and the tables are still the same. *)
Theorem CheckBudgetAlerts_repeatable now userID s recs s1 :
  faults s = [] ->
  CheckBudgetAlerts now userID s = (Ok recs, s1) ->
  exists s2,
    CheckBudgetAlerts now userID s1 = (Ok recs, s2)
    /\ tables s2 = tables s.
Proof.
  intros F H.
  destruct (reads_CheckBudgetAlerts userID now _ _ _ H) as (T1 & _ & F1 & _).
  pose proof (result_of_tables_CheckBudgetAlerts now userID s s1 F (F1 F)
                (eq_sym T1)) as Hsame.
  rewrite H in Hsame. cbn [fst] in Hsame.
  destruct (CheckBudgetAlerts now userID s1) as [r2 s2] eqn:E2.
  cbn [fst] in Hsame. subst r2. exists s2. split; [reflexivity|].
  destruct (reads_CheckBudgetAlerts userID now _ _ _ E2) as (T2 & _).
  congruence.
Qed.

(** X3.  [GetBudgets] returns one budget for each budget row of the user in
    the month asked for and no other: the ids returned are the ids of
    these rows, in some order, and each budget returned is of the user and
    of that month. *)
Theorem GetBudgets_lists_the_month userID month s L s' :
  GetBudgets userID month s = (Ok L, s') ->
  Permutation (map Budget.ID L)
              (map bud_id (filter (listed_in_month userID month)
                                  (budgets (tables s))))
  /\ Forall (fun B => Budget.UserID B = userID
                      /\ Format_ym (Budget.Month B) = month) L.
Proof.
  intros H. apply GetBudgets_ok_inv in H. destruct H as (pm & Hpm & HL).
  split.
  - assert (Hid : map (fun j : BudgetJoin => bud_id (fst j))
                      (select_budgets_of_month (tables s) userID month)
                  = map Budget.ID L).
    { apply (Forall2_map_eq _ _ _ _ _ HL). intros j B (m & _ & ->).
      reflexivity. }
    rewrite <- Hid. unfold select_budgets_of_month.
    eapply Permutation_trans.
    + apply Permutation_map, order_budgets_perm.
    + rewrite map_map. cbn [left_join_category fst]. apply Permutation_refl.
  - apply Forall_forall. intros B HB.
    destruct (Forall2_In_r _ _ _ _ HL HB) as (j & Hj & m & Hm & ->).
    apply select_budgets_of_month_In in Hj.
    destruct Hj as (row & -> & _ & Hu & Hfmt).
    cbn [left_join_category fst] in Hm.
    split; [exact Hu|].
    cbn [usage budget_of_row Budget.Month].
    apply parse_month_inv in Hm. destruct Hm as (Hf & _).
    unfold Format_ym. congruence.
Qed.

(** X4.  A budget of another user is as good as absent: [GetBudget],
    [UpdateBudget] and [DeleteBudget] with an id that no budget of the
    user has answer "预算不存在" and leave the tables as they are, also
    when a budget of someone else has that id. *)
Theorem foreign_budget_is_not_found id userID s :
  faults s = [] ->
  (forall row, In row (budgets (tables s)) ->
               bud_id row = id -> bud_user_id row <> userID) ->
  fst (GetBudget id userID s) = Err ErrBudgetNotFound
  /\ (forall req,
        fst (UpdateBudget id userID req s) = Err ErrBudgetNotFound
        /\ tables (snd (UpdateBudget id userID req s)) = tables s)
  /\ fst (DeleteBudget id userID s) = Err ErrBudgetNotFound
  /\ tables (snd (DeleteBudget id userID s)) = tables s.
Proof.
  intros F Hno.
  assert (Hget : exists s1, GetBudget id userID s = (Err ErrBudgetNotFound, s1)
                            /\ tables s1 = tables s).
  { destruct (GetBudget id userID s) as [r s1] eqn:E.
    destruct (GetBudget_missing id userID s r s1) as (e & -> & He); auto.
    - intros row Hin [Hid Hu]. exact (Hno row Hin Hid Hu).
    - rewrite (He F). exists s1. split; [reflexivity|].
      destruct (reads_GetBudget _ _ _ _ _ E) as (T & _). exact T. }
  destruct Hget as (s1 & Hg & T).
  split; [rewrite Hg; reflexivity|]. split.
  - intros req. unfold UpdateBudget.
    rewrite (bind_eq_err _ _ _ _ _ Hg). auto.
  - unfold DeleteBudget. rewrite (bind_eq_err _ _ _ _ _ Hg). auto.
Qed.

End ReadOperations.

(** ** The month of a budget on the calendar *)

Section CalendarMonth.

Context {engine : SqlEngine}.

(** A date lies between the first and the last day of a month exactly
    when it is a date of that month and year. *)
Lemma between_first_last_day d month :
  valid_date d ->
  between d (first_day month) (last_day month) = true
  <-> d_year d = d_year month /\ d_month d = d_month month.
Proof.
  intros (_ & Hday). unfold between, date_leb, first_day, last_day.
  cbn [d_year d_month d_day].
  rewrite !andb_true_iff, !orb_true_iff, !andb_true_iff, !orb_true_iff,
    !andb_true_iff, !Z.ltb_lt, !Z.eqb_eq, !Z.leb_le.
  split.
  - intros [H1 H2]. lia.
  - intros (Hy & Hm). rewrite <- Hy, <- Hm. lia.
Qed.

Lemma returned_budget_inv userID s B :
  returned_budget userID s B ->
  exists row m,
    In row (budgets (tables s)) /\ bud_user_id row = userID
    /\ bud_id row = Budget.ID B
    /\ parse_month (DATE_FORMAT_Ym (bud_month row)) = Some m
    /\ B = usage (tables s) userID m (Add_minus_second (AddDate_months m 1))
             (budget_of_row (left_join_category (tables s) row) m).
Proof.
  intros [(id & s' & H)|(month & L & s' & H & HB)].
  - apply GetBudget_ok_inv in H.
    destruct H as (row & m & Hin & Hid & Hu & Hp & ->).
    exists row, m. repeat split; auto.
  - apply GetBudgets_ok_inv in H. destruct H as (pm & Hpm & HL).
    destruct (Forall2_In_r _ _ _ _ HL HB) as (j & Hj & m & Hm & ->).
    apply select_budgets_of_month_In in Hj.
    destruct Hj as (row & -> & Hin & Hu & Hfmt).
    cbn [left_join_category fst] in Hm.
    assert (pm = m) by congruence. subst pm.
    exists row, m. repeat split; auto.
Qed.

(** X5.  The [UsedAmount] of a returned budget counts the expense bills of
    the user whose date is in the same month of the same year as the
    budget, no bill of that month left out and none of another month let
    in, whatever the length of the month. *)
Theorem used_amount_is_the_calendar_month userID s B :
  schema_ok (tables s) ->
  Forall (fun b => valid_date (bill_date b)) (bills (tables s)) ->
  returned_budget userID s B ->
  exists row,
    In row (budgets (tables s))
    /\ bud_id row = Budget.ID B /\ bud_user_id row = userID
    /\ Budget.UsedAmount B
       = float64_of_decimal
           (sum_amounts (filter (bill_of_month userID row)
                                (bills (tables s)))).
Proof.
  intros Hs Hbills HB. apply returned_budget_inv in HB.
  destruct HB as (row & m & Hin & Hu & Hid & Hp & ->).
  exists row. split; [exact Hin|]. split; [exact Hid|]. split; [exact Hu|].
  unfold schema_ok in Hs. rewrite Forall_forall in Hs.
  destruct (Hs _ Hin) as [Hv Hc].
  rewrite (usage_used_amount _ _ _ _ Hv Hc Hp). f_equal.
  unfold spec_used_amount. f_equal. apply filter_ext_in.
  intros b Hb. rewrite Forall_forall in Hbills. specialize (Hbills b Hb).
  pose proof (between_first_last_day (bill_date b) (bud_month row) Hbills)
    as Hbt.
  unfold between in Hbt. unfold bill_in_scope, bill_of_month.
  destruct (kind_eqb (bill_type b) expense); [|reflexivity].
  destruct (N.eqb (bill_user_id b) userID); [|reflexivity].
  cbn [andb].
  destruct (date_leb (first_day (bud_month row)) (bill_date b)
            && date_leb (bill_date b) (last_day (bud_month row))) eqn:E.
  - destruct (proj1 Hbt eq_refl) as [Hy Hm].
    rewrite Hy, Hm, !Z.eqb_refl. reflexivity.
  - assert (Hn : (d_year (bill_date b) =? d_year (bud_month row))
                 && (d_month (bill_date b) =? d_month (bud_month row))
                 = false).
    { apply not_true_iff_false. intros Ht. apply andb_true_iff in Ht.
      destruct Ht as [Hy Hm]. apply Z.eqb_eq in Hy, Hm.
      pose proof (proj2 Hbt (conj Hy Hm)) as Hf. discriminate Hf. }
    rewrite Hn. reflexivity.
Qed.

End CalendarMonth.

(** ** What creating and updating a budget leave behind *)

Section BudgetEffects.

Context {engine : SqlEngine}.

Lemma insert_budget_ok_cents userID categoryID amount month t id t' :
  insert_budget userID categoryID amount month t = Ok (id, t') ->
  exists cents,
    decimal_of_float64 amount = Some cents
    /\ id = next_budget_id t
    /\ t' = mkTables (categories t) (bills t)
              (budgets t
               ++ [mkBudgetRow (next_budget_id t) userID categoryID cents
                               (t_date month)])
              (budget_alerts t) (N.succ (next_budget_id t)) (next_alert_id t).
Proof.
  unfold insert_budget.
  destruct (decimal_of_float64 amount) as [cents|]; [|discriminate].
  destruct (existsb _ (budgets t)); [discriminate|].
  intros [= <- <-]. eauto.
Qed.

Lemma update_budget_ok_cents id userID categoryID amount month t t' :
  update_budget id userID categoryID amount month t = Ok (tt, t') ->
  exists cents,
    decimal_of_float64 amount = Some cents
    /\ t' = mkTables (categories t) (bills t)
              (map (fun b =>
                      if is_budget id userID b
                      then mkBudgetRow (bud_id b) (bud_user_id b) categoryID
                                       cents (t_date month)
                      else b)
                   (budgets t))
              (budget_alerts t) (next_budget_id t) (next_alert_id t).
Proof.
  unfold update_budget.
  destruct (decimal_of_float64 amount) as [cents|]; [|discriminate].
  destruct (_ && _); [discriminate|]. intros [= <-]. eauto.
Qed.

Lemma category_param_roundtrip categoryID :
  match category_param categoryID with Some c => c | None => 0%N end
  = categoryID.
Proof.
  unfold category_param. destruct (N.ltb 0 categoryID) eqn:E; [reflexivity|].
  apply N.ltb_ge in E. lia.
Qed.

Lemma category_param_positive categoryID c :
  category_param categoryID = Some c -> (0 < c)%N.
Proof.
  unfold category_param. destruct (N.ltb 0 categoryID) eqn:E; [|discriminate].
  intros [= <-]. apply N.ltb_lt. exact E.
Qed.

(** The struct read back for the row a request wrote. *)
Lemma usage_of_requested_row t id userID req cents month m :
  parse_month (BudgetRequest.Month req) = Some month ->
  parse_month (DATE_FORMAT_Ym (bud_month (requested_row id userID req cents month)))
  = Some m ->
  matches_request
    (usage t userID m (Add_minus_second (AddDate_months m 1))
       (budget_of_row
          (left_join_category t (requested_row id userID req cents month)) m))
    id userID req cents month.
Proof.
  intros Hp Hm.
  destruct (parse_month_inv _ _ Hp) as (Hf & _).
  unfold requested_row, DATE_FORMAT_Ym in Hm. cbn [bud_month] in Hm.
  rewrite Hf in Hm. assert (m = month) by congruence. subst m.
  unfold matches_request, usage, requested_row.
  cbn [budget_of_row left_join_category fst Budget.ID Budget.UserID
       Budget.CategoryID Budget.Amount Budget.Month bud_id bud_user_id
       bud_category_id bud_amount].
  repeat split; auto. apply category_param_roundtrip.
Qed.

Lemma result_of_tables_GetBudget id userID :
  result_of_tables (GetBudget id userID).
Proof.
  unfold GetBudget. intros s1 s2 F1 F2 T. unfold bind, no_rows_as.
  rewrite !db_query_no_fault by assumption. rewrite T.
  destruct (first_row (select_budget (tables s2) id userID)) as [j|e].
  - destruct (parse_month _); [|reflexivity].
    rewrite !with_usage_no_fault by (cbn; auto using tl_nil_of_nil).
    cbn. rewrite T. reflexivity.
  - destruct e; reflexivity.
Qed.

Lemma schema_ok_insert t userID req cents month :
  schema_ok t -> parse_month (BudgetRequest.Month req) = Some month ->
  Forall (fun b => valid_month (bud_month b)
                   /\ forall c, bud_category_id b = Some c -> (0 < c)%N)
         (budgets t
          ++ [requested_row (next_budget_id t) userID req cents month]).
Proof.
  intros Hs Hp. apply Forall_app. split; [exact Hs|].
  constructor; [|constructor]. apply parse_month_inv in Hp.
  destruct Hp as (_ & Hv & _). split; [exact Hv|].
  intros c Hc. exact (category_param_positive _ _ Hc).
Qed.

(** X6.  What a successful [CreateBudget] did, on a database whose budget ids
    are below the AUTO_INCREMENT counter: one row was appended, with the
    id the counter held, the user, the category (NULL for 0), the amount
    as the DECIMAL column took it and the first day of the month asked
    for; nothing else changed; the struct returned describes that row;
    and, when the driver does not fail, [GetBudget] with the id returned
    finds the same struct again on the store left behind. *)
Theorem CreateBudget_inserts_requested_row userID req s B s' :
  ids_fresh (tables s) ->
  CreateBudget userID req s = (Ok B, s') ->
  exists cents month,
    parse_month (BudgetRequest.Month req) = Some month
    /\ decimal_of_float64 (BudgetRequest.Amount req) = Some cents
    /\ tables s'
       = mkTables (categories (tables s)) (bills (tables s))
           (budgets (tables s)
            ++ [requested_row (next_budget_id (tables s)) userID req cents
                              month])
           (budget_alerts (tables s))
           (N.succ (next_budget_id (tables s))) (next_alert_id (tables s))
    /\ matches_request B (next_budget_id (tables s)) userID req cents month
    /\ (faults s = [] -> fst (GetBudget (Budget.ID B) userID s') = Ok B).
Proof.
  intros [Hfresh _] H. unfold CreateBudget in H.
  destruct (parse_month (BudgetRequest.Month req)) as [month|] eqn:Hp;
    [|discriminate].
  apply bind_ok_inv in H. destruct H as ([] & s1 & Hc & H).
  destruct (reads_check_placement _ _ _ _ _ _ _ Hc) as (T1 & _ & F1 & _).
  apply bind_ok_inv in H. destruct H as (id & s2 & Hx & H).
  destruct (reads_GetBudget _ _ _ _ _ H) as (T3 & _ & F3 & _).
  apply db_exec_inv in Hx.
  destruct Hx as (_ & _ & F2 & [(a & t' & Hins & Hr & T2 & _)|(_ & e & Hr & _)]);
    [|discriminate].
  injection Hr as <-.
  apply insert_budget_ok_cents in Hins.
  destruct Hins as (cents & Hdec & -> & Ht').
  rewrite T1 in Ht'.
  exists cents, month. split; [reflexivity|]. split; [exact Hdec|].
  split; [rewrite T3, T2; exact Ht'|].
  pose proof H as Hget. apply GetBudget_ok_inv in H.
  destruct H as (row & m & Hin & Hid & Hu & Hm & HB).
  rewrite T2, Ht' in Hin. cbn [budgets] in Hin.
  assert (Hmatch : matches_request B (next_budget_id (tables s)) userID req
                     cents month).
  { apply in_app_or in Hin. destruct Hin as [Hin|[<-|[]]].
    - specialize (Hfresh row Hin). rewrite T1 in Hid. lia.
    - rewrite HB.
      apply (usage_of_requested_row _ _ userID req cents month m Hp Hm). }
  split; [exact Hmatch|].
  intros F. destruct Hmatch as (HID & _). rewrite HID, <- T1.
  rewrite (result_of_tables_GetBudget _ userID s' s2); auto.
  rewrite Hget. reflexivity.
Qed.

(** X7.  What a successful [UpdateBudget] did: the rows with the id and the
    user now hold the category, amount and month asked for, every other
    row of [budgets] and every other table is as it was, and the struct
    returned describes the new row. *)
Theorem UpdateBudget_writes_requested_row id userID req s B s' :
  UpdateBudget id userID req s = (Ok B, s') ->
  exists cents month,
    parse_month (BudgetRequest.Month req) = Some month
    /\ decimal_of_float64 (BudgetRequest.Amount req) = Some cents
    /\ tables s'
       = mkTables (categories (tables s)) (bills (tables s))
           (map (fun b => if is_budget id userID b
                          then requested_row (bud_id b) (bud_user_id b) req
                                             cents month
                          else b)
                (budgets (tables s)))
           (budget_alerts (tables s))
           (next_budget_id (tables s)) (next_alert_id (tables s))
    /\ matches_request B id userID req cents month.
Proof.
  intros H. unfold UpdateBudget in H.
  apply bind_ok_inv in H. destruct H as (B0 & s1 & HB0 & H).
  destruct (reads_GetBudget _ _ _ _ _ HB0) as (T1 & _).
  apply bind_ok_inv in H. destruct H as ([] & s2 & Hc & H).
  assert (T2 : tables s2 = tables s1).
  { destruct (negb _).
    - destruct (reads_check_placement _ _ _ _ _ _ _ Hc) as (T & _). exact T.
    - inversion Hc; subst. reflexivity. }
  destruct (parse_month (BudgetRequest.Month req)) as [month|] eqn:Hp;
    [|discriminate].
  apply bind_ok_inv in H. destruct H as ([] & s3 & Hx & H).
  destruct (reads_GetBudget _ _ _ _ _ H) as (T4 & _).
  apply db_exec_inv in Hx.
  destruct Hx as (_ & _ & _ & [(a & t' & Hupd & _ & T3 & _)|(_ & e & Hr & _)]);
    [|discriminate].
  destruct a. apply update_budget_ok_cents in Hupd.
  destruct Hupd as (cents & Hdec & Ht').
  rewrite T2, T1 in Ht'.
  exists cents, month. split; [reflexivity|]. split; [exact Hdec|].
  split; [rewrite T4, T3; exact Ht'|].
  apply GetBudget_ok_inv in H.
  destruct H as (row & m & Hin & Hid & Hu & Hm & ->).
  rewrite T3, Ht' in Hin. cbn [budgets] in Hin.
  apply in_map_iff in Hin. destruct Hin as (b & Hb & Hin).
  destruct (is_budget id userID b) eqn:Eb.
  - unfold is_budget in Eb. apply andb_true_iff in Eb.
    destruct Eb as [Ei Eu]. apply N.eqb_eq in Ei, Eu.
    rewrite Ei, Eu in Hb. subst row.
    rewrite T3, Ht'.
    apply (usage_of_requested_row _ id userID req cents month m Hp Hm).
  - subst row. unfold is_budget in Eb. rewrite Hid, Hu, !N.eqb_refl in Eb.
    discriminate.
Qed.

End BudgetEffects.

(** ** Operations that fail *)

Section Failures.

Context {engine : SqlEngine}.

Lemma db_exec_no_fault {A} c (x : Tables -> Result (A * Tables)) s :
  faults s = [] ->
  db_exec c x s
  = match x (tables s) with
    | Ok (a, t') => (Ok a, mkStore t' (pending s) [] (log s ++ [c]))
    | Err e => (Err e, tick c s)
    end.
Proof.
  intros F. unfold db_exec, faulty. rewrite F. cbn [hd tl].
  destruct (x (tables s)) as [[a t']|e]; reflexivity.
Qed.

Lemma schema_ok_update t id userID req cents month :
  schema_ok t -> parse_month (BudgetRequest.Month req) = Some month ->
  Forall (fun b => valid_month (bud_month b)
                   /\ forall c, bud_category_id b = Some c -> (0 < c)%N)
         (map (fun b => if is_budget id userID b
                        then requested_row (bud_id b) (bud_user_id b) req
                                           cents month
                        else b)
              (budgets t)).
Proof.
  intros Hs Hp. apply Forall_forall. intros b' Hb'.
  apply in_map_iff in Hb'. destruct Hb' as (b & <- & Hb).
  unfold schema_ok in Hs. rewrite Forall_forall in Hs.
  destruct (is_budget id userID b); [|exact (Hs b Hb)].
  apply parse_month_inv in Hp. destruct Hp as (_ & Hv & _).
  split; [exact Hv|]. intros c Hc. exact (category_param_positive _ _ Hc).
Qed.

Lemma CreateBudget_failure_writes_nothing userID req s e s' :
  faults s = [] -> schema_ok (tables s) ->
  CreateBudget userID req s = (Err e, s') -> tables s' = tables s.
Proof.
  intros F Hs H. unfold CreateBudget in H.
  destruct (parse_month (BudgetRequest.Month req)) as [month|] eqn:Hp;
    [|inversion H; reflexivity].
  apply bind_inv in H. destruct H as [(e0 & H & _)|([] & s1 & Hc & H)].
  { destruct (reads_check_placement _ _ _ _ _ _ _ H) as (T & _). exact T. }
  destruct (reads_check_placement _ _ _ _ _ _ _ Hc) as (T1 & _ & F1 & _).
  apply bind_inv in H. destruct H as [(e0 & H & _)|(id & s2 & Hx & H)].
  { apply db_exec_inv in H.
    destruct H as (_ & _ & _ & [(a & t' & _ & Hr & _)|(T & _)]);
      [discriminate|congruence]. }
  exfalso.
  apply db_exec_inv in Hx.
  destruct Hx as (_ & _ & F2 & [(a & t' & Hins & Hr & T2 & _)|(_ & e0 & Hr & _)]);
    [|discriminate].
  injection Hr as <-. apply insert_budget_ok_cents in Hins.
  destruct Hins as (cents & _ & -> & Ht').
  destruct (GetBudget_total (next_budget_id (tables s1)) userID s2
              (requested_row (next_budget_id (tables s1)) userID req cents
                             month))
    as (B & s3 & HB); auto.
  - unfold schema_ok. rewrite T2, Ht'. cbn [budgets].
    apply schema_ok_insert; [unfold schema_ok; rewrite T1; exact Hs|exact Hp].
  - rewrite T2, Ht'. cbn [budgets]. apply in_or_app. right. left. reflexivity.
  - congruence.
Qed.

Lemma UpdateBudget_failure_writes_nothing id userID req s e s' :
  faults s = [] -> schema_ok (tables s) ->
  UpdateBudget id userID req s = (Err e, s') -> tables s' = tables s.
Proof.
  intros F Hs H. unfold UpdateBudget in H.
  apply bind_inv in H. destruct H as [(e0 & H & _)|(B0 & s1 & HB0 & H)].
  { destruct (reads_GetBudget _ _ _ _ _ H) as (T & _). exact T. }
  destruct (reads_GetBudget _ _ _ _ _ HB0) as (T1 & _ & F1 & _).
  apply GetBudget_ok_inv in HB0.
  destruct HB0 as (row & m0 & Hin & Hid & Hu & _).
  apply bind_inv in H. destruct H as [(e0 & H & _)|([] & s2 & Hc & H)].
  { destruct (negb _).
    - destruct (reads_check_placement _ _ _ _ _ _ _ H) as (T & _). congruence.
    - inversion H. }
  assert (T2 : tables s2 = tables s1 /\ faults s2 = []).
  { destruct (negb _).
    - destruct (reads_check_placement _ _ _ _ _ _ _ Hc) as (T & _ & F2 & _).
      auto.
    - inversion Hc; subst. auto. }
  destruct T2 as [T2 F2].
  destruct (parse_month (BudgetRequest.Month req)) as [month|] eqn:Hp;
    [|inversion H; congruence].
  apply bind_inv in H. destruct H as [(e0 & H & _)|([] & s3 & Hx & H)].
  { apply db_exec_inv in H.
    destruct H as (_ & _ & _ & [(a & t' & _ & Hr & _)|(T & _)]);
      [discriminate|congruence]. }
  exfalso.
  apply db_exec_inv in Hx.
  destruct Hx as (_ & _ & F3 & [(a & t' & Hupd & _ & T3 & _)|(_ & e0 & Hr & _)]);
    [|discriminate].
  destruct a. apply update_budget_ok_cents in Hupd.
  destruct Hupd as (cents & _ & Ht').
  destruct (GetBudget_total id userID s3
              (requested_row id userID req cents month))
    as (B & s4 & HB); auto.
  - unfold schema_ok. rewrite T3, Ht'. cbn [budgets].
    apply schema_ok_update; [unfold schema_ok; rewrite T2, T1; exact Hs|exact Hp].
  - rewrite T3, Ht'. cbn [budgets]. apply in_map_iff. exists row.
    rewrite T2, T1. split; [|exact Hin].
    unfold is_budget. rewrite Hid, Hu, !N.eqb_refl. reflexivity.
  - congruence.
Qed.

Lemma CreateBudgetAlert_failure_writes_nothing userID req s e s' :
  faults s = [] ->
  CreateBudgetAlert userID req s = (Err e, s') -> tables s' = tables s.
Proof.
  intros F H. unfold CreateBudgetAlert in H.
  apply bind_inv in H. destruct H as [(e0 & H & _)|(B0 & s1 & HB0 & H)].
  { destruct (reads_GetBudget _ _ _ _ _ H) as (T & _). exact T. }
  destruct (reads_GetBudget _ _ _ _ _ HB0) as (T1 & _ & F1 & _).
  destruct (_ || _); [inversion H; congruence|].
  apply bind_inv in H. destruct H as [(e0 & H & _)|(count & s2 & Hc & H)].
  { destruct (reads_query QCountAlerts _ eq_refl _ _ _ H) as (T & _).
    congruence. }
  destruct (reads_query QCountAlerts _ eq_refl _ _ _ Hc) as (T2 & _ & F2 & _).
  destruct (0 <? count); [inversion H; congruence|].
  exfalso. revert H. unfold bind.
  rewrite db_exec_no_fault by auto. unfold insert_alert, ret. discriminate.
Qed.

Lemma UpdateBudgetAlert_failure_writes_nothing id userID req s e s' :
  faults s = [] ->
  UpdateBudgetAlert id userID req s = (Err e, s') -> tables s' = tables s.
Proof.
  intros F H. unfold UpdateBudgetAlert in H.
  apply bind_inv in H. destruct H as [(e0 & H & _)|(ex & s0 & Hex & H)].
  { destruct (reads_query QAlertExists _ eq_refl _ _ _ H) as (T & _). exact T. }
  destruct (reads_query QAlertExists _ eq_refl _ _ _ Hex) as (T0 & _ & F0 & _).
  apply db_query_ok_inv in Hex. destruct Hex as [_ Hex]. injection Hex as Hex.
  destruct ex; cbn [negb] in H; [|inversion H; congruence].
  apply bind_inv in H. destruct H as [(e0 & H & _)|(B0 & s1 & HB0 & H)].
  { destruct (reads_GetBudget _ _ _ _ _ H) as (T & _). congruence. }
  destruct (reads_GetBudget _ _ _ _ _ HB0) as (T1 & _ & F1 & _).
  destruct (_ || _); [inversion H; congruence|].
  apply bind_inv in H. destruct H as [(e0 & H & _)|(count & s2 & Hc & H)].
  { destruct (reads_query QCountAlerts _ eq_refl _ _ _ H) as (T & _).
    congruence. }
  destruct (reads_query QCountAlerts _ eq_refl _ _ _ Hc) as (T2 & _ & F2 & _).
  destruct (0 <? count); [inversion H; congruence|].
  exfalso. revert H. unfold bind at 1.
  rewrite db_exec_no_fault by auto. unfold update_alert.
  unfold bind. rewrite db_query_no_fault by reflexivity.
  cbn [tables]. unfold select_alert_by_id. cbn [budget_alerts].
  unfold alert_exists in Hex.
  apply existsb_exists in Hex. destruct Hex as (a & Ha & Hau).
  apply andb_prop in Hau. destruct Hau as [Hid Hu].
  match goal with
  | |- context [first_row (filter ?p (map ?g ?l))] =>
      assert (Hin : In (g a) (filter p (map g l)))
  end.
  { apply filter_In. split.
    - apply in_map_iff. exists a. split; [reflexivity|].
      rewrite T2, T1, T0. exact Ha.
    - cbn beta. rewrite Hid, Hu. cbn. exact Hid. }
  match goal with
  | |- context [first_row ?rows] => destruct rows; [destruct Hin|]
  end.
  cbn [first_row]. unfold ret. discriminate.
Qed.

Lemma DeleteBudgetAlert_failure_writes_nothing id userID s e s' :
  faults s = [] ->
  DeleteBudgetAlert id userID s = (Err e, s') -> tables s' = tables s.
Proof.
  intros F H. unfold DeleteBudgetAlert in H.
  apply bind_inv in H. destruct H as [(e0 & H & _)|(ex & s0 & Hex & H)].
  { destruct (reads_query QAlertExists _ eq_refl _ _ _ H) as (T & _). exact T. }
  destruct (reads_query QAlertExists _ eq_refl _ _ _ Hex) as (T0 & _ & F0 & _).
  destruct (negb ex); [inversion H; congruence|].
  exfalso. revert H. rewrite db_exec_no_fault by auto.
  unfold delete_alert. discriminate.
Qed.

Lemma run_op_err_inv {A} (m : DB A) (f : A -> Reply) s e s' :
  bind m (fun a => ret (f a)) s = (Err e, s') -> m s = (Err e, s').
Proof.
  intros H. apply bind_inv in H.
  destruct H as [(e0 & H & He)|(a & s1 & _ & H)].
  - congruence.
  - inversion H.
Qed.

(** X8.  When the driver does not fail and no transaction is open, on
    tables whose budget rows hold what their column types allow, an
    operation that returns an error has written nothing: whatever check
    turned the request down, the tables are as they were before the
    call. *)
Theorem failed_operation_writes_nothing userID op s e s' :
  faults s = [] -> pending s = None -> schema_ok (tables s) ->
  run_op userID op s = (Err e, s') ->
  tables s' = tables s.
Proof.
  intros F Hp Hs H. destruct op; unfold run_op in H;
    apply run_op_err_inv in H.
  - destruct (reads_GetBudgets _ _ _ _ _ H) as (T & _). exact T.
  - exact (CreateBudget_failure_writes_nothing _ _ _ _ _ F Hs H).
  - destruct (reads_GetBudget _ _ _ _ _ H) as (T & _). exact T.
  - exact (UpdateBudget_failure_writes_nothing _ _ _ _ _ _ F Hs H).
  - destruct (DeleteBudget_outcome _ _ _ _ _ Hp H) as (_ & T & _). exact T.
  - exact (CreateBudgetAlert_failure_writes_nothing _ _ _ _ _ F H).
  - destruct (reads_GetBudgetAlerts _ _ _ _ _ H) as (T & _). exact T.
  - exact (UpdateBudgetAlert_failure_writes_nothing _ _ _ _ _ _ F H).
  - exact (DeleteBudgetAlert_failure_writes_nothing _ _ _ _ _ F H).
  - destruct (reads_CheckBudgetAlerts _ _ _ _ _ H) as (T & _). exact T.
Qed.

End Failures.

(** ** Alerts: what the operations write *)

Section AlertEffects.

Context {engine : SqlEngine}.

Lemma threshold_in_range (thr : Z) :
  (thr <? 1) || (100 <? thr) = false -> 1 <= thr <= 100.
Proof.
  intros H. apply orb_false_iff in H. destruct H as [H1 H2].
  apply Z.ltb_ge in H1, H2. lia.
Qed.

Lemma count_alerts_zero t budgetID threshold exclude count :
  count = count_alerts t budgetID threshold exclude ->
  (0 <? count) = false ->
  count_alerts t budgetID threshold exclude = 0.
Proof.
  intros -> H. apply Z.ltb_ge in H. unfold count_alerts in *. lia.
Qed.

Lemma count_alerts_zero_none t budgetID threshold exclude a :
  count_alerts t budgetID threshold exclude = 0 ->
  In a (budget_alerts t) ->
  al_budget_id a = budgetID -> al_threshold a = threshold ->
  not_excluded exclude (al_id a) = false.
Proof.
  unfold count_alerts. intros H Ha Hb Ht.
  destruct (not_excluded exclude (al_id a)) eqn:E; [|reflexivity].
  match type of H with
  | Z.of_nat (List.length (filter ?p ?l)) = 0 =>
      assert (Hin : In a (filter p l))
  end.
  { apply filter_In. split; [exact Ha|].
    rewrite Hb, Ht, N.eqb_refl, Z.eqb_refl, E. reflexivity. }
  destruct (filter _ _); [destruct Hin|cbn in H; lia].
Qed.

Lemma alert_exists_In t id userID :
  alert_exists t id userID = true ->
  exists a, In a (budget_alerts t) /\ al_id a = id /\ al_user_id a = userID.
Proof.
  unfold alert_exists. intros H. apply existsb_exists in H.
  destruct H as (a & Ha & Hc). apply andb_prop in Hc. destruct Hc as [H1 H2].
  apply N.eqb_eq in H1, H2. eauto.
Qed.

(** A call of [CreateBudgetAlert] that succeeds. *)
Lemma CreateBudgetAlert_ok_inv userID req s A s' :
  CreateBudgetAlert userID req s = (Ok A, s') ->
  owns_budget (tables s) userID (BudgetAlertRequest.BudgetID req)
  /\ 1 <= BudgetAlertRequest.Threshold req <= 100
  /\ count_alerts (tables s) (BudgetAlertRequest.BudgetID req)
       (BudgetAlertRequest.Threshold req) None = 0
  /\ A = alert_of_row (requested_alert (next_alert_id (tables s)) userID req)
  /\ tables s'
     = mkTables (categories (tables s)) (bills (tables s))
         (budgets (tables s))
         (budget_alerts (tables s)
          ++ [requested_alert (next_alert_id (tables s)) userID req])
         (next_budget_id (tables s)) (N.succ (next_alert_id (tables s)))
  /\ (faults s = [] -> faults s' = []).
Proof.
  intros H. unfold CreateBudgetAlert in H.
  apply bind_ok_inv in H. destruct H as (B0 & s1 & HB0 & H).
  destruct (reads_GetBudget _ _ _ _ _ HB0) as (T1 & _ & F1 & _).
  apply GetBudget_ok_inv in HB0.
  destruct HB0 as (row & m0 & Hin & Hid & Hu & _).
  destruct (_ || _) eqn:Hthr; [discriminate|].
  apply bind_ok_inv in H. destruct H as (count & s2 & Hc & H).
  destruct (reads_query QCountAlerts _ eq_refl _ _ _ Hc) as (T2 & _ & F2 & _).
  apply db_query_ok_inv in Hc. destruct Hc as [_ Hc].
  assert (Hcount : count = count_alerts (tables s1)
                     (BudgetAlertRequest.BudgetID req)
                     (BudgetAlertRequest.Threshold req) None) by congruence.
  destruct (0 <? count) eqn:E0; [discriminate|].
  apply bind_ok_inv in H. destruct H as (alertID & s3 & Hx & H).
  unfold ret in H. assert (s3 = s') by congruence. subst s3.
  apply db_exec_inv in Hx.
  destruct Hx as (_ & _ & F3 & [(a & t' & Hins & Hr & T3 & _)|(_ & e0 & Hr & _)]);
    [|discriminate].
  unfold insert_alert in Hins.
  assert (Ha : a = next_alert_id (tables s2)) by congruence.
  assert (Ht' : t' = mkTables (categories (tables s2)) (bills (tables s2))
                       (budgets (tables s2))
                       (budget_alerts (tables s2)
                        ++ [requested_alert (next_alert_id (tables s2))
                                            userID req])
                       (next_budget_id (tables s2))
                       (N.succ (next_alert_id (tables s2))))
    by (unfold requested_alert; congruence).
  assert (alertID = a) by congruence. subst alertID a.
  rewrite T2, T1 in Ht'. rewrite T2, T1 in H.
  rewrite T1 in Hcount.
  split; [exists row; auto|].
  split; [apply threshold_in_range; exact Hthr|].
  split; [eapply count_alerts_zero; eauto|].
  split; [unfold alert_of_row, requested_alert; cbn; congruence|].
  split; [congruence|auto].
Qed.

(** A call of [CreateBudgetAlert] that fails has written nothing. *)
Lemma CreateBudgetAlert_err_tables userID req s e s' :
  CreateBudgetAlert userID req s = (Err e, s') -> tables s' = tables s.
Proof.
  intros H. unfold CreateBudgetAlert in H.
  apply bind_inv in H. destruct H as [(e0 & H & _)|(B0 & s1 & HB0 & H)].
  { destruct (reads_GetBudget _ _ _ _ _ H) as (T & _). exact T. }
  destruct (reads_GetBudget _ _ _ _ _ HB0) as (T1 & _).
  destruct (_ || _); [inversion H; congruence|].
  apply bind_inv in H. destruct H as [(e0 & H & _)|(count & s2 & Hc & H)].
  { destruct (reads_query QCountAlerts _ eq_refl _ _ _ H) as (T & _).
    congruence. }
  destruct (reads_query QCountAlerts _ eq_refl _ _ _ Hc) as (T2 & _).
  destruct (0 <? count); [inversion H; congruence|].
  apply bind_inv in H. destruct H as [(e0 & H & _)|(a & s3 & _ & H)];
    [|inversion H].
  apply db_exec_inv in H.
  destruct H as (_ & _ & _ & [(a & t' & _ & Hr & _)|(T & _)]);
    [discriminate|congruence].
Qed.

(** What [UpdateBudgetAlert] leaves in the tables, whatever it returns. *)
Lemma UpdateBudgetAlert_tables id userID req s r s' :
  UpdateBudgetAlert id userID req s = (r, s') ->
  (tables s' = tables s /\ exists e, r = Err e)
  \/ (alert_exists (tables s) id userID = true
      /\ owns_budget (tables s) userID (BudgetAlertRequest.BudgetID req)
      /\ 1 <= BudgetAlertRequest.Threshold req <= 100
      /\ count_alerts (tables s) (BudgetAlertRequest.BudgetID req)
           (BudgetAlertRequest.Threshold req) (Some id) = 0
      /\ tables s'
         = mkTables (categories (tables s)) (bills (tables s))
             (budgets (tables s))
             (map (fun a => if is_alert id userID a
                            then requested_alert (al_id a) (al_user_id a) req
                            else a)
                  (budget_alerts (tables s)))
             (next_budget_id (tables s)) (next_alert_id (tables s))
      /\ (forall A, r = Ok A ->
            exists row, In row (budget_alerts (tables s'))
                        /\ al_id row = id /\ A = alert_of_row row)).
Proof.
  intros H. unfold UpdateBudgetAlert in H.
  apply bind_inv in H. destruct H as [(e0 & H & ->)|(ex & s0 & Hex & H)].
  { destruct (reads_query QAlertExists _ eq_refl _ _ _ H) as (T & _). eauto. }
  destruct (reads_query QAlertExists _ eq_refl _ _ _ Hex) as (T0 & _).
  apply db_query_ok_inv in Hex. destruct Hex as [_ Hex].
  assert (Hex' : ex = alert_exists (tables s) id userID) by congruence.
  clear Hex.
  destruct ex; cbn [negb] in H; [|inversion H; subst; left; eauto].
  apply bind_inv in H. destruct H as [(e0 & H & ->)|(B0 & s1 & HB0 & H)].
  { destruct (reads_GetBudget _ _ _ _ _ H) as (T & _). left.
    split; [congruence|eauto]. }
  destruct (reads_GetBudget _ _ _ _ _ HB0) as (T1 & _).
  apply GetBudget_ok_inv in HB0.
  destruct HB0 as (brow & m0 & Hin & Hid & Hu & _).
  destruct (_ || _) eqn:Hthr;
    [inversion H; subst; left; split; [congruence|eauto]|].
  apply bind_inv in H. destruct H as [(e0 & H & ->)|(count & s2 & Hc & H)].
  { destruct (reads_query QCountAlerts _ eq_refl _ _ _ H) as (T & _). left.
    split; [congruence|eauto]. }
  destruct (reads_query QCountAlerts _ eq_refl _ _ _ Hc) as (T2 & _).
  apply db_query_ok_inv in Hc. destruct Hc as [_ Hc].
  assert (Hcount : count = count_alerts (tables s1)
                     (BudgetAlertRequest.BudgetID req)
                     (BudgetAlertRequest.Threshold req) (Some id))
    by congruence.
  destruct (0 <? count) eqn:E0;
    [inversion H; subst; left; split; [congruence|eauto]|].
  apply bind_inv in H. destruct H as [(e0 & H & ->)|([] & s3 & Hx & H)].
  { apply db_exec_inv in H.
    destruct H as (_ & _ & _ & [(a & t' & _ & Hr & _)|(T & _)]);
      [discriminate|]. left. split; [congruence|eauto]. }
  right.
  apply db_exec_inv in Hx.
  destruct Hx as (_ & _ & _ & [(a & t' & Hupd & _ & T3 & _)|(_ & e0 & Hr & _)]);
    [|discriminate].
  unfold update_alert in Hupd.
  assert (Ht' : t' = mkTables (categories (tables s2)) (bills (tables s2))
                       (budgets (tables s2))
                       (map (fun a => if is_alert id userID a
                                      then requested_alert (al_id a)
                                             (al_user_id a) req
                                      else a)
                            (budget_alerts (tables s2)))
                       (next_budget_id (tables s2)) (next_alert_id (tables s2)))
    by (unfold is_alert, requested_alert; congruence).
  rewrite T2, T1, T0 in Ht'.
  assert (T' : tables s' = tables s3).
  { apply bind_inv in H. destruct H as [(e0 & H & _)|(row & s4 & Hq & H)].
    - destruct (reads_query QAlertById _ eq_refl _ _ _ H) as (T & _). exact T.
    - destruct (reads_query QAlertById _ eq_refl _ _ _ Hq) as (T & _).
      inversion H; subst. exact T. }
  split; [auto|].
  rewrite T1, T0 in Hcount.
  split; [exists brow; rewrite <- T0; auto|].
  split; [apply threshold_in_range; exact Hthr|].
  split; [eapply count_alerts_zero; eauto|].
  split; [congruence|].
  intros A ->. apply bind_ok_inv in H. destruct H as (row & s4 & Hq & H).
  apply db_query_ok_inv in Hq. destruct Hq as [_ Hq].
  apply first_row_ok_inv in Hq. destruct Hq as [rest Hq].
  assert (Hrow : In row (select_alert_by_id (tables s3) id))
    by (rewrite Hq; left; reflexivity).
  unfold select_alert_by_id in Hrow. apply filter_In in Hrow.
  destruct Hrow as [Hrow Hrid]. apply N.eqb_eq in Hrid.
  exists row. rewrite T'. inversion H; subst. auto.
Qed.

(** What [DeleteBudgetAlert] leaves in the tables, whatever it returns. *)
Lemma DeleteBudgetAlert_tables id userID s r s' :
  DeleteBudgetAlert id userID s = (r, s') ->
  (tables s' = tables s /\ exists e, r = Err e)
  \/ (r = Ok tt
      /\ alert_exists (tables s) id userID = true
      /\ tables s'
         = mkTables (categories (tables s)) (bills (tables s))
             (budgets (tables s))
             (filter (fun a => negb (is_alert id userID a))
                     (budget_alerts (tables s)))
             (next_budget_id (tables s)) (next_alert_id (tables s))).
Proof.
  intros H. unfold DeleteBudgetAlert in H.
  apply bind_inv in H. destruct H as [(e0 & H & ->)|(ex & s0 & Hex & H)].
  { destruct (reads_query QAlertExists _ eq_refl _ _ _ H) as (T & _). eauto. }
  destruct (reads_query QAlertExists _ eq_refl _ _ _ Hex) as (T0 & _).
  apply db_query_ok_inv in Hex. destruct Hex as [_ Hex].
  assert (Hex' : ex = alert_exists (tables s) id userID) by congruence.
  clear Hex.
  destruct ex; cbn [negb] in H; [|inversion H; subst; left; eauto].
  apply db_exec_inv in H.
  destruct H as (_ & _ & _ & [([] & t' & Hdel & Hr & T3 & _)|(T & e0 & Hr & _)]).
  - right. unfold delete_alert in Hdel. rewrite T0 in Hdel.
    split; [exact Hr|]. split; [auto|].
    unfold is_alert. congruence.
  - left. split; [congruence|eauto].
Qed.

Lemma CreateBudget_alerts userID req s r s' :
  CreateBudget userID req s = (r, s') ->
  budget_alerts (tables s') = budget_alerts (tables s).
Proof.
  intros H. unfold CreateBudget in H.
  destruct (parse_month (BudgetRequest.Month req)) as [month|];
    [|inversion H; reflexivity].
  apply bind_inv in H. destruct H as [(e0 & H & _)|([] & s1 & Hc & H)].
  { destruct (reads_check_placement _ _ _ _ _ _ _ H) as (T & _).
    rewrite T. reflexivity. }
  destruct (reads_check_placement _ _ _ _ _ _ _ Hc) as (T1 & _).
  apply bind_inv in H. destruct H as [(e0 & H & _)|(id & s2 & Hx & H)].
  { apply db_exec_inv in H.
    destruct H as (_ & _ & _ & [(a & t' & _ & Hr & _)|(T & _)]);
      [discriminate|]. rewrite T, T1. reflexivity. }
  destruct (reads_GetBudget _ _ _ _ _ H) as (T3 & _).
  apply db_exec_inv in Hx.
  destruct Hx as (_ & _ & _ & [(a & t' & Hins & _ & T2 & _)|(_ & e0 & Hr & _)]);
    [|discriminate].
  apply insert_budget_ok_cents in Hins. destruct Hins as (cents & _ & _ & Ht').
  rewrite T3, T2, Ht', <- T1. reflexivity.
Qed.

Lemma UpdateBudget_alerts id userID req s r s' :
  UpdateBudget id userID req s = (r, s') ->
  budget_alerts (tables s') = budget_alerts (tables s).
Proof.
  intros H. unfold UpdateBudget in H.
  apply bind_inv in H. destruct H as [(e0 & H & _)|(B0 & s1 & HB0 & H)].
  { destruct (reads_GetBudget _ _ _ _ _ H) as (T & _). rewrite T. reflexivity. }
  destruct (reads_GetBudget _ _ _ _ _ HB0) as (T1 & _).
  assert (K : forall r2 s2,
             (if negb (Budget.CategoryID B0 =? BudgetRequest.CategoryID req)%N
              then check_placement userID (BudgetRequest.CategoryID req)
                     (BudgetRequest.Month req) (Some id)
              else ret tt) s1 = (r2, s2) -> tables s2 = tables s1).
  { intros r2 s2 Hc. destruct (negb _).
    - destruct (reads_check_placement _ _ _ _ _ _ _ Hc) as (T & _). exact T.
    - inversion Hc; subst. reflexivity. }
  apply bind_inv in H. destruct H as [(e0 & H & _)|([] & s2 & Hc & H)].
  { rewrite (K _ _ H), T1. reflexivity. }
  apply K in Hc.
  destruct (parse_month (BudgetRequest.Month req)) as [month|];
    [|inversion H; subst; rewrite Hc, T1; reflexivity].
  apply bind_inv in H. destruct H as [(e0 & H & _)|([] & s3 & Hx & H)].
  { apply db_exec_inv in H.
    destruct H as (_ & _ & _ & [(a & t' & _ & Hr & _)|(T & _)]);
      [discriminate|]. rewrite T, Hc, T1. reflexivity. }
  destruct (reads_GetBudget _ _ _ _ _ H) as (T4 & _).
  apply db_exec_inv in Hx.
  destruct Hx as (_ & _ & _ & [(a & t' & Hupd & _ & T3 & _)|(_ & e0 & Hr & _)]);
    [|discriminate].
  destruct a. apply update_budget_ok_cents in Hupd.
  destruct Hupd as (cents & _ & Ht').
  rewrite T4, T3, Ht', <- T1, <- Hc. reflexivity.
Qed.

Lemma alert_rules_ext t t' :
  budget_alerts t' = budget_alerts t -> alert_rules t -> alert_rules t'.
Proof. unfold alert_rules. intros ->. auto. Qed.

Lemma alert_rules_filter t t' p :
  budget_alerts t' = filter p (budget_alerts t) ->
  alert_rules t -> alert_rules t'.
Proof.
  unfold alert_rules. intros -> [H1 H2]. split.
  - intros a Ha. apply filter_In in Ha. apply H1, Ha.
  - intros a1 a2 Ha1 Ha2. apply filter_In in Ha1, Ha2.
    apply H2; [apply Ha1|apply Ha2].
Qed.

(** X9.  The rules of the alerts are kept by every operation: whatever
    budget or alert operation runs, and whether it succeeds, fails or
    meets a failure of the driver, afterwards every alert still has a
    threshold in 1..100 and no two alerts of one budget have the same
    threshold. *)
Theorem operations_keep_alert_rules userID op s r s' :
  pending s = None -> alert_rules (tables s) ->
  run_op userID op s = (r, s') ->
  alert_rules (tables s').
Proof.
  intros Hp Hr H.
  assert (Hread : forall A (m : DB A) (f : A -> Reply),
             reads m -> run_op userID op = bind m (fun a => ret (f a)) ->
             alert_rules (tables s')).
  { intros A m f Hm E. rewrite E in H.
    assert (Hrd : reads (bind m (fun a => ret (f a))))
      by (apply reads_bind; [exact Hm|intros; apply reads_ret]).
    destruct (Hrd _ _ _ H) as (T & _). rewrite T. exact Hr. }
  destruct op; unfold run_op in H.
  - eapply Hread; [apply reads_GetBudgets|reflexivity].
  - apply bind_inv in H. destruct H as [(e & H & _)|(B & s1 & H & H1)].
    + eapply alert_rules_ext; [eapply CreateBudget_alerts; eauto|exact Hr].
    + inversion H1; subst.
      eapply alert_rules_ext; [eapply CreateBudget_alerts; eauto|exact Hr].
  - eapply Hread; [apply reads_GetBudget|reflexivity].
  - apply bind_inv in H. destruct H as [(e & H & _)|(B & s1 & H & H1)].
    + eapply alert_rules_ext; [eapply UpdateBudget_alerts; eauto|exact Hr].
    + inversion H1; subst.
      eapply alert_rules_ext; [eapply UpdateBudget_alerts; eauto|exact Hr].
  - assert (Hd : exists r0, DeleteBudget id userID s = (r0, s')).
    { apply bind_inv in H. destruct H as [(e & H & _)|(B & s1 & H & H1)].
      - eauto.
      - inversion H1; subst. eauto. }
    destruct Hd as (r0 & Hd).
    destruct (DeleteBudget_outcome _ _ _ _ _ Hp Hd) as (_ & Ht & _).
    destruct r0 as [?|?].
    + destruct Ht as [_ Ht].
      eapply alert_rules_filter; [|exact Hr]. rewrite Ht. reflexivity.
    + rewrite Ht. exact Hr.
  - apply bind_inv in H. destruct H as [(e & H & _)|(A & s1 & H & H1)].
    + rewrite (CreateBudgetAlert_err_tables _ _ _ _ _ H). exact Hr.
    + inversion H1; subst.
      apply CreateBudgetAlert_ok_inv in H.
      destruct H as (_ & Hrange & Hcount & _ & Ht & _).
      destruct Hr as [R1 R2]. unfold alert_rules. rewrite Ht.
      cbn [budget_alerts]. split.
      * intros a Ha. apply in_app_or in Ha. destruct Ha as [Ha|[<-|[]]];
          [apply R1, Ha|exact Hrange].
      * intros a1 a2 Ha1 Ha2 Hb Hth.
        apply in_app_or in Ha1, Ha2.
        destruct Ha1 as [Ha1|[<-|[]]], Ha2 as [Ha2|[<-|[]]].
        -- apply R2; assumption.
        -- cbn in Hb, Hth.
           pose proof (count_alerts_zero_none _ _ _ _ _ Hcount Ha1 Hb Hth) as C.
           discriminate C.
        -- cbn in Hb, Hth. symmetry in Hb, Hth.
           pose proof (count_alerts_zero_none _ _ _ _ _ Hcount Ha2 Hb Hth) as C.
           discriminate C.
        -- reflexivity.
  - eapply Hread; [apply reads_GetBudgetAlerts|reflexivity].
  - assert (Hd : exists r0, UpdateBudgetAlert id userID req s = (r0, s')).
    { apply bind_inv in H. destruct H as [(e & H & _)|(B & s1 & H & H1)].
      - eauto.
      - inversion H1; subst. eauto. }
    destruct Hd as (r0 & Hd). apply UpdateBudgetAlert_tables in Hd.
    destruct Hd as [(T & _)|(_ & _ & Hrange & Hcount & Ht & _)].
    { rewrite T. exact Hr. }
    destruct Hr as [R1 R2]. unfold alert_rules. rewrite Ht.
    cbn [budget_alerts].
    assert (Hnew : forall a x,
               In x (budget_alerts (tables s)) ->
               is_alert id userID a = true ->
               is_alert id userID x = false ->
               al_budget_id x = BudgetAlertRequest.BudgetID req ->
               al_threshold x = BudgetAlertRequest.Threshold req ->
               al_id a = al_id x).
    { intros a x Hx Ha Hnx Hb Hth.
      pose proof (count_alerts_zero_none _ _ _ _ _ Hcount Hx Hb Hth) as C.
      cbn [not_excluded] in C. apply negb_false_iff, N.eqb_eq in C.
      unfold is_alert in Ha. apply andb_prop in Ha. destruct Ha as [Ha _].
      apply N.eqb_eq in Ha. congruence. }
    split.
    + intros a Ha. apply in_map_iff in Ha. destruct Ha as (a0 & <- & Ha0).
      destruct (is_alert id userID a0); [exact Hrange|apply R1, Ha0].
    + intros a1 a2 Ha1 Ha2.
      apply in_map_iff in Ha1, Ha2.
      destruct Ha1 as (x1 & <- & Hx1), Ha2 as (x2 & <- & Hx2).
      destruct (is_alert id userID x1) eqn:E1,
               (is_alert id userID x2) eqn:E2; cbn; intros Hb Hth.
      * unfold is_alert in E1, E2. apply andb_prop in E1, E2.
        destruct E1 as [E1 _], E2 as [E2 _]. apply N.eqb_eq in E1, E2.
        congruence.
      * apply (Hnew x1 x2); auto.
      * symmetry. apply (Hnew x2 x1); auto.
      * apply R2; assumption.
  - assert (Hd : exists r0, DeleteBudgetAlert id userID s = (r0, s')).
    { apply bind_inv in H. destruct H as [(e & H & _)|(B & s1 & H & H1)].
      - eauto.
      - inversion H1; subst. eauto. }
    destruct Hd as (r0 & Hd). apply DeleteBudgetAlert_tables in Hd.
    destruct Hd as [(T & _)|(_ & _ & Ht)].
    + rewrite T. exact Hr.
    + eapply alert_rules_filter; [|exact Hr]. rewrite Ht. reflexivity.
  - eapply Hread; [apply reads_CheckBudgetAlerts|reflexivity].
Qed.

End AlertEffects.

(** ** Alerts: creating, updating, deleting, listing *)

Section AlertOperations.

Context {engine : SqlEngine}.

(** X10.  An alert that [CreateBudgetAlert] returns has been appended to the
    alerts with the next id, the user of the call and the budget,
    threshold and active flag of the request; the budgets are untouched;
    and, when the driver does not fail, [GetBudgetAlerts] then lists it
    for that user, both for its budget and for all budgets (budget id
    0). *)
Theorem CreateBudgetAlert_adds_listed_alert userID req s A s' :
  CreateBudgetAlert userID req s = (Ok A, s') ->
  A = alert_of_row (requested_alert (next_alert_id (tables s)) userID req)
  /\ budget_alerts (tables s')
     = budget_alerts (tables s)
       ++ [requested_alert (next_alert_id (tables s)) userID req]
  /\ budgets (tables s') = budgets (tables s)
  /\ (faults s = [] ->
      forall budgetID,
        budgetID = 0%N \/ budgetID = BudgetAlertRequest.BudgetID req ->
        exists L s2, GetBudgetAlerts userID budgetID s' = (Ok L, s2)
                     /\ In A L).
Proof.
  intros H. apply CreateBudgetAlert_ok_inv in H.
  destruct H as (_ & _ & _ & HA & Ht & F).
  split; [exact HA|]. rewrite Ht. cbn [budget_alerts budgets].
  split; [reflexivity|]. split; [reflexivity|].
  intros F0 budgetID Hb. unfold GetBudgetAlerts, bind.
  rewrite db_query_no_fault by auto. unfold ret.
  eexists. eexists. split; [reflexivity|].
  subst A. apply in_map.
  unfold select_alerts.
  apply (Permutation_in _ (Permutation_sym (order_alerts_perm _))).
  apply filter_In. rewrite Ht. cbn [budget_alerts]. split.
  - apply in_or_app. right. left. reflexivity.
  - cbn. rewrite N.eqb_refl. cbn.
    destruct Hb as [->| ->]; [reflexivity|].
    destruct (N.ltb 0 _); [apply N.eqb_refl|reflexivity].
Qed.

(** X11.  An alert that [UpdateBudgetAlert] returns is the alert of that id,
    which was an alert of the user, and now has the budget, threshold
    and active flag of the request, with its id and user as before; the
    budget is one of the user, the threshold is in 1..100 and no other
    alert of that budget has it; every other alert and every budget is
    untouched. *)
Theorem UpdateBudgetAlert_writes_requested_alert id userID req s A s' :
  NoDup (map al_id (budget_alerts (tables s))) ->
  UpdateBudgetAlert id userID req s = (Ok A, s') ->
  (exists a, In a (budget_alerts (tables s))
             /\ al_id a = id /\ al_user_id a = userID)
  /\ owns_budget (tables s) userID (BudgetAlertRequest.BudgetID req)
  /\ 1 <= BudgetAlertRequest.Threshold req <= 100
  /\ count_alerts (tables s) (BudgetAlertRequest.BudgetID req)
       (BudgetAlertRequest.Threshold req) (Some id) = 0
  /\ A = alert_of_row (requested_alert id userID req)
  /\ budget_alerts (tables s')
     = map (fun a => if N.eqb (al_id a) id
                     then requested_alert id userID req else a)
           (budget_alerts (tables s))
  /\ budgets (tables s') = budgets (tables s).
Proof.
  intros Hnd H. apply UpdateBudgetAlert_tables in H.
  destruct H as [(_ & e & He)|(Hex & Hown & Hrange & Hcount & Ht & HA)];
    [discriminate|].
  apply alert_exists_In in Hex. destruct Hex as (a & Ha & Hid & Hu).
  assert (Hmap : map (fun a0 => if is_alert id userID a0
                                then requested_alert (al_id a0)
                                       (al_user_id a0) req
                                else a0)
                     (budget_alerts (tables s))
                 = map (fun a0 => if N.eqb (al_id a0) id
                                  then requested_alert id userID req else a0)
                       (budget_alerts (tables s))).
  { apply map_ext_in. intros x Hx. unfold is_alert.
    destruct (N.eqb (al_id x) id) eqn:E; [|reflexivity].
    apply N.eqb_eq in E.
    assert (x = a)
      by (apply (NoDup_map_inj al_id (budget_alerts (tables s))); auto;
          congruence).
    subst x. rewrite Hu, Hid, N.eqb_refl. reflexivity. }
  split; [eauto|]. split; [exact Hown|]. split; [exact Hrange|].
  split; [exact Hcount|].
  assert (Hal : budget_alerts (tables s')
                = map (fun a0 => if N.eqb (al_id a0) id
                                 then requested_alert id userID req else a0)
                      (budget_alerts (tables s)))
    by (rewrite Ht; cbn [budget_alerts]; exact Hmap).
  split.
  - destruct (HA A eq_refl) as (row & Hrow & Hrid & ->).
    rewrite Hal in Hrow. apply in_map_iff in Hrow.
    destruct Hrow as (x & Hx & Hxin).
    destruct (N.eqb (al_id x) id) eqn:E; [congruence|].
    subst x. apply N.eqb_neq in E. contradiction.
  - split; [exact Hal|]. rewrite Ht. reflexivity.
Qed.

(** X12.  When [DeleteBudgetAlert] succeeds, the alert of that id was an
    alert of the user; afterwards an alert is there exactly when it was
    there before and is not that alert, so the user has no alert of
    that id left; the budgets are untouched. *)
Theorem DeleteBudgetAlert_removes_that_alert id userID s s' :
  DeleteBudgetAlert id userID s = (Ok tt, s') ->
  (exists a, In a (budget_alerts (tables s))
             /\ al_id a = id /\ al_user_id a = userID)
  /\ (forall a, In a (budget_alerts (tables s'))
                <-> In a (budget_alerts (tables s))
                    /\ ~ (al_id a = id /\ al_user_id a = userID))
  /\ alert_exists (tables s') id userID = false
  /\ budgets (tables s') = budgets (tables s).
Proof.
  intros H. apply DeleteBudgetAlert_tables in H.
  destruct H as [(_ & e & He)|(_ & Hex & Ht)]; [discriminate|].
  split; [apply alert_exists_In; exact Hex|].
  assert (Hin : forall a, In a (budget_alerts (tables s'))
                          <-> In a (budget_alerts (tables s))
                              /\ ~ (al_id a = id /\ al_user_id a = userID)).
  { intros a. rewrite Ht. cbn [budget_alerts]. rewrite filter_In.
    unfold is_alert. rewrite negb_true_iff, andb_false_iff, !N.eqb_neq.
    destruct (N.eq_dec (al_id a) id); tauto. }
  split; [exact Hin|]. split; [|rewrite Ht; reflexivity].
  destruct (alert_exists (tables s') id userID) eqn:E; [|reflexivity].
  apply alert_exists_In in E. destruct E as (a & Ha & Hid & Hu).
  apply Hin in Ha. tauto.
Qed.

(** X13.  An alert id that is not an alert of the user, because no alert has
    it or because it is an alert of somebody else, is not found:
    [UpdateBudgetAlert] and [DeleteBudgetAlert] return the not-found
    error and write nothing. *)
Theorem foreign_alert_is_not_found id userID req s :
  faults s = [] ->
  (forall a, In a (budget_alerts (tables s)) ->
             al_id a = id -> al_user_id a <> userID) ->
  (exists s1, UpdateBudgetAlert id userID req s = (Err ErrAlertNotFound, s1)
              /\ tables s1 = tables s)
  /\ (exists s2, DeleteBudgetAlert id userID s = (Err ErrAlertNotFound, s2)
                 /\ tables s2 = tables s).
Proof.
  intros F Hno.
  assert (Hex : alert_exists (tables s) id userID = false).
  { destruct (alert_exists (tables s) id userID) eqn:E; [|reflexivity].
    apply alert_exists_In in E. destruct E as (a & Ha & Hid & Hu).
    destruct (Hno a Ha Hid Hu). }
  split.
  - unfold UpdateBudgetAlert, bind. rewrite db_query_no_fault by exact F.
    rewrite Hex. cbn [negb]. unfold fail. eexists. split; reflexivity.
  - unfold DeleteBudgetAlert, bind. rewrite db_query_no_fault by exact F.
    rewrite Hex. cbn [negb]. unfold fail. eexists. split; reflexivity.
Qed.

(** X14.  [GetBudgetAlerts] returns the alerts of the user, those of the
    budget asked for or, with budget id 0, all of them, in some order:
    each as often as it is in the table, and nothing else. *)
Theorem GetBudgetAlerts_lists_the_alerts userID budgetID s L s' :
  GetBudgetAlerts userID budgetID s = (Ok L, s') ->
  Permutation L
    (map alert_of_row
       (filter (fun a => N.eqb (al_user_id a) userID
                         && (N.eqb budgetID 0
                             || N.eqb (al_budget_id a) budgetID))
               (budget_alerts (tables s))))
  /\ tables s' = tables s.
Proof.
  intros H.
  destruct (reads_GetBudgetAlerts _ _ _ _ _ H) as (T & _).
  split; [|exact T].
  unfold GetBudgetAlerts in H.
  apply bind_ok_inv in H. destruct H as (rows & s1 & Hq & H).
  apply db_query_ok_inv in Hq. destruct Hq as [_ Hq].
  assert (Hrows : rows = select_alerts (tables s) userID budgetID)
    by congruence.
  assert (HL : L = map alert_of_row rows) by (inversion H; reflexivity).
  subst L rows. apply Permutation_map. unfold select_alerts.
  eapply Permutation_trans; [apply order_alerts_perm|].
  match goal with
  | |- Permutation (filter ?p ?l) (filter ?q ?l) =>
      assert (E : filter p l = filter q l)
  end.
  { apply filter_ext. intros a. f_equal.
    destruct (N.ltb 0 budgetID) eqn:E0.
    - apply N.ltb_lt in E0.
      assert (E1 : N.eqb budgetID 0 = false) by (apply N.eqb_neq; lia).
      rewrite E1. reflexivity.
    - apply N.ltb_ge in E0.
      assert (E1 : N.eqb budgetID 0 = true) by (apply N.eqb_eq; lia).
      rewrite E1. reflexivity. }
  rewrite E. apply Permutation_refl.
Qed.

End AlertOperations.

(** * The request limiter *)

Lemma Sub_lt_Second t u : Sub t u < Second <-> t - u < Second.
Proof.
  unfold Sub, minDuration, maxDuration, Second. cbv zeta.
  destruct (t - u <? -9223372036854775808) eqn:E1.
  - apply Z.ltb_lt in E1. lia.
  - apply Z.ltb_ge in E1.
    destruct (9223372036854775807 <? t - u) eqn:E2.
    + apply Z.ltb_lt in E2. lia.
    + reflexivity.
Qed.

Lemma Sub_monotone t t' u : t <= t' -> Sub t u <= Sub t' u.
Proof.
  unfold Sub, minDuration, maxDuration. cbv zeta. intros H.
  destruct (t - u <? -9223372036854775808) eqn:E1,
           (t' - u <? -9223372036854775808) eqn:E1',
           (9223372036854775807 <? t - u) eqn:E2,
           (9223372036854775807 <? t' - u) eqn:E2';
    try apply Z.ltb_lt in E1; try apply Z.ltb_ge in E1;
    try apply Z.ltb_lt in E1'; try apply Z.ltb_ge in E1';
    try apply Z.ltb_lt in E2; try apply Z.ltb_ge in E2;
    try apply Z.ltb_lt in E2'; try apply Z.ltb_ge in E2'; lia.
Qed.

Lemma map_set_same {V} (m : string -> option V) k v :
  map_set m k v k = Some v.
Proof. unfold map_set. rewrite String.eqb_refl. reflexivity. Qed.

Lemma map_set_other {V} (m : string -> option V) k v k' :
  k' <> k -> map_set m k v k' = m k'.
Proof.
  intros H. unfold map_set. apply String.eqb_neq in H. rewrite H. reflexivity.
Qed.

(** What [RateLimiter] leaves for another address, and what it leaves
    for its own when the request passes. *)
Lemma RateLimiter_other ip now l v l' ip' :
  RateLimiter ip now l = (v, l') -> ip' <> ip ->
  ipRequestCount l' ip' = ipRequestCount l ip'
  /\ ipLastRequest l' ip' = ipLastRequest l ip'.
Proof.
  unfold RateLimiter, accept. intros H Hne.
  destruct (ipLastRequest l ip) as [lastTime|];
    [destruct (Sub now lastTime <? Second);
     [destruct (10 <? count_of (ipRequestCount l) ip)|]|];
    inversion H; subst; cbn; auto using map_set_other.
Qed.

Lemma limiter_ok_RateLimiter ip now l v l' :
  limiter_ok l -> RateLimiter ip now l = (v, l') -> limiter_ok l'.
Proof.
  intros Hok H ip'. pose proof (Hok ip') as Hip'.
  destruct (String.eqb ip' ip) eqn:E.
  - apply String.eqb_eq in E. subst ip'.
    unfold RateLimiter, accept in H.
    destruct (ipLastRequest l ip) as [lastTime|] eqn:El.
    + destruct Hip' as (c & Hc & Hr).
      destruct (Sub now lastTime <? Second).
      * unfold count_of in H. rewrite Hc in H.
        destruct (10 <? c) eqn:E10; inversion H; subst.
        -- rewrite El. eauto.
        -- cbn. rewrite !map_set_same. apply Z.ltb_ge in E10.
           exists (c + 1). split; [reflexivity|lia].
      * inversion H; subst. cbn. rewrite !map_set_same.
        exists 1. split; [reflexivity|lia].
    + inversion H; subst. cbn. rewrite !map_set_same.
      exists 1. split; [reflexivity|lia].
  - apply String.eqb_neq in E.
    destruct (RateLimiter_other _ _ _ _ _ _ H E) as [-> ->]. exact Hip'.
Qed.

Lemma limiter_ok_sweep clock l : limiter_ok l -> limiter_ok (sweep clock l).
Proof.
  intros Hok ip. pose proof (Hok ip) as Hip. unfold sweep.
  cbn [ipRequestCount ipLastRequest].
  destruct (ipLastRequest l ip) as [lastTime|] eqn:El.
  - destruct (5 * Minute <? Sub (clock ip) lastTime); [reflexivity|].
    exact Hip.
  - exact Hip.
Qed.

(** X18.  The counts stay small: starting from the empty limiter, or from any
    limiter in which every address has both entries or none and a count
    from 1 to 11, this still holds after any sequence of requests and
    clean-up passes.  The count of an address never exceeds 11. *)
Theorem serve_keeps_counts_bounded evs l :
  limiter_ok l -> limiter_ok (snd (serve evs l)).
Proof.
  revert l. induction evs as [|[ip now|clock] rest IH]; intros l Hok.
  - exact Hok.
  - cbn [serve]. destruct (RateLimiter ip now l) as [v l1] eqn:E.
    specialize (IH l1 (limiter_ok_RateLimiter _ _ _ _ _ Hok E)).
    destruct (serve rest l1) as [vs l2]. exact IH.
  - cbn [serve]. apply IH, limiter_ok_sweep, Hok.
Qed.

(** Requests of one address that follow an accepted one at [lastTime],
    all within a second of each other. *)
Lemma burst_verdicts ip ts : forall l lastTime c,
  ipLastRequest l ip = Some lastTime ->
  ipRequestCount l ip = Some c ->
  (forall t t', In t (lastTime :: ts) -> In t' (lastTime :: ts) ->
                t - t' < Second) ->
  map snd (fst (serve (map (Request ip) ts) l))
  = map (fun k => if c + Z.of_nat k <=? 10 then Passed else TooManyRequests)
        (seq 0 (List.length ts)).
Proof.
  induction ts as [|t ts IH]; intros l lastTime c Hl Hc Hw; [reflexivity|].
  cbn [map serve List.length seq].
  assert (Ht : (Sub t lastTime <? Second) = true).
  { apply Z.ltb_lt, Sub_lt_Second, Hw; cbn; auto. }
  unfold RateLimiter at 1. rewrite Hl, Ht. unfold count_of. rewrite Hc.
  rewrite Z.add_0_r.
  destruct (10 <? c) eqn:E10.
  - apply Z.ltb_lt in E10.
    assert (E : (c <=? 10) = false) by (apply Z.leb_gt; lia). rewrite E.
    specialize (IH l lastTime c Hl Hc).
    destruct (serve (map (Request ip) ts) l) as [vs l2] eqn:Es.
    cbn [fst map snd]. f_equal. cbn [fst] in IH. rewrite IH.
    + rewrite <- seq_shift, map_map. apply map_ext. intros k.
      assert (E1 : (c + Z.of_nat k <=? 10) = false) by (apply Z.leb_gt; lia).
      assert (E2 : (c + Z.of_nat (S k) <=? 10) = false)
        by (apply Z.leb_gt; lia).
      rewrite E1, E2. reflexivity.
    + intros x y Hx Hy. apply Hw; cbn in *; tauto.
  - apply Z.ltb_ge in E10.
    assert (E : (c <=? 10) = true) by (apply Z.leb_le; lia). rewrite E.
    unfold accept.
    specialize (IH (mkIPRateLimiter (map_set (ipRequestCount l) ip (c + 1))
                                    (map_set (ipLastRequest l) ip t))
                   t (c + 1)).
    destruct (serve (map (Request ip) ts) _) as [vs l2] eqn:Es.
    cbn [fst map snd]. f_equal. cbn [fst] in IH. rewrite IH.
    + rewrite <- seq_shift, map_map. apply map_ext. intros k.
      replace (c + 1 + Z.of_nat k) with (c + Z.of_nat (S k)) by lia.
      reflexivity.
    + cbn. apply map_set_same.
    + cbn. apply map_set_same.
    + intros x y Hx Hy. apply Hw; cbn in *; tauto.
Qed.

(** X19.  A burst: when an address the limiter has no entry for sends
    requests that all lie within one second of each other, the first 11
    pass and every later one is answered with 429. *)
Theorem burst_admits_eleven ip t0 ts l :
  ipLastRequest l ip = None ->
  (forall t t', In t (t0 :: ts) -> In t' (t0 :: ts) -> t - t' < Second) ->
  map snd (fst (serve (map (Request ip) (t0 :: ts)) l))
  = map (fun k => if (k <? 11)%nat then Passed else TooManyRequests)
        (seq 0 (S (List.length ts))).
Proof.
  intros Hl Hw. cbn [map serve seq].
  unfold RateLimiter at 1. rewrite Hl. unfold accept.
  pose proof (burst_verdicts ip ts
                (mkIPRateLimiter (map_set (ipRequestCount l) ip 1)
                                 (map_set (ipLastRequest l) ip t0))
                t0 1 (map_set_same _ _ _) (map_set_same _ _ _) Hw) as B.
  destruct (serve (map (Request ip) ts) _) as [vs l2].
  cbn [fst map snd] in *. f_equal. rewrite B.
  rewrite <- seq_shift, map_map. apply map_ext. intros k.
  destruct (1 + Z.of_nat k <=? 10) eqn:E1.
  - apply Z.leb_le in E1.
    assert (E2 : (S k <? 11)%nat = true) by (apply Nat.ltb_lt; lia).
    rewrite E2. reflexivity.
  - apply Z.leb_gt in E1.
    assert (E2 : (S k <? 11)%nat = false) by (apply Nat.ltb_ge; lia).
    rewrite E2. reflexivity.
Qed.

Lemma RateLimiter_agree ip now l1 l2 :
  agree_on ip l1 l2 ->
  fst (RateLimiter ip now l1) = fst (RateLimiter ip now l2)
  /\ agree_on ip (snd (RateLimiter ip now l1)) (snd (RateLimiter ip now l2)).
Proof.
  intros [Hc Hl]. unfold RateLimiter, accept, count_of, agree_on.
  rewrite Hc, Hl.
  destruct (ipLastRequest l2 ip) as [lastTime|] eqn:E2;
    [destruct (Sub now lastTime <? Second);
     [destruct (10 <? _)|]|];
    cbn [fst snd ipRequestCount ipLastRequest]; rewrite ?map_set_same;
    repeat split; congruence.
Qed.

Lemma sweep_agree ip clock l1 l2 :
  agree_on ip l1 l2 -> agree_on ip (sweep clock l1) (sweep clock l2).
Proof.
  intros [Hc Hl]. unfold agree_on, sweep. cbn. rewrite Hc, Hl. auto.
Qed.

Lemma serve_agree ip evs : forall l1 l2,
  agree_on ip l1 l2 ->
  verdicts_of ip (fst (serve evs l1))
  = verdicts_of ip (fst (serve (filter (concerns ip) evs) l2))
  /\ agree_on ip (snd (serve evs l1))
                 (snd (serve (filter (concerns ip) evs) l2)).
Proof.
  induction evs as [|[ip' now|clock] rest IH]; intros l1 l2 Ha.
  - cbn. auto.
  - cbn [filter concerns].
    destruct (String.eqb ip' ip) eqn:E.
    + apply String.eqb_eq in E. subst ip'. cbn [serve].
      destruct (RateLimiter_agree ip now l1 l2 Ha) as [Hv Ha'].
      destruct (RateLimiter ip now l1) as [v1 l1'],
               (RateLimiter ip now l2) as [v2 l2'].
      cbn [fst snd] in Hv, Ha'. subst v2.
      specialize (IH l1' l2' Ha').
      destruct (serve rest l1') as [vs1 k1],
               (serve (filter (concerns ip) rest) l2') as [vs2 k2].
      cbn [fst snd] in *. unfold verdicts_of in *. cbn [filter fst].
      rewrite String.eqb_refl. cbn [map snd]. destruct IH as [-> IH2]. auto.
    + cbn [serve].
      destruct (RateLimiter ip' now l1) as [v1 l1'] eqn:E1.
      assert (Ha' : agree_on ip l1' l2).
      { apply String.eqb_neq in E.
        assert (Hne : ip <> ip') by congruence.
        destruct (RateLimiter_other _ _ _ _ _ _ E1 Hne) as [Hc Hl].
        destruct Ha as [Ha1 Ha2]. split; congruence. }
      specialize (IH l1' l2 Ha').
      destruct (serve rest l1') as [vs1 k1].
      cbn [fst snd] in *. unfold verdicts_of in *. cbn [filter fst].
      rewrite E. exact IH.
  - cbn [filter concerns serve]. apply IH, sweep_agree, Ha.
Qed.

(** X20.  Clients do not affect each other: the verdicts an address gets in
    a sequence of requests and clean-up passes are the verdicts it would
    get if the requests of all other addresses were left out. *)
Theorem verdicts_depend_on_own_requests ip evs l :
  verdicts_of ip (fst (serve evs l))
  = verdicts_of ip (fst (serve (filter (concerns ip) evs) l)).
Proof.
  apply serve_agree. split; reflexivity.
Qed.

Lemma cleaned_RateLimiter lo ip now l1 l2 :
  cleaned lo l1 l2 -> lo ip <= now ->
  fst (RateLimiter ip now l1) = fst (RateLimiter ip now l2)
  /\ cleaned lo (snd (RateLimiter ip now l1)) (snd (RateLimiter ip now l2)).
Proof.
  intros Hc Hlo.
  assert (Hother : forall v1 k1 v2 k2 ip',
             RateLimiter ip now l1 = (v1, k1) ->
             RateLimiter ip now l2 = (v2, k2) ->
             agree_on ip k1 k2 -> 
             agree_on ip' k1 k2
             \/ (ipLastRequest k1 ip' = None
                 /\ exists lastTime, ipLastRequest k2 ip' = Some lastTime
                                     /\ 5 * Minute < Sub (lo ip') lastTime)).
  { intros v1 k1 v2 k2 ip' E1 E2 Hag.
    destruct (String.eqb ip' ip) eqn:E.
    - apply String.eqb_eq in E. subst ip'. left. exact Hag.
    - apply String.eqb_neq in E.
      destruct (RateLimiter_other _ _ _ _ _ _ E1 E) as [C1 L1].
      destruct (RateLimiter_other _ _ _ _ _ _ E2 E) as [C2 L2].
      unfold agree_on. rewrite C1, L1, C2, L2. apply Hc. }
  destruct (Hc ip) as [Hag|(Hn & lastTime & Hl2 & Hst)].
  - destruct (RateLimiter_agree ip now l1 l2 Hag) as [Hv Hag'].
    split; [exact Hv|]. intros ip'.
    destruct (RateLimiter ip now l1) as [v1 k1] eqn:E1,
             (RateLimiter ip now l2) as [v2 k2] eqn:E2.
    eapply Hother; eauto.
  - assert (E1 : RateLimiter ip now l1 = accept ip 1 now l1)
      by (unfold RateLimiter; rewrite Hn; reflexivity).
    assert (E2 : RateLimiter ip now l2 = accept ip 1 now l2).
    { unfold RateLimiter. rewrite Hl2.
      assert (Hge : (Sub now lastTime <? Second) = false).
      { apply Z.ltb_ge. pose proof (Sub_monotone _ _ lastTime Hlo).
        unfold Minute, Second in *. lia. }
      rewrite Hge. reflexivity. }
    split; [rewrite E1, E2; reflexivity|]. intros ip'.
    apply (Hother Passed _ Passed _ ip');
      [rewrite E1; reflexivity|rewrite E2; reflexivity|].
    rewrite E1, E2. unfold agree_on, accept.
    cbn [snd ipRequestCount ipLastRequest]. rewrite !map_set_same. auto.
Qed.

Lemma cleaned_sweep lo clock l1 l2 :
  cleaned lo l1 l2 ->
  cleaned (fun ip => Z.max (lo ip) (clock ip)) (sweep clock l1) l2.
Proof.
  intros Hc ip. destruct (Hc ip) as [[Hcn Hl]|(Hn & lastTime & Hl2 & Hst)].
  - unfold sweep, agree_on. cbn [ipRequestCount ipLastRequest].
    destruct (ipLastRequest l1 ip) as [lastTime|] eqn:E1; [|left; auto].
    destruct (5 * Minute <? Sub (clock ip) lastTime) eqn:Es; [|left; auto].
    right. split; [reflexivity|]. exists lastTime. split; [congruence|].
    apply Z.ltb_lt in Es.
    pose proof (Sub_monotone (clock ip) (Z.max (lo ip) (clock ip)) lastTime
                  (Z.le_max_r _ _)). lia.
  - right. unfold sweep. cbn [ipRequestCount ipLastRequest]. rewrite Hn.
    split; [reflexivity|].
    exists lastTime. split; [exact Hl2|].
    pose proof (Sub_monotone (lo ip) (Z.max (lo ip) (clock ip)) lastTime
                  (Z.le_max_l _ _)). lia.
Qed.

Lemma serve_cleaned evs : forall lo l1 l2,
  cleaned lo l1 l2 ->
  (forall ip now, In (Request ip now) evs -> lo ip <= now) ->
  clock_ordered evs ->
  fst (serve evs l1) = fst (serve (filter is_request evs) l2).
Proof.
  induction evs as [|[ip now|clock] rest IH]; intros lo l1 l2 Hc Hlo Hord.
  - reflexivity.
  - cbn [filter is_request serve].
    assert (Hnow : lo ip <= now) by (apply Hlo; left; reflexivity).
    destruct (cleaned_RateLimiter lo ip now l1 l2 Hc Hnow) as [Hv Hc'].
    destruct (RateLimiter ip now l1) as [v1 k1],
             (RateLimiter ip now l2) as [v2 k2].
    cbn [fst snd] in Hv, Hc'. subst v2.
    specialize (IH lo k1 k2 Hc').
    destruct (serve rest k1) as [vs1 m1],
             (serve (filter is_request rest) k2) as [vs2 m2].
    cbn [fst] in *. f_equal. apply IH.
    + intros ip' now' Hin. apply Hlo. right. exact Hin.
    + exact Hord.
  - cbn [filter is_request serve]. destruct Hord as [Hclock Hord].
    apply (IH (fun ip => Z.max (lo ip) (clock ip))).
    + apply cleaned_sweep, Hc.
    + intros ip now Hin. apply Z.max_lub.
      * apply Hlo. right. exact Hin.
      * apply Hclock, Hin.
    + exact Hord.
Qed.

(** X21.  The clean-up is not observable: as long as the clock does not run
    backwards, every request gets the verdict it would get if the
    clean-up never ran.  Dropping the entries of an address that has
    been quiet for more than five minutes is what its next request
    would do anyway. *)
Theorem sweep_changes_no_verdict evs l :
  clock_ordered evs ->
  fst (serve evs l) = fst (serve (filter is_request evs) l).
Proof.
  intros Hord.
  assert (Hmin : forall evs0 : list Event,
             exists lo : Z, forall ip now,
                 In (Request ip now) evs0 -> lo <= now).
  { induction evs0 as [|[ip now|clock] rest IH].
    - exists 0. intros ? ? [].
    - destruct IH as (lo & Hlo). exists (Z.min lo now).
      intros ip' now' [Heq|Hin].
      + inversion Heq; subst. apply Z.le_min_r.
      + specialize (Hlo _ _ Hin). lia.
    - destruct IH as (lo & Hlo). exists lo.
      intros ip' now' [Heq|Hin]; [discriminate|eauto]. }
  destruct (Hmin evs) as (lo & Hlo).
  apply (serve_cleaned evs (fun _ => lo)).
  - intros ip. left. split; reflexivity.
  - exact Hlo.
  - exact Hord.
Qed.

(** * Deleting a category *)

Lemma c_bind_inv {A B} (m : CDB A) (k : A -> CDB B) s r s' :
  c_bind m k s = (r, s') ->
  (exists e, m s = (CErr e, s') /\ r = CErr e)
  \/ (exists a s1, m s = (COk a, s1) /\ k a s1 = (r, s')).
Proof.
  unfold c_bind. destruct (m s) as [[a|e] s1]; intros H.
  - right. eauto.
  - left. inversion H; subst. eauto.
Qed.

Lemma c_query_inv {A} (q : Tables -> CResult A) s r s' :
  c_query q s = (r, s') ->
  c_tables s' = c_tables s
  /\ (c_faults s = [] -> c_faults s' = [] /\ r = q (c_tables s))
  /\ (forall a, r = COk a -> q (c_tables s) = COk a).
Proof.
  unfold c_query. destruct (hd false (c_faults s)) eqn:E; intros H;
    inversion H; subst; cbn; (split; [reflexivity|]); split.
  - intros F. rewrite F in E. discriminate.
  - discriminate.
  - intros ->. auto.
  - auto.
Qed.

Lemma count_zero_all {A} (p : A -> bool) l :
  (0 <? Z.of_nat (List.length (filter p l))) = false ->
  forall x, In x l -> p x = false.
Proof.
  intros H x Hx. apply Z.ltb_ge in H.
  destruct (p x) eqn:E; [|reflexivity].
  assert (Hin : In x (filter p l)) by (apply filter_In; auto).
  destruct (filter p l); [destruct Hin|cbn in H; lia].
Qed.

Lemma count_pos_some {A} (p : A -> bool) l x :
  In x l -> p x = true -> (0 <? Z.of_nat (List.length (filter p l))) = true.
Proof.
  intros Hx Hp. apply Z.ltb_lt.
  assert (Hin : In x (filter p l)) by (apply filter_In; auto).
  destruct (filter p l); [destruct Hin|cbn; lia].
Qed.

Lemma count_none_zero {A} (p : A -> bool) l :
  (forall x, In x l -> p x = false) ->
  (0 <? Z.of_nat (List.length (filter p l))) = false.
Proof.
  intros H. apply Z.ltb_ge.
  assert (E : filter p l = []).
  { induction l as [|x l IH]; [reflexivity|]. cbn.
    rewrite (H x (or_introl eq_refl)). apply IH.
    intros y Hy. apply H. right. exact Hy. }
  rewrite E. cbn. lia.
Qed.

Lemma GetCategory_ok_inv id userID s C s' :
  GetCategory id userID s = (COk C, s') ->
  exists c, In c (categories (c_tables s))
            /\ cat_id c = id /\ cat_user_id c = userID
            /\ Category.ID C = id /\ Category.UserID C = userID.
Proof.
  intros H. apply c_query_inv in H. destruct H as (_ & _ & H).
  specialize (H C eq_refl).
  destruct (select_category (c_tables s) id userID) as [|c rest] eqn:E;
    [discriminate|].
  assert (Hc : In c (select_category (c_tables s) id userID))
    by (rewrite E; left; reflexivity).
  unfold select_category in Hc. apply filter_In in Hc.
  destruct Hc as [Hin Hc]. apply andb_prop in Hc. destruct Hc as [H1 H2].
  apply N.eqb_eq in H1, H2.
  unfold scan_category in H. destruct (cat_icon c); [|discriminate].
  injection H as <-. exists c. cbn. auto.
Qed.

(** With no bill and no budget on category [id], the DELETE removes the
    category row and nothing else. *)
Lemma delete_category_unreferenced id userID t :
  (forall b, In b (bills t) -> bill_category_id b <> id) ->
  (forall b, In b (budgets t) -> bud_category_id b <> Some id) ->
  delete_category id userID t
  = mkTables
      (filter (fun c => negb (N.eqb (cat_id c) id
                              && N.eqb (cat_user_id c) userID))
              (categories t))
      (bills t) (budgets t) (budget_alerts t)
      (next_budget_id t) (next_alert_id t).
Proof.
  intros Hb Hg. unfold delete_category.
  assert (Hdel : forall cid,
             existsb (fun c => N.eqb (cat_id c) id
                               && N.eqb (cat_user_id c) userID
                               && N.eqb (cat_id c) cid) (categories t) = true ->
             cid = id).
  { intros cid H. apply existsb_exists in H. destruct H as (c & _ & H).
    apply andb_prop in H. destruct H as [H H3]. apply andb_prop in H.
    destruct H as [H1 _]. apply N.eqb_eq in H1, H3. congruence. }
  f_equal.
  - apply forallb_filter_id. apply forallb_forall. intros b Hin.
    apply negb_true_iff.
    destruct (existsb _ (categories t)) eqn:E; [|reflexivity].
    apply Hdel in E. destruct (Hb b Hin E).
  - rewrite <- (map_id (budgets t)) at 2. apply map_ext_in. intros b Hin.
    destruct (bud_category_id b) as [cid|] eqn:Ec; [|reflexivity].
    destruct (existsb _ (categories t)) eqn:E; [|reflexivity].
    apply Hdel in E. subst cid. destruct (Hg b Hin Ec).
Qed.

(** X22.  [DeleteCategory] succeeds only for a category of the user that no
    bill and no budget refers to, and then removes that category row and
    nothing else: the bills, the budgets and the alerts are as before,
    so the cascade of the foreign keys never deletes a bill and never
    clears the category of a budget.  When it returns an error the
    tables are as they were. *)
Theorem DeleteCategory_only_unreferenced id userID s r s' :
  DeleteCategory id userID s = (r, s') ->
  match r with
  | COk _ =>
      (exists c, In c (categories (c_tables s))
                 /\ cat_id c = id /\ cat_user_id c = userID)
      /\ (forall b, In b (bills (c_tables s)) -> bill_category_id b <> id)
      /\ (forall b, In b (budgets (c_tables s)) ->
                    bud_category_id b <> Some id)
      /\ c_tables s'
         = mkTables
             (filter (fun c => negb (N.eqb (cat_id c) id
                                     && N.eqb (cat_user_id c) userID))
                     (categories (c_tables s)))
             (bills (c_tables s)) (budgets (c_tables s))
             (budget_alerts (c_tables s))
             (next_budget_id (c_tables s)) (next_alert_id (c_tables s))
  | CErr _ => c_tables s' = c_tables s
  end.
Proof.
  intros H. unfold DeleteCategory in H.
  apply c_bind_inv in H. destruct H as [(e & H & ->)|(C & s1 & HC & H)].
  { apply c_query_inv in H. apply H. }
  pose proof HC as HC'. apply c_query_inv in HC'. destruct HC' as (T1 & _).
  apply GetCategory_ok_inv in HC.
  destruct HC as (c & Hc & Hid & Hu & _).
  apply c_bind_inv in H. destruct H as [(e & H & ->)|(n1 & s2 & H1 & H)].
  { apply c_query_inv in H. destruct H as (T & _). congruence. }
  apply c_query_inv in H1. destruct H1 as (T2 & _ & H1).
  specialize (H1 n1 eq_refl).
  assert (Hn1 : n1 = count_bills_of_category (c_tables s1) id) by congruence.
  destruct (0 <? n1) eqn:E1; [inversion H; subst; congruence|].
  apply c_bind_inv in H. destruct H as [(e & H & ->)|(n2 & s3 & H2 & H)].
  { apply c_query_inv in H. destruct H as (T & _). congruence. }
  apply c_query_inv in H2. destruct H2 as (T3 & _ & H2).
  specialize (H2 n2 eq_refl).
  assert (Hn2 : n2 = count_budgets_of_category (c_tables s2) id)
    by congruence.
  destruct (0 <? n2) eqn:E2; [inversion H; subst; congruence|].
  unfold c_exec in H.
  destruct (hd false (c_faults s3));
    [inversion H; subst; cbn; congruence|].
  inversion H; subst r s'. cbn [c_tables].
  rewrite T3, T2, T1.
  assert (Hb : forall b, In b (bills (c_tables s)) -> bill_category_id b <> id).
  { intros b Hin Hq. subst n1. unfold count_bills_of_category in E1.
    rewrite T1 in E1. pose proof (count_zero_all _ _ E1 b Hin) as C0.
    cbn beta in C0. rewrite Hq, N.eqb_refl in C0. discriminate. }
  assert (Hg : forall b, In b (budgets (c_tables s)) ->
                         bud_category_id b <> Some id).
  { intros b Hin Hq. subst n2. unfold count_budgets_of_category in E2.
    rewrite T2, T1 in E2. pose proof (count_zero_all _ _ E2 b Hin) as C0.
    cbn beta in C0. rewrite Hq in C0. cbn [null_eqb] in C0.
    rewrite N.eqb_refl in C0. discriminate. }
  split; [eauto|]. split; [exact Hb|]. split; [exact Hg|].
  apply delete_category_unreferenced; assumption.
Qed.

Lemma DeleteCategory_no_fault id userID s :
  c_faults s = [] ->
  fst (DeleteCategory id userID s)
  = match select_category (c_tables s) id userID with
    | [] => CErr ErrCategoryMissing
    | c :: _ =>
        match scan_category c with
        | CErr e => CErr e
        | COk _ =>
            if 0 <? count_bills_of_category (c_tables s) id
            then CErr ErrCategoryInBills
            else if 0 <? count_budgets_of_category (c_tables s) id
                 then CErr ErrCategoryInBudgets
                 else COk tt
        end
    end.
Proof.
  destruct s as [t f]. cbn [c_faults c_tables]. intros ->.
  unfold DeleteCategory, c_bind, GetCategory, c_query, c_sent.
  cbn [c_faults c_tables hd tl].
  destruct (select_category t id userID) as [|c rest]; [reflexivity|].
  destruct (scan_category c); [|reflexivity].
  cbn [c_faults c_tables hd tl].
  destruct (0 <? count_bills_of_category t id); [reflexivity|].
  cbn [c_faults c_tables hd tl].
  destruct (0 <? count_budgets_of_category t id); reflexivity.
Qed.

(** X23.  When the driver does not fail, [DeleteCategory] of a category of
    the user is decided by the references to it: with a bill on the
    category it fails with the error of the bills, whoever owns the
    bill; with no bill but a budget on it, with the error of the
    budgets; with neither it succeeds.  Without a category of that id
    and user it fails with the not-found error. *)
Theorem DeleteCategory_outcome id userID s :
  c_faults s = [] ->
  let t := c_tables s in
  let r := fst (DeleteCategory id userID s) in
  (select_category t id userID = [] -> r = CErr ErrCategoryMissing)
  /\ (readable_category t id userID ->
      ((exists b, In b (bills t) /\ bill_category_id b = id) ->
       r = CErr ErrCategoryInBills)
      /\ ((forall b, In b (bills t) -> bill_category_id b <> id) ->
          (exists b, In b (budgets t) /\ bud_category_id b = Some id) ->
          r = CErr ErrCategoryInBudgets)
      /\ ((forall b, In b (bills t) -> bill_category_id b <> id) ->
          (forall b, In b (budgets t) -> bud_category_id b <> Some id) ->
          r = COk tt)).
Proof.
  intros F t r. subst t r. rewrite (DeleteCategory_no_fault _ _ _ F). split.
  - intros ->. reflexivity.
  - intros (c & rest & -> & Hicon). unfold scan_category.
    destruct (cat_icon c) as [icon|]; [clear Hicon|congruence].
    assert (Hbills : (forall b, In b (bills (c_tables s)) ->
                                bill_category_id b <> id) ->
                     (0 <? count_bills_of_category (c_tables s) id) = false).
    { intros Hb. unfold count_bills_of_category. apply count_none_zero.
      intros x Hx. apply N.eqb_neq, Hb, Hx. }
    split; [|split].
    + intros (b & Hin & Hq). unfold count_bills_of_category.
      rewrite (count_pos_some _ _ b Hin)
        by (cbn beta; rewrite Hq; apply N.eqb_refl).
      reflexivity.
    + intros Hb (b & Hin & Hq). rewrite (Hbills Hb).
      unfold count_budgets_of_category.
      rewrite (count_pos_some _ _ b Hin)
        by (cbn beta; rewrite Hq; cbn; apply N.eqb_refl).
      reflexivity.
    + intros Hb Hg. rewrite (Hbills Hb).
      assert (E2 : (0 <? count_budgets_of_category (c_tables s) id) = false).
      { unfold count_budgets_of_category. apply count_none_zero.
        intros x Hx. specialize (Hg x Hx).
        destruct (bud_category_id x) as [cid|]; [|reflexivity].
        cbn. apply N.eqb_neq. congruence. }
      rewrite E2. reflexivity.
Qed.

(** * The further properties on the sample database *)

Lemma demo_valid_dates :
  Forall (fun b => valid_date (bill_date b)) (bills demo_tables).
Proof.
  unfold valid_date. cbn. repeat constructor; cbn; lia.
Qed.

Lemma demo_slot_unique : slot_unique demo_tables.
Proof.
  intros b1 b2 H1 H2 (Hu & Hc & Hm). cbn in H1, H2.
  destruct H1 as [<-|[<-|[<-|[<-|[]]]]];
    destruct H2 as [<-|[<-|[<-|[<-|[]]]]];
    try reflexivity; cbn in Hu, Hc; try discriminate;
    vm_compute in Hm; discriminate.
Qed.

Lemma demo_alert_rules : alert_rules demo_tables.
Proof.
  split.
  - intros a Ha. cbn in Ha.
    destruct Ha as [<-|[<-|[<-|[<-|[]]]]]; cbn; lia.
  - intros a1 a2 H1 H2 Hb Ht. cbn in H1, H2.
    destruct H1 as [<-|[<-|[<-|[<-|[]]]]];
      destruct H2 as [<-|[<-|[<-|[<-|[]]]]];
      try reflexivity; cbn in Hb, Ht; discriminate.
Qed.

Lemma read_operations_write_nothing_witness :
  let run := run_op (engine := ref_engine) 1 (OpCheckAlerts demo_now)
               demo_store in
  is_read_op (OpCheckAlerts demo_now) = true
  /\ tables (snd run) = demo_tables /\ pending (snd run) = None.
Proof.
  cbv zeta.
  destruct (read_operations_write_nothing (engine := ref_engine) 1
              (OpCheckAlerts demo_now) demo_store _ _ eq_refl
              (surjective_pairing _)) as (T & P & _).
  split; [reflexivity|]. split; [exact T|exact P].
Defined.

Lemma CheckBudgetAlerts_repeatable_witness :
  faults demo_store = []
  /\ exists recs s1 s2,
       CheckBudgetAlerts (engine := ref_engine) demo_now 1 demo_store
       = (Ok recs, s1)
       /\ CheckBudgetAlerts (engine := ref_engine) demo_now 1 s1
          = (Ok recs, s2)
       /\ tables s2 = demo_tables.
Proof.
  split; [reflexivity|].
  assert (E : exists recs s1,
             CheckBudgetAlerts (engine := ref_engine) demo_now 1 demo_store
             = (Ok recs, s1))
    by (eexists; eexists; vm_compute; reflexivity).
  destruct E as (recs & s1 & E).
  destruct (CheckBudgetAlerts_repeatable (engine := ref_engine) demo_now 1
              demo_store recs s1 eq_refl E) as (s2 & E2 & T).
  exists recs, s1, s2. auto.
Defined.

Lemma GetBudgets_lists_the_month_witness :
  exists L s',
    GetBudgets (engine := ref_engine) 1 "2024-03" demo_store = (Ok L, s')
    /\ Permutation (map Budget.ID L) [1%N; 2%N].
Proof.
  assert (E : exists L s',
             GetBudgets (engine := ref_engine) 1 "2024-03" demo_store
             = (Ok L, s'))
    by (eexists; eexists; vm_compute; reflexivity).
  destruct E as (L & s' & E). exists L, s'. split; [exact E|].
  exact (proj1 (GetBudgets_lists_the_month (engine := ref_engine) 1
                  "2024-03" demo_store L s' E)).
Defined.

Lemma foreign_budget_is_not_found_witness :
  faults demo_store = []
  /\ owns_budget demo_tables 2 4
  /\ fst (GetBudget (engine := ref_engine) 4 1 demo_store)
     = Err ErrBudgetNotFound
  /\ fst (DeleteBudget (engine := ref_engine) 4 1 demo_store)
     = Err ErrBudgetNotFound.
Proof.
  assert (Hno : forall row, In row (budgets (tables demo_store)) ->
                            bud_id row = 4%N -> bud_user_id row <> 1%N).
  { intros row Hin. cbn in Hin.
    destruct Hin as [<-|[<-|[<-|[<-|[]]]]]; cbn; discriminate. }
  destruct (foreign_budget_is_not_found (engine := ref_engine) 4 1 demo_store
              eq_refl Hno) as (HG & _ & HD & _).
  split; [reflexivity|]. split; [|split; [exact HG|exact HD]].
  exists (mkBudgetRow 4 2 (Some 3%N) 100000 (mkDate 2024 3 1)). cbn. tauto.
Defined.

Lemma used_amount_is_the_calendar_month_witness :
  let B := Budget.mk 1 1 1 1000%float (mkTime (mkDate 2024 3 1) 0)
             "Food" "" 850%float 85%float in
  schema_ok demo_tables
  /\ returned_budget (engine := ref_engine) 1 demo_store B
  /\ exists row,
       In row (budgets demo_tables)
       /\ bud_id row = 1%N /\ bud_user_id row = 1%N
       /\ 850%float
          = ref_float64_of_decimal
              (sum_amounts (filter (bill_of_month 1 row) (bills demo_tables))).
Proof.
  intros B.
  assert (H : returned_budget (engine := ref_engine) 1 demo_store B).
  { left. exists 1%N. eexists. vm_compute. reflexivity. }
  split; [exact demo_schema_ok|]. split; [exact H|].
  exact (used_amount_is_the_calendar_month (engine := ref_engine)
           1 demo_store B demo_schema_ok demo_valid_dates H).
Defined.

Lemma CreateBudget_inserts_requested_row_witness :
  let req := BudgetRequest.mk 0 500%float "2024-05" in
  ids_fresh (tables demo_store)
  /\ exists B s',
       CreateBudget (engine := ref_engine) 1 req demo_store = (Ok B, s')
       /\ Budget.ID B = 5%N
       /\ budgets (tables s')
          = budgets demo_tables ++ [mkBudgetRow 5 1 None 50000 (mkDate 2024 5 1)].
Proof.
  intros req.
  assert (Hf : ids_fresh (tables demo_store))
    by exact (proj2 (proj2 demo_store_wf)).
  split; [exact Hf|].
  assert (E : exists B s',
             CreateBudget (engine := ref_engine) 1 req demo_store = (Ok B, s'))
    by (eexists; eexists; vm_compute; reflexivity).
  destruct E as (B & s' & E). exists B, s'. split; [exact E|].
  destruct (CreateBudget_inserts_requested_row (engine := ref_engine) 1 req
              demo_store B s' Hf E)
    as (cents & month & Hm & Hc & Ht & (Hid & _) & _).
  split; [exact Hid|].
  assert (month = mkTime (mkDate 2024 5 1) 0)
    by (vm_compute in Hm; congruence).
  assert (cents = 50000) by (vm_compute in Hc; congruence).
  subst month cents. rewrite Ht. reflexivity.
Defined.

Lemma UpdateBudget_writes_requested_row_witness :
  let req := BudgetRequest.mk 0 2500%float "2024-03" in
  exists B s',
    UpdateBudget (engine := ref_engine) 2 1 req demo_store = (Ok B, s')
    /\ Budget.Amount B = ref_float64_of_decimal 250000
    /\ budget_alerts (tables s') = budget_alerts demo_tables.
Proof.
  intros req.
  assert (E : exists B s',
             UpdateBudget (engine := ref_engine) 2 1 req demo_store
             = (Ok B, s'))
    by (eexists; eexists; vm_compute; reflexivity).
  destruct E as (B & s' & E). exists B, s'. split; [exact E|].
  destruct (UpdateBudget_writes_requested_row (engine := ref_engine) 2 1 req
              demo_store B s' E)
    as (cents & month & _ & Hc & Ht & (_ & _ & _ & Ha & _)).
  assert (cents = 250000) by (vm_compute in Hc; congruence). subst cents.
  split; [exact Ha|]. rewrite Ht. reflexivity.
Defined.

Lemma failed_operation_writes_nothing_witness :
  let op := OpCreate (BudgetRequest.mk 0 500%float "2024-03") in
  faults demo_store = [] /\ pending demo_store = None
  /\ schema_ok (tables demo_store)
  /\ exists s',
       run_op (engine := ref_engine) 1 op demo_store
       = (Err ErrBudgetExistsTotal, s')
       /\ tables s' = demo_tables.
Proof.
  intros op.
  split; [reflexivity|]. split; [reflexivity|]. split; [exact demo_schema_ok|].
  assert (E : exists s',
             run_op (engine := ref_engine) 1 op demo_store
             = (Err ErrBudgetExistsTotal, s'))
    by (eexists; vm_compute; reflexivity).
  destruct E as (s' & E). exists s'. split; [exact E|].
  exact (failed_operation_writes_nothing (engine := ref_engine) 1 op
           demo_store _ s' eq_refl eq_refl demo_schema_ok E).
Defined.

Lemma operations_keep_alert_rules_witness :
  let op := OpCreateAlert (BudgetAlertRequest.mk 1 70 true) in
  let run := run_op (engine := ref_engine) 1 op demo_store in
  pending demo_store = None /\ alert_rules (tables demo_store)
  /\ List.length (budget_alerts (tables (snd run))) = 5%nat
  /\ alert_rules (tables (snd run)).
Proof.
  cbv zeta.
  split; [reflexivity|]. split; [exact demo_alert_rules|].
  split; [vm_compute; reflexivity|].
  exact (operations_keep_alert_rules (engine := ref_engine) 1 _ demo_store
           _ _ eq_refl demo_alert_rules (surjective_pairing _)).
Defined.

Lemma CreateBudgetAlert_adds_listed_alert_witness :
  let req := BudgetAlertRequest.mk 1 70 true in
  exists A s',
    CreateBudgetAlert (engine := ref_engine) 1 req demo_store = (Ok A, s')
    /\ A = BudgetAlert.mk 5 1 1 70 true
    /\ exists L s2,
         GetBudgetAlerts (engine := ref_engine) 1 1 s' = (Ok L, s2)
         /\ In A L.
Proof.
  intros req.
  assert (E : exists A s',
             CreateBudgetAlert (engine := ref_engine) 1 req demo_store
             = (Ok A, s'))
    by (eexists; eexists; vm_compute; reflexivity).
  destruct E as (A & s' & E). exists A, s'. split; [exact E|].
  destruct (CreateBudgetAlert_adds_listed_alert (engine := ref_engine) 1 req
              demo_store A s' E) as (HA & _ & _ & HL).
  split; [exact HA|].
  apply (HL eq_refl 1%N). right. reflexivity.
Defined.

Lemma UpdateBudgetAlert_writes_requested_alert_witness :
  let req := BudgetAlertRequest.mk 2 60 true in
  NoDup (map al_id (budget_alerts (tables demo_store)))
  /\ exists A s',
       UpdateBudgetAlert (engine := ref_engine) 3 1 req demo_store
       = (Ok A, s')
       /\ A = BudgetAlert.mk 3 1 2 60 true
       /\ budgets (tables s') = budgets demo_tables.
Proof.
  intros req.
  assert (Hnd : NoDup (map al_id (budget_alerts (tables demo_store))))
    by exact (proj2 demo_pk_unique).
  split; [exact Hnd|].
  assert (E : exists A s',
             UpdateBudgetAlert (engine := ref_engine) 3 1 req demo_store
             = (Ok A, s'))
    by (eexists; eexists; vm_compute; reflexivity).
  destruct E as (A & s' & E). exists A, s'. split; [exact E|].
  destruct (UpdateBudgetAlert_writes_requested_alert (engine := ref_engine)
              3 1 req demo_store A s' Hnd E)
    as (_ & _ & _ & _ & HA & _ & Hb).
  split; [exact HA|exact Hb].
Defined.

Lemma DeleteBudgetAlert_removes_that_alert_witness :
  exists s',
    DeleteBudgetAlert 3 1 demo_store = (Ok tt, s')
    /\ alert_exists (tables s') 3 1 = false
    /\ budgets (tables s') = budgets demo_tables.
Proof.
  assert (E : exists s', DeleteBudgetAlert 3 1 demo_store = (Ok tt, s'))
    by (eexists; vm_compute; reflexivity).
  destruct E as (s' & E). exists s'. split; [exact E|].
  destruct (DeleteBudgetAlert_removes_that_alert 3 1 demo_store s' E)
    as (_ & _ & Hex & Hb).
  split; [exact Hex|exact Hb].
Defined.

Lemma foreign_alert_is_not_found_witness :
  faults demo_store = []
  /\ In (mkAlertRow 4 2 4 100 true) (budget_alerts demo_tables)
  /\ exists s2,
       DeleteBudgetAlert 4 1 demo_store = (Err ErrAlertNotFound, s2)
       /\ tables s2 = demo_tables.
Proof.
  assert (Hno : forall a, In a (budget_alerts (tables demo_store)) ->
                          al_id a = 4%N -> al_user_id a <> 1%N).
  { intros a Hin. cbn in Hin.
    destruct Hin as [<-|[<-|[<-|[<-|[]]]]]; cbn; discriminate. }
  destruct (foreign_alert_is_not_found (engine := ref_engine) 4 1
              (BudgetAlertRequest.mk 1 10 true) demo_store eq_refl Hno)
    as (_ & HD).
  split; [reflexivity|]. split; [cbn; tauto|exact HD].
Defined.

Lemma GetBudgetAlerts_lists_the_alerts_witness :
  exists L s',
    GetBudgetAlerts (engine := ref_engine) 1 0 demo_store = (Ok L, s')
    /\ Permutation L [BudgetAlert.mk 1 1 1 80 true;
                      BudgetAlert.mk 2 1 1 90 true;
                      BudgetAlert.mk 3 1 1 50 false]
    /\ tables s' = demo_tables.
Proof.
  assert (E : exists L s',
             GetBudgetAlerts (engine := ref_engine) 1 0 demo_store
             = (Ok L, s'))
    by (eexists; eexists; vm_compute; reflexivity).
  destruct E as (L & s' & E). exists L, s'. split; [exact E|].
  exact (GetBudgetAlerts_lists_the_alerts (engine := ref_engine) 1 0
           demo_store L s' E).
Defined.

Lemma CreateBudget_keeps_slot_unique_witness :
  let req := BudgetRequest.mk 0 500%float "2024-05" in
  let run := CreateBudget (engine := ref_engine) 1 req demo_store in
  slot_unique (tables demo_store)
  /\ List.length (budgets (tables (snd run))) = 5%nat
  /\ slot_unique (tables (snd run)).
Proof.
  cbv zeta. split; [exact demo_slot_unique|].
  split; [vm_compute; reflexivity|].
  exact (CreateBudget_keeps_slot_unique (engine := ref_engine) 1 _ demo_store
           _ _ demo_slot_unique (surjective_pairing _)).
Defined.

Lemma UpdateBudget_keeps_slot_unique_on_category_change_witness :
  let req := BudgetRequest.mk 1 500%float "2024-04" in
  let run := UpdateBudget (engine := ref_engine) 3 1 req demo_store in
  slot_unique (tables demo_store)
  /\ (exists B, fst run = Ok B /\ Budget.CategoryID B = 1%N)
  /\ slot_unique (tables (snd run)).
Proof.
  cbv zeta. split; [exact demo_slot_unique|].
  split; [eexists; split; vm_compute; reflexivity|].
  apply (UpdateBudget_keeps_slot_unique_on_category_change
           (engine := ref_engine) 3 1 (BudgetRequest.mk 1 500%float "2024-04")
           demo_store
           (fst (UpdateBudget (engine := ref_engine) 3 1
                   (BudgetRequest.mk 1 500%float "2024-04") demo_store))
           (snd (UpdateBudget (engine := ref_engine) 3 1
                   (BudgetRequest.mk 1 500%float "2024-04") demo_store))
           demo_slot_unique);
    [|apply surjective_pairing].
  intros B s0 H.
  assert (HB : Budget.CategoryID B = 0%N).
  { apply GetBudget_ok_inv in H.
    destruct H as (row & month & Hin & Hid & _ & _ & ->).
    cbn in Hin. destruct Hin as [<-|[<-|[<-|[<-|[]]]]];
      cbn in Hid; try discriminate Hid. reflexivity. }
  rewrite HB. cbn. discriminate.
Defined.

Lemma check_placement_category_witness :
  let run := check_placement 1 3 "2024-05" None demo_store in
  faults demo_store = []
  /\ NoDup (map cat_id (categories (tables demo_store)))
  /\ (0 < 3)%N
  /\ In (mkCategoryRow 3 2 "Rent" expense (Some "home"%string))
        (categories demo_tables)
  /\ fst run = Err ErrCategoryNotOwned.
Proof.
  cbv zeta.
  assert (Hnd : NoDup (map cat_id (categories (tables demo_store))))
    by (apply NoDup_N_decide; reflexivity).
  assert (Hin : In (mkCategoryRow 3 2 "Rent" expense (Some "home"%string))
                   (categories demo_tables)) by (cbn; tauto).
  destruct (check_placement_category 1 3 "2024-05" None demo_store _ _
              eq_refl Hnd eq_refl (surjective_pairing _))
    as (_ & Hforeign & _).
  split; [reflexivity|]. split; [exact Hnd|]. split; [reflexivity|].
  split; [exact Hin|].
  apply (Hforeign _ Hin); [reflexivity|cbn; discriminate].
Defined.

Lemma serve_keeps_counts_bounded_witness :
  let evs := [Request "10.0.0.1" 0; Request "10.0.0.1" 5;
              Sweep (fun _ => 10); Request "10.0.0.2" 20] in
  limiter_ok limiter
  /\ ipRequestCount (snd (serve evs limiter)) "10.0.0.1"%string = Some 2
  /\ limiter_ok (snd (serve evs limiter)).
Proof.
  cbv zeta.
  assert (H0 : limiter_ok limiter) by (intros ip; reflexivity).
  split; [exact H0|]. split; [vm_compute; reflexivity|].
  exact (serve_keeps_counts_bounded _ limiter H0).
Defined.

Lemma burst_admits_eleven_witness :
  let ip := "10.0.0.1"%string in
  ipLastRequest limiter ip = None
  /\ map snd (fst (serve (map (Request ip) (0 :: repeat 0 12)) limiter))
     = repeat Passed 11 ++ repeat TooManyRequests 2.
Proof.
  cbv zeta. split; [reflexivity|].
  assert (Hw : forall t t', In t (0 :: repeat 0 12) ->
                            In t' (0 :: repeat 0 12) -> t - t' < Second).
  { assert (H0 : forall t, In t (0 :: repeat 0 12) -> t = 0).
    { intros t [<-|Hin]; [reflexivity|]. exact (repeat_spec _ _ _ Hin). }
    intros t t' Ht Ht'. rewrite (H0 t Ht), (H0 t' Ht').
    unfold Second. lia. }
  exact (burst_admits_eleven "10.0.0.1" 0 (repeat 0 12) limiter eq_refl Hw).
Defined.

Lemma sweep_changes_no_verdict_witness :
  let ip := "10.0.0.1"%string in
  let evs := [Request ip 0; Sweep (fun _ => 400 * Second);
              Request ip (400 * Second + 1)] in
  clock_ordered evs
  /\ ipLastRequest (sweep (fun _ => 400 * Second)
                          (snd (RateLimiter ip 0 limiter))) ip = None
  /\ fst (serve evs limiter) = fst (serve (filter is_request evs) limiter).
Proof.
  cbv zeta.
  assert (Hord : clock_ordered
                   [Request "10.0.0.1" 0; Sweep (fun _ => 400 * Second);
                    Request "10.0.0.1" (400 * Second + 1)]).
  { cbn. split; [|exact I].
    intros ip now [H|[]]. injection H as _ <-. lia. }
  split; [exact Hord|]. split; [vm_compute; reflexivity|].
  exact (sweep_changes_no_verdict _ limiter Hord).
Defined.

Lemma DeleteCategory_only_unreferenced_witness :
  let run := DeleteCategory 4 1 (mkCStore demo_category_tables []) in
  fst run = COk tt
  /\ map cat_id (categories (c_tables (snd run))) = [1%N; 3%N]
  /\ bills (c_tables (snd run)) = bills demo_category_tables
  /\ budgets (c_tables (snd run)) = budgets demo_category_tables.
Proof.
  cbv zeta.
  pose proof (DeleteCategory_only_unreferenced 4 1
                (mkCStore demo_category_tables []) _ _
                (surjective_pairing _)) as H.
  assert (Hr : fst (DeleteCategory 4 1 (mkCStore demo_category_tables []))
               = COk tt) by (vm_compute; reflexivity).
  rewrite Hr in H. destruct H as (_ & _ & _ & Ht).
  split; [exact Hr|]. rewrite Ht. repeat split; reflexivity.
Defined.

Lemma DeleteCategory_outcome_witness :
  let s := mkCStore demo_category_tables [] in
  c_faults s = []
  /\ readable_category demo_category_tables 1 1
  /\ In (mkBillRow 1 1 1 50000 expense (mkDate 2024 3 1))
        (bills demo_category_tables)
  /\ fst (DeleteCategory 1 1 s) = CErr ErrCategoryInBills.
Proof.
  cbv zeta.
  assert (Hread : readable_category demo_category_tables 1 1).
  { eexists. eexists. split; [vm_compute; reflexivity|]. cbn. discriminate. }
  assert (Hin : In (mkBillRow 1 1 1 50000 expense (mkDate 2024 3 1))
                   (bills demo_category_tables)) by (cbn; auto).
  destruct (DeleteCategory_outcome 1 1 (mkCStore demo_category_tables [])
              eq_refl) as (_ & Hout).
  destruct (Hout Hread) as (Hbills & _).
  split; [reflexivity|]. split; [exact Hread|]. split; [exact Hin|].
  apply Hbills. eexists. split; [exact Hin|reflexivity].
Defined.
